(** * Maple West downloader: a shallow embedding of [unit.py], [main.py]
    and [qualitychecker.py], and the properties of the specification
    checked against it.

    Conventions of the embedding.
    - Python values that can sit in a pandas cell are the inductive [pyval].
    - A [DataFrame] is its header and its rows; the integer row index is not
      modelled, the code always renumbers it ([reset_index(drop=True)],
      [ignore_index=True], [index=False]).
    - Mutable objects ([Unit], the log, the failed-downloads record, the
      files on disk, the messages sent) are threaded explicitly: an
      operation takes the unit and the [World] and returns the new ones.
    - A call that may raise returns a [result], whose [Err] is the
      exception; a method that may also hand back [None] returns a [pyret].
    - [print] only writes to the console and is not modelled.
    - Libraries outside the repository (pandas' date and number parsers,
      regular expressions, the HTTP and cloud-storage clients, the modules
      [rules] and [channels]) are parameters, grouped in the classes
      [Pandas], [Network] and [Rules]. *)

From Stdlib Require Import String Ascii ZArith QArith List Lia Permutation
  Sorted DecimalString.
From stdpp Require Import base option gmap strings.
Import ListNotations.

Local Open Scope string_scope.
Local Open Scope Z_scope.

(** ** Python string operations used by the sources *)

Module PyStr.

(** [s.startswith(p)] *)
Fixpoint startswith (p s : string) : bool :=
  match p, s with
  | EmptyString, _ => true
  | String a p', String b s' => if Ascii.eqb a b then startswith p' s' else false
  | String _ _, EmptyString => false
  end.

(** [s[n:]] *)
Fixpoint drop (n : nat) (s : string) : string :=
  match n, s with
  | O, _ => s
  | S n', String _ s' => drop n' s'
  | S _, EmptyString => EmptyString
  end.

(** [s[:n]] *)
Fixpoint take (n : nat) (s : string) : string :=
  match n, s with
  | O, _ => EmptyString
  | S n', String c s' => String c (take n' s')
  | S _, EmptyString => EmptyString
  end.

(** [s.endswith(p)] *)
Definition endswith (p s : string) : bool :=
  (String.length p <=? String.length s)%nat
  && String.eqb (drop (String.length s - String.length p) s) p.

(** [p in s], for strings *)
Fixpoint contains (p s : string) : bool :=
  startswith p s ||
  match s with
  | EmptyString => false
  | String _ s' => contains p s'
  end.

(** [s.split(sep)] for a non-empty separator: scan left to right, cut at
    every occurrence of [sep] and resume after it.  [skip] counts the
    characters of a matched separator still to be passed over, [cur] is
    the field being read. *)
Fixpoint split_go (sep : string) (skip : nat) (cur : string) (s : string)
  : list string :=
  match s with
  | EmptyString => [cur]
  | String c s' =>
      match skip with
      | S k => split_go sep k cur s'
      | O =>
          if startswith sep s
          then cur :: split_go sep (String.length sep - 1) EmptyString s'
          else split_go sep 0 (cur +:+ String c EmptyString) s'
      end
  end.

Definition split (sep s : string) : list string := split_go sep 0 EmptyString s.

(** [s.replace(old, new)] for a non-empty [old] *)
Fixpoint replace_go (old new : string) (skip : nat) (s : string) : string :=
  match s with
  | EmptyString => EmptyString
  | String c s' =>
      match skip with
      | S k => replace_go old new k s'
      | O =>
          if startswith old s
          then new +:+ replace_go old new (String.length old - 1) s'
          else String c (replace_go old new 0 s')
      end
  end.

Definition replace (old new s : string) : string := replace_go old new 0 s.

(** [s.lower()] on ASCII letters *)
Definition lower_ascii (c : ascii) : ascii :=
  let n := nat_of_ascii c in
  if ((65 <=? n) && (n <=? 90))%nat then ascii_of_nat (n + 32) else c.

Fixpoint lower (s : string) : string :=
  match s with
  | EmptyString => EmptyString
  | String c s' => String (lower_ascii c) (lower s')
  end.

(** [l[-1]]: [None] stands for [IndexError] *)
Definition last_item {A} (l : list A) : option A := List.last (map Some l) None.

(** [s.strip()] restricted to the blank and the tab, the line feed and
    the carriage return *)
Definition is_blank (c : ascii) : bool :=
  let n := nat_of_ascii c in
  ((n =? 32) || (n =? 9) || (n =? 10) || (n =? 13))%nat.

Fixpoint lstrip (s : string) : string :=
  match s with
  | String c s' => if is_blank c then lstrip s' else s
  | EmptyString => EmptyString
  end.

Definition strip (s : string) : string :=
  String.rev (lstrip (String.rev (lstrip s))).

(** [str(n)] for an integer *)
Definition str_of_Z (n : Z) : string := NilZero.string_of_int (Z.to_int n).

(** [int(s)] for a string: optional blanks around an optional sign and
    decimal digits.  [None] stands for [ValueError].  Python also accepts
    digit-grouping underscores, which the sources never produce. *)
Definition digits_of_str (s : string) : option Z :=
  match s with
  | EmptyString => None
  | _ => option_map Z.of_uint (NilEmpty.uint_of_string s)
  end.

Definition int_of_str (s : string) : option Z :=
  match strip s with
  | EmptyString => None
  | String c t as s' =>
      if Ascii.eqb c "-"%char then option_map Z.opp (digits_of_str t)
      else if Ascii.eqb c "+"%char then digits_of_str t
      else digits_of_str s'
  end.

End PyStr.



(** ** Values, tables and the outside world *)

(** A Python [float] (or an [int] seen as a number): not-a-number, the two
    infinities, or a finite value.  Finite values are exact rationals. *)
Inductive pynum :=
| NaN
| NegInf
| Fin (q : Q)
| PosInf.

(** [a < b] and [a <= b] on numbers; every comparison with [NaN] is false. *)
Definition num_lt (a b : pynum) : bool :=
  match a, b with
  | NaN, _ | _, NaN => false
  | _, NegInf => false
  | NegInf, _ => true
  | PosInf, _ => false
  | Fin _, PosInf => true
  | Fin x, Fin y => negb (Qle_bool y x)
  end.

Definition num_le (a b : pynum) : bool :=
  match a, b with
  | NaN, _ | _, NaN => false
  | NegInf, _ => true
  | _, PosInf => true
  | _, NegInf => false
  | PosInf, _ => false
  | Fin x, Fin y => Qle_bool x y
  end.

(** What a cell of a table, or a value read from it, can be. *)
Inductive pyval :=
| VNone
| VBool (b : bool)
| VInt (z : Z)
| VFloat (f : pynum)
| VStr (s : string).

(** A parsed timestamp: [NaT] or an instant. Only the order of instants is
    ever used. *)
Inductive timestamp :=
| NaT
| Ts (t : Z).

(** [a > b] on timestamps; comparisons with [NaT] are false. *)
Definition ts_gt (a b : timestamp) : bool :=
  match a, b with
  | Ts x, Ts y => y <? x
  | _, _ => false
  end.

(** The result of a call that may raise: [Err msg] is the exception. *)
Inductive result (A : Type) :=
| Ok (a : A)
| Err (msg : string).
Arguments Ok {A} a.
Arguments Err {A} msg.

Record DataFrame := mkDataFrame {
  columns : list string;
  rows : list (list pyval)
}.

(** [df.empty]: some axis has length zero. *)
Definition df_empty (df : DataFrame) : bool :=
  (length (columns df) =? 0)%nat || (length (rows df) =? 0)%nat.

(** [len(df)] *)
Definition df_len (df : DataFrame) : nat := length (rows df).

(** [df.iloc[:, 0]] *)
Definition iloc_col0 (df : DataFrame) : list pyval :=
  map (fun r => hd VNone r) (rows df).

(** [df.iloc[::-1].reset_index(drop=True)] *)
Definition df_reverse (df : DataFrame) : DataFrame :=
  mkDataFrame (columns df) (rev (rows df)).

(** [pd.concat(dfs, ignore_index=True)] for frames with one header *)
Definition df_concat (dfs : list DataFrame) : DataFrame :=
  mkDataFrame (match dfs with d :: _ => columns d | [] => [] end)
              (concat (map rows dfs)).

(** pandas, as far as the sources use it on values.
    - [to_datetime v] is [pd.to_datetime] on one element; [Err] is a
      [ValueError] or [ParserError].
    - [float_of_str s] is [float(s)]; [None] is [ValueError].
    - [regex_search re s] is the test behind [str.contains(re, regex=True)]. *)
Class Pandas := {
  to_datetime : pyval -> result timestamp;
  float_of_str : string -> option pynum;
  regex_search : string -> string -> bool
}.

(** What [pd.read_csv(url)] does in [Unit._download]. *)
Inductive fetch_result :=
| Fetched (df : DataFrame)
| FetchValueError (msg : string)
    (* pd.errors.EmptyDataError, pd.errors.ParserError or another ValueError *)
| FetchOtherError (msg : string).
    (* any other Exception: URLError, HTTPError, a timeout, ... *)

(** What the cloud-storage client does for one folder and one file name. *)
Inductive drive_result :=
| DriveRaises (msg : string)
    (* the credentials, the client, the listing, the transfer or the CSV
       parser raise *)
| DriveNoItems
| DriveFile (df : DataFrame).

(** The network and the clock.
    - [read_csv_url url]: the export endpoint.
    - [drive folder filename]: the cloud-storage folder.
    - [status_page_space url]: the text of the inner span of the last span
      titled Total on the status page, or the exception of the scrape.
    - [last_month_now]: last month as [YYYY-MM] at the time of the call. *)
Class Network := {
  read_csv_url : string -> fetch_result;
  drive : string -> string -> drive_result;
  status_page_space : string -> result string;
  last_month_now : string
}.

(** Modelled from the spec: the modules [log] and [alert] are not among the
    sources.  [Log.write] appends a line to the log, [record_failed_downloads]
    appends the device, the date and the URL to the failed-downloads record,
    [send_email] sends one message with a subject and a body.  [files] are
    the CSV files written so far, by path; [drive_requests] are the folder
    and file name of every cloud-storage attempt. *)
Record World := mkWorld {
  log : list string;
  failed_downloads : list (Z * string * string);
  drive_requests : list (string * string);
  emails : list (string * string);
  files : gmap string DataFrame
}.

Definition Log_write (w : World) (msg : string) : World :=
  mkWorld (log w ++ [msg]) (failed_downloads w) (drive_requests w) (emails w) (files w).

Definition Log_record_failed_downloads (w : World) (unit_no : Z) (date url : string) : World :=
  mkWorld (log w) (failed_downloads w ++ [(unit_no, date, url)]) (drive_requests w)
          (emails w) (files w).

Definition drive_request (w : World) (folder filename : string) : World :=
  mkWorld (log w) (failed_downloads w) (drive_requests w ++ [(folder, filename)])
          (emails w) (files w).

Definition send_email (w : World) (subject body : string) : World :=
  mkWorld (log w) (failed_downloads w) (drive_requests w)
          (emails w ++ [(subject, body)]) (files w).

(** [df.to_csv(path, index=False)] *)
Definition to_csv (w : World) (path : string) (df : DataFrame) : World :=
  mkWorld (log w) (failed_downloads w) (drive_requests w) (emails w)
          (<[path := df]> (files w)).

Definition empty_world : World := mkWorld [] [] [] [] ∅.

(** A line feed, for the messages that end in one. *)
Definition nl : string := String (ascii_of_nat 10) EmptyString.

(** A Python [dict] keyed by integers or strings, in insertion order. *)
Fixpoint dict_get {K V} `{EqDecision K} (d : list (K * V)) (k : K) : option V :=
  match d with
  | [] => None
  | (k', v) :: d' => if decide (k' = k) then Some v else dict_get d' k
  end.

(** ** [unit.py] *)

Definition google_paths : list (Z * string) := [
  (77, "1Z1ETfHlgitFOBx8SWqYiotkezFwL2ahb");
  (78, "1oOKr0Kt2Jg2j_tqzv6sdRF4bEuNofxy2");
  (79, "1NUruYAn2kafZTrUOFeMndmKHCyXnBVFM");
  (80, "1Idx4pE-vBeRzFQXoBpiwRgfHbh-CZ5Go");
  (81, "1Y17UL5XGQPlFf361V-9FLhP-JhAuFzaI");
  (82, "1ud6EOvBFkXGPR8McKDEJR6Dx3y_NssiF");
  (83, "1O08BMUVd4CnNsYYoH5l1mRYGW97AXsA5");
  (84, "1UHTnt1gOF28LoF7QnS-JcQ69q20pdeDc");
  (85, "1j2tTzGza7hDmwGukHo1HQFTYlMGg1qmo");
  (86, "1pmiaLqn_M3y3Ebn3tT9LnHBvRbgHOsA6");
  (87, "1JPCc3CIt1R5pW61DHtC24wVslnWC8QhN");
  (2804, "1X8M-Ec0y-vl3CrJ9zZxuMUMYAVlMF7fJ");
  (2806, "1Fh7r38--RT9_J1-e4XJnzLdQkXjD0zO5");
  (2808, "127cFRH_0pa1eZN67dYp4H63dM4hwX_43");
  (2810, "1euo9FBA2qem2oaa_ze0bxudcA9ZSOSVc");
  (2812, "1KH_x8Sb7ix-KdBUJYvsGZDOB5Ec3oaei");
  (2814, "125PAJ1RCLN4IDGVUeyh-lmvXQEhY6vMH");
  (2816, "1uCERJeoSE2Oexa59g3Nv7SZNrzQZfHp0");
  (2818, "17dVMIaaF0kzZofbUA4kJAIeYbVhrlNHt")
].

(** [is_float(value)] on a string *)
Definition is_float `{Pandas} (value : string) : bool :=
  match float_of_str value with Some _ => true | None => false end.

Record Unit := mkUnit {
  unit_no : Z;
  block : Z;
  ip_address : string;
  port : string;
  serial : string;
  channels : list (string * bool);
  data : option DataFrame;
  warnings : list string;
  errors : list string;
  datatype : string
}.

(** [Unit(unit_no, block, ip_address, port, serial, channels)] *)
Definition Unit_init (unit_no block : Z) (ip_address port serial : string)
    (channels : list (string * bool)) : Unit :=
  mkUnit unit_no block ip_address port serial channels None [] [] "".

Definition set_data (u : Unit) (d : option DataFrame) : Unit :=
  mkUnit (unit_no u) (block u) (ip_address u) (port u) (serial u) (channels u)
         d (warnings u) (errors u) (datatype u).

Definition set_datatype (u : Unit) (t : string) : Unit :=
  mkUnit (unit_no u) (block u) (ip_address u) (port u) (serial u) (channels u)
         (data u) (warnings u) (errors u) t.

Definition add_errors (u : Unit) (es : list string) : Unit :=
  mkUnit (unit_no u) (block u) (ip_address u) (port u) (serial u) (channels u)
         (data u) (warnings u) (errors u ++ es) (datatype u).

Definition add_warnings (u : Unit) (ws : list string) : Unit :=
  mkUnit (unit_no u) (block u) (ip_address u) (port u) (serial u) (channels u)
         (data u) (warnings u ++ ws) (errors u) (datatype u).

(** [f"Unit {self.unit_no}"] *)
Definition Unit_str (u : Unit) : string := "Unit " +:+ PyStr.str_of_Z (unit_no u).

(** [pd.to_datetime(column)]: every element is parsed, the first failure is
    raised. *)
Fixpoint to_datetime_all `{Pandas} (col : list pyval) : result (list timestamp) :=
  match col with
  | [] => Ok []
  | v :: col' =>
      match to_datetime v with
      | Err e => Err e
      | Ok t =>
          match to_datetime_all col' with
          | Err e => Err e
          | Ok ts => Ok (t :: ts)
          end
      end
  end.

(** [timestamps.iloc[0] > timestamps.iloc[1]] *)
Definition first_two_descending (timestamps : list timestamp) : bool :=
  match timestamps with
  | t0 :: t1 :: _ => ts_gt t0 t1
  | _ => false
  end.

(** [Unit._fix_order]: [df] is [None] or a table.  Returns the unit (whose
    error list may have grown), the world (whose log may have grown) and the
    table to use. *)
Definition _fix_order `{Pandas} (u : Unit) (w : World) (df : option DataFrame)
  : Unit * World * option DataFrame :=
  match df with
  | None => (u, w, df)
  | Some d =>
      if df_empty d || (df_len d <? 2)%nat then (u, w, df)
      else
        match to_datetime_all (iloc_col0 d) with
        | Ok timestamps =>
            if first_two_descending timestamps
            then (u, w, Some (df_reverse d))
            else (u, w, df)
        | Err e =>
            let msg := Unit_str u +:+ ": Error parsing timestamps: " +:+ e in
            (add_errors u [msg], Log_write w msg, df)
        end
  end.

(** The handler of [pd.errors.EmptyDataError] and [ValueError] in
    [Unit._download]. *)
Definition empty_data_handler (u : Unit) (w : World) (url date : string)
  : Unit * World :=
  let msg := Unit_str u +:+ ": Empty data from " +:+ url in
  let w := Log_write w (msg +:+ nl +:+ nl) in
  let u := set_data u None in
  let u := add_errors u [msg] in
  (u, Log_record_failed_downloads w (unit_no u) date url).

(** The handler of every other exception in [Unit._download]: the
    cloud-storage fallback for the units of [google_paths], and nothing
    else (the lines that reset the data and record the failure are
    commented out in the source). *)
Definition other_error_handler `{Pandas} `{Network} (u : Unit) (w : World)
    (url date : string) : Unit * World :=
  match dict_get google_paths (unit_no u) with
  | None => (u, w)
  | Some drive_folder_id =>
      let filename := serial u +:+ "_" +:+ date +:+ ".csv" in
      let w := Log_write w ("Attempting to download " +:+ filename
                            +:+ " from Google Drive for " +:+ Unit_str u) in
      let w := drive_request w drive_folder_id filename in
      match drive drive_folder_id filename with
      | DriveRaises backup_error =>
          (u, Log_write w ("Failed to download from Google Drive: "
                           +:+ backup_error +:+ nl))
      | DriveNoItems =>
          (u, Log_write w ("File " +:+ filename
                           +:+ " not found in Google Drive folder" +:+ nl))
      | DriveFile backup_data =>
          if negb (df_empty backup_data) then
            let '(u, w, d) := _fix_order u w (Some backup_data) in
            (set_data u d,
             Log_write w ("Successfully loaded " +:+ filename +:+ " for "
                          +:+ Unit_str u +:+ " from Google Drive" +:+ nl))
          else
            (u, Log_write w ("Downloaded file from Google Drive is empty" +:+ nl))
      end
  end.

(** [Unit._download] *)
Definition _download `{Pandas} `{Network} (u : Unit) (w : World) (url : string)
  : Unit * World :=
  let w := Log_write w ("Downloading " +:+ Unit_str u +:+ ": "
                        +:+ ip_address u +:+ ":" +:+ port u) in
  let date := List.last (PyStr.split "/" url) EmptyString in
  match read_csv_url url with
  | Fetched response =>
      if df_empty response then empty_data_handler u w url date
      else
        let '(u, w, d) := _fix_order u w (Some response) in
        (set_data u d, w)
  | FetchValueError _ => empty_data_handler u w url date
  | FetchOtherError _ => other_error_handler u w url date
  end.

Definition daily_url (u : Unit) (date : string) : string :=
  "http://" +:+ ip_address u +:+ ":" +:+ port u
  +:+ "/index.php/pages/export/exportDaily/" +:+ serial u +:+ "/" +:+ date.

Definition monthly_url (u : Unit) (date : string) : string :=
  "http://" +:+ ip_address u +:+ ":" +:+ port u
  +:+ "/index.php/pages/export/exportMonthly/" +:+ serial u +:+ "/" +:+ date.

(** [Unit.download_minute_data] *)
Definition download_minute_data `{Pandas} `{Network} (u : Unit) (w : World)
    (date : string) : Unit * World :=
  _download (set_datatype u "Minute") w (daily_url u date).

(** [Unit.download_hour_data] *)
Definition download_hour_data `{Pandas} `{Network} (u : Unit) (w : World)
    (date : string) : Unit * World :=
  _download (set_datatype u "Hour") w (monthly_url u date).

(** The branch of [Unit.check_space] on the scraped figure. *)
Definition check_space_on `{Pandas} (u : Unit) (w : World) (space : string) : World :=
  let healthy :=
    match float_of_str space with
    | Some f => num_lt (Fin 1) f && num_lt f (Fin 40)
    | None => false
    end in
  if healthy then
    Log_write w (Unit_str u +:+ ": " +:+ space +:+ " GB left on the SD card")
  else
    let w := Log_write w (Unit_str u
               +:+ ": Less than 1GB of space available on the SD card: "
               +:+ space +:+ " GB") in
    let body := Unit_str u +:+ ": Less than 1GB of space available on the SD card"
                +:+ nl +:+ nl +:+ space +:+ " GB left" +:+ nl +:+ nl
                +:+ "http://" +:+ ip_address u +:+ ":" +:+ port u in
    send_email w "Maple West SD Card Storage Almost Full" body.

(** [Unit.check_space]: [Err] is an exception of the scrape, which the
    method does not catch. *)
Definition check_space `{Pandas} `{Network} (u : Unit) (w : World) : result World :=
  let url := "http://" +:+ ip_address u +:+ ":" +:+ port u
             +:+ "/index.php/powerdisplay/getmainwatts" in
  match status_page_space url with
  | Err e => Err e
  | Ok text => Ok (check_space_on u w (hd EmptyString (PyStr.split "<" text)))
  end.

(** One channel of the registry of module [channels]: the pattern of its
    column, its valid range and its check. *)
Record Channel := mkChannel {
  regex : string;
  min_value : Q;
  max_value : Q;
  check_channel : DataFrame -> Z -> list nat -> list string * list string
}.

(** The modules [rules] and [channels], which are not among the sources:
    the two rules return their errors and warnings (and the first one the
    indices of the unreliable rows); [channel_registry] is the dictionary
    [channels]. *)
Class Rules := {
  check_missing_rows : DataFrame -> Z -> list string * list string * list nat;
  check_total_energy : DataFrame -> Z -> list string * list string;
  channel_registry : list (string * Channel)
}.

(** What a method hands back: [None], the pair of the error and warning
    lists, or an exception. *)
Inductive pyret :=
| RetNone
| RetLists (errs warns : list string)
| Raises (msg : string).

(** The loop over [self.channels] in [Unit.check_quality]; a monitored
    channel missing from the registry is a [KeyError]. *)
Fixpoint check_channels `{Rules} (u : Unit) (d : DataFrame) (bad_indices : list nat)
    (chs : list (string * bool)) : Unit * option string :=
  match chs with
  | [] => (u, None)
  | (channel, monitored) :: chs' =>
      if monitored then
        match dict_get channel_registry channel with
        | None => (u, Some ("KeyError: " +:+ channel))
        | Some c =>
            let '(channel_errors, channel_warnings) :=
              check_channel c d (unit_no u) bad_indices in
            check_channels (add_warnings (add_errors u channel_errors) channel_warnings)
                           d bad_indices chs'
        end
      else check_channels u d bad_indices chs'
  end.

Definition data_file (u : Unit) (period : string) : string :=
  datatype u +:+ "_Data/UNIT " +:+ PyStr.str_of_Z (unit_no u) +:+ "/Unit_"
  +:+ PyStr.str_of_Z (unit_no u) +:+ "_" +:+ period +:+ ".csv".

(** [Unit.check_quality] *)
Definition check_quality `{Rules} `{Network} (u : Unit) (w : World)
    (save_files : bool) (date : string) : Unit * World * pyret :=
  match data u with
  | None => (u, w, RetLists (errors u) (warnings u))
  | Some d =>
      let w := Log_write w ("Checking " +:+ Unit_str u +:+ ": "
                            +:+ ip_address u +:+ ":" +:+ port u) in
      let '(missing_row_errors, missing_row_warnings, bad_indices) :=
        check_missing_rows d (unit_no u) in
      let u := add_errors u missing_row_errors in
      let u := add_warnings u missing_row_warnings in
      if String.eqb (datatype u) "Hour" then
        let w := if save_files then to_csv w (data_file u last_month_now) d else w in
        (u, w, RetNone)
      else
        let '(energy_errors, energy_warnings) := check_total_energy d (unit_no u) in
        let u := add_errors u energy_errors in
        let u := add_warnings u energy_warnings in
        match check_channels u d bad_indices (channels u) with
        | (u, Some e) => (u, w, Raises e)
        | (u, None) =>
            let w :=
              if ((length (errors u) =? 0) && (length (warnings u) =? 0))%nat
              then Log_write w (Unit_str u +:+ ": Passed all systems checks")
              else w in
            let w := if save_files then to_csv w (data_file u date) d else w in
            let w := Log_write w nl in
            (u, w, RetLists (errors u) (warnings u))
        end
  end.

(** ** [main.py]: the download loop of [BulkDownloadGUI.start_download] *)

(** [os.path.join(unit_dir, f"Unit_{unit.unit_no}_{date_str}.csv")] with
    [unit_dir = os.path.join(output_dir, f"UNIT {unit.unit_no}")] *)
Definition output_file (output_dir : string) (u : Unit) (date_str : string) : string :=
  (output_dir +:+ "/UNIT " +:+ PyStr.str_of_Z (unit_no u))
  +:+ "/Unit_" +:+ PyStr.str_of_Z (unit_no u) +:+ "_" +:+ date_str +:+ ".csv".

(** The body of the inner loop for one unit and one date: download, then
    save when [unit.data] is a non-empty table.  Returns the unit, the
    world and whether a file was saved. *)
Definition download_one `{Pandas} `{Network} (data_type output_dir date_str : string)
    (u : Unit) (w : World) : Unit * World * bool :=
  let '(u, w) :=
    if String.eqb data_type "Minute" then download_minute_data u w date_str
    else download_hour_data u w date_str in
  match data u with
  | Some d =>
      if negb (df_empty d) then
        (u, to_csv w (output_file output_dir u date_str) d, true)
      else (u, w, false)
  | None => (u, w, false)
  end.

(** The inner loop: the units of [selected_units] are objects, each one is
    updated in place and keeps its state for the next date. *)
Fixpoint download_units `{Pandas} `{Network} (data_type output_dir date_str : string)
    (selected_units : list Unit) (w : World) : list Unit * World * nat :=
  match selected_units with
  | [] => ([], w, 0%nat)
  | u :: us =>
      let '(u', w, saved) := download_one data_type output_dir date_str u w in
      let '(us', w, n) := download_units data_type output_dir date_str us w in
      (u' :: us', w, ((if saved then 1 else 0) + n)%nat)
  end.

(** The outer loop over the dates, without cancellation. *)
Fixpoint download_dates `{Pandas} `{Network} (data_type output_dir : string)
    (dates_to_download : list string) (selected_units : list Unit) (w : World)
  : list Unit * World * nat :=
  match dates_to_download with
  | [] => (selected_units, w, 0%nat)
  | date_str :: ds =>
      let '(us, w, n) := download_units data_type output_dir date_str selected_units w in
      let '(us, w, m) := download_dates data_type output_dir ds us w in
      (us, w, (n + m)%nat)
  end.

(** ** [main.py]: class [QualityChecker] *)

(** One device descriptor, as [json.load] returns it. *)
Record UnitConfig := mkUnitConfig {
  cfg_unit_no : Z;
  cfg_block : Z;
  cfg_ip_address : string;
  cfg_port : string;
  cfg_serial : string;
  cfg_channels : list (string * bool)
}.

(** [d[k] = v] on a dictionary: the value of an existing key is replaced in
    place, a new key goes last. *)
Fixpoint dict_set {K V} `{EqDecision K} (d : list (K * V)) (k : K) (v : V)
  : list (K * V) :=
  match d with
  | [] => [(k, v)]
  | (k', v') :: d' =>
      if decide (k' = k) then (k, v) :: d' else (k', v') :: dict_set d' k v
  end.

(** The colours of [PatternFill] that the checker uses. *)
Inductive Fill :=
| red_fill
| yellow_fill.

(** A cell of a worksheet: its text ([None] when empty) and its fill
    ([None] when unshaded). *)
Record Cell := mkCell {
  value : option string;
  fill : option Fill
}.

Definition Worksheet := list (list Cell).

(** [l[i]] with [IndexError] as [Err]. *)
Definition item {A} (l : list A) (i : nat) : result A :=
  match nth_error l i with
  | Some a => Ok a
  | None => Err "IndexError"
  end.

Module QualityChecker.

(** [QualityChecker._load_units]: the directory is the list of its file
    names with, for each, what [json.load] and the reading of its
    [unit_no] give; [Err] is the exception of a malformed file. *)
Fixpoint _load_units (config_dir : list (string * result UnitConfig))
    (units : list (Z * UnitConfig)) : result (list (Z * UnitConfig)) :=
  match config_dir with
  | [] => Ok units
  | (file, content) :: rest =>
      if PyStr.endswith ".json" file then
        match content with
        | Err e => Err e
        | Ok config => _load_units rest (dict_set units (cfg_unit_no config) config)
        end
      else _load_units rest units
  end.

(** [unit_config['channels'].get(channel_name, False)] *)
Definition monitored (unit_config : UnitConfig) (channel_name : string) : bool :=
  match dict_get (cfg_channels unit_config) channel_name with
  | Some b => b
  | None => false
  end.

(** [pd.isna(value)] *)
Definition isna (v : pyval) : bool :=
  match v with
  | VNone | VFloat NaN => true
  | _ => false
  end.

(** [value == ""] *)
Definition eq_empty (v : pyval) : bool :=
  match v with
  | VStr EmptyString => true
  | _ => false
  end.

(** [isinstance(value, (int, float))], with the number when it holds; a
    [bool] is an [int]. *)
Definition as_number (v : pyval) : option pynum :=
  match v with
  | VBool b => Some (Fin (if b then 1 else 0)%Q)
  | VInt z => Some (Fin (inject_Z z))
  | VFloat f => Some f
  | VNone | VStr _ => None
  end.

(** The second [if] of the loop body: a number is good inside the range
    and bad outside, anything else is left alone. *)
Definition count_number (channel_info : Channel) (counts : Z * Z * Z) (v : pyval)
  : Z * Z * Z :=
  let '(good_count, missing_count, bad_count) := counts in
  match as_number v with
  | Some x =>
      if num_le (Fin (min_value channel_info)) x
         && num_le x (Fin (max_value channel_info))
      then (good_count + 1, missing_count, bad_count)
      else (good_count, missing_count, bad_count + 1)
  | None => counts
  end.

(** The body of the loop of [_check_data_quality] for one value. *)
Definition count_value `{Pandas} (channel_info : Channel) (counts : Z * Z * Z)
    (v : pyval) : Z * Z * Z :=
  let '(good_count, missing_count, bad_count) := counts in
  if isna v || eq_empty v then
    (* missing_count += 1, and control goes on to the second [if] *)
    count_number channel_info (good_count, missing_count + 1, bad_count) v
  else
    match as_number v with
    | Some _ => count_number channel_info counts v
    | None =>
        match v with
        | VStr s =>
            match float_of_str s with
            | Some f => count_number channel_info counts (VFloat f)
            | None => (good_count, missing_count + 1, bad_count) (* continue *)
            end
        | _ => (good_count, missing_count + 1, bad_count)
        end
    end.

(** The loop over the values of the column. *)
Definition count_values `{Pandas} (channel_info : Channel) (values : list pyval)
  : Z * Z * Z :=
  fold_left (count_value channel_info) values (0, 0, 0).

(** The position of the first column whose header matches the pattern. *)
Fixpoint first_match `{Pandas} (re : string) (cols : list string) : option nat :=
  match cols with
  | [] => None
  | c :: cols' =>
      if regex_search re c then Some 0%nat
      else option_map S (first_match re cols')
  end.

(** [QualityChecker._check_data_quality]: [Ok None] is the returned
    [None], [Err] the [KeyError] of a channel outside the registry. *)
Definition _check_data_quality `{Pandas} `{Rules} (data : DataFrame)
    (unit_config : UnitConfig) (channel_name : string) : result (option (list Z)) :=
  if negb (monitored unit_config channel_name) then Ok None
  else
    match dict_get channel_registry channel_name with
    | None => Err ("KeyError: " +:+ channel_name)
    | Some channel_info =>
        match first_match (regex channel_info) (columns data) with
        | None => Ok None
        | Some i =>
            if (length (rows data) =? 0)%nat then Ok None
            else
              let values := map (fun r => nth i r VNone) (rows data) in
              let '(good_count, missing_count, bad_count) :=
                count_values channel_info values in
              Ok (Some [good_count; missing_count; bad_count])
        end
    end.

(** [QualityChecker._format_quality_result] *)
Definition _format_quality_result (counts : option (list Z)) : string :=
  match counts with
  | Some [g; m; b] =>
      "Good: " +:+ PyStr.str_of_Z g +:+ ", Missing: " +:+ PyStr.str_of_Z m
      +:+ ", Bad: " +:+ PyStr.str_of_Z b
  | _ => "Good: 0, Missing: 0, Bad: 0"
  end.

(** [int(parts[i].split(': ')[1])] *)
Definition count_field (parts : list string) (i : nat) : result Z :=
  match item parts i with
  | Err e => Err e
  | Ok part =>
      match item (PyStr.split ": " part) 1 with
      | Err e => Err e
      | Ok digits =>
          match PyStr.int_of_str digits with
          | Some n => Ok n
          | None => Err "ValueError"
          end
      end
  end.

(** The counts read back from the text of a cell. *)
Definition parse_counts (text : string) : result (Z * Z * Z) :=
  let parts := PyStr.split ", " text in
  match count_field parts 0 with
  | Err e => Err e
  | Ok good =>
      match count_field parts 1 with
      | Err e => Err e
      | Ok missing =>
          match count_field parts 2 with
          | Err e => Err e
          | Ok bad => Ok (good, missing, bad)
          end
      end
  end.

(** [(missing + bad) / total * 100].  The quotient is taken exactly; the
    floating-point value of Python falls on the same side of 5 and of 1
    for all counts below 2^50, the ratios 1/20 and 1/100 giving exactly
    5.0 and 1.0. *)
Definition problem_percentage (missing bad total : Z) : Q :=
  (inject_Z (missing + bad) / inject_Z total * 100)%Q.

(** [a > b] on rationals *)
Definition Qgt_bool (a b : Q) : bool := negb (Qle_bool a b).

(** The body of the inner loop of [_apply_conditional_formatting]. *)
Definition format_cell (cell : Cell) : result Cell :=
  match value cell with
  | None | Some EmptyString => Ok cell
  | Some text =>
      match parse_counts text with
      | Err e => Err e
      | Ok (good, missing, bad) =>
          let total := good + missing + bad in
          if 0 <? total then
            if Qgt_bool (problem_percentage missing bad total) 5
            then Ok (mkCell (value cell) (Some red_fill))
            else if Qgt_bool (problem_percentage missing bad total) 1
            then Ok (mkCell (value cell) (Some yellow_fill))
            else Ok cell
          else Ok cell
      end
  end.

(** A loop whose body may raise: the first exception stops it. *)
Fixpoint map_result {A B} (f : A -> result B) (l : list A) : result (list B) :=
  match l with
  | [] => Ok []
  | a :: l' =>
      match f a with
      | Err e => Err e
      | Ok b =>
          match map_result f l' with
          | Err e => Err e
          | Ok bs => Ok (b :: bs)
          end
      end
  end.

(** [for cell in row[1:]] *)
Definition format_row (row : list Cell) : result (list Cell) :=
  match row with
  | [] => Ok []
  | date_cell :: cells =>
      match map_result format_cell cells with
      | Err e => Err e
      | Ok cells' => Ok (date_cell :: cells')
      end
  end.

(** [QualityChecker._apply_conditional_formatting]:
    [worksheet.iter_rows(min_row=2)] leaves the header row out. *)
Definition _apply_conditional_formatting (worksheet : Worksheet) : result Worksheet :=
  match worksheet with
  | [] => Ok []
  | header :: data_rows =>
      match map_result format_row data_rows with
      | Err e => Err e
      | Ok rows' => Ok (header :: rows')
      end
  end.

End QualityChecker.

(** [sorted(l, key=key)] with keys compared by [le]: Python's sort is
    stable, and so is this insertion sort; on every input the two give the
    same list. *)
Fixpoint insert_by {A K} (le : K -> K -> bool) (key : A -> K) (x : A) (l : list A)
  : list A :=
  match l with
  | [] => [x]
  | y :: l' => if le (key x) (key y) then x :: y :: l' else y :: insert_by le key x l'
  end.

Definition sorted_by {A K} (le : K -> K -> bool) (key : A -> K) (l : list A) : list A :=
  fold_right (insert_by le key) [] l.

(** A quality report as pandas holds it: the channel columns and, per
    period, the label of the row and the texts of its cells. *)
Record Report := mkReport {
  rep_columns : list string;
  rep_rows : list (string * list string)
}.

(** [report_df.index] *)
Definition rep_index (r : Report) : list string := map fst (rep_rows r).

(** [report_df.sort_index()] *)
Definition sort_index (r : Report) : Report :=
  mkReport (rep_columns r) (sorted_by String.leb fst (rep_rows r)).

(** The worksheet that [to_excel] writes: a header row, then one row per
    period with its label first; no cell is shaded. *)
Definition to_excel (r : Report) : Worksheet :=
  (mkCell None None :: map (fun c => mkCell (Some c) None) (rep_columns r))
  :: map (fun row => mkCell (Some (fst row)) None
                     :: map (fun t => mkCell (Some t) None) (snd row))
         (rep_rows r).

(** [x in l] *)
Definition mem (x : string) (l : list string) : bool :=
  existsb (String.eqb x) l.

(** [months.add(x)] on a set kept in order of first insertion.  The order in
    which Python iterates a set is not specified; the report is sorted by
    period before it is saved, so the saved table does not depend on it. *)
Definition set_add (x : string) (s : list string) : list string :=
  if mem x s then s else s ++ [x].

Module Reporting.
Import QualityChecker.

Section WithLibraries.
Context `{Pandas} `{Rules}.

(** The names of a device folder with, for each file, what
    [pd.read_csv] gives ([Err] when it raises). *)
Definition Listing := list (string * result DataFrame).

(** [[x + y for x, y in zip(a, b)]] *)
Fixpoint zip_add (a b : list Z) : list Z :=
  match a, b with
  | x :: a', y :: b' => (x + y) :: zip_add a' b'
  | _, _ => []
  end.

(** The first loop of [process_data]: zero counts for every channel of
    the registry that the unit monitors. *)
Fixpoint init_results (unit_config : UnitConfig) (names : list string)
    (results : list (string * list Z)) : list (string * list Z) :=
  match names with
  | [] => results
  | channel_name :: names' =>
      init_results unit_config names'
        (if monitored unit_config channel_name
         then dict_set results channel_name [0; 0; 0]
         else results)
  end.

(** The loop over the channels for one file; an exception leaves the
    loop with the counts added so far. *)
Fixpoint add_file (unit_config : UnitConfig) (data : DataFrame)
    (names : list string) (results : list (string * list Z))
  : list (string * list Z) :=
  match names with
  | [] => results
  | channel_name :: names' =>
      if monitored unit_config channel_name then
        match _check_data_quality data unit_config channel_name with
        | Err _ => results
        | Ok None => add_file unit_config data names' results
        | Ok (Some quality) =>
            match dict_get results channel_name with
            | None => results
            | Some old =>
                add_file unit_config data names'
                  (dict_set results channel_name (zip_add old quality))
            end
        end
      else add_file unit_config data names' results
  end.

(** The loop over the files of the device folder. *)
Fixpoint add_files (unit_config : UnitConfig) (month : string)
    (listing : Listing) (results : list (string * list Z))
  : list (string * list Z) :=
  match listing with
  | [] => results
  | (file, content) :: rest =>
      if PyStr.contains month file && PyStr.endswith ".csv" file then
        match content with
        | Err _ => add_files unit_config month rest results
        | Ok data =>
            add_files unit_config month rest
              (add_file unit_config data (map fst channel_registry) results)
        end
      else add_files unit_config month rest results
  end.

(** [QualityChecker.process_data]: [Ok None] when the device folder does
    not exist, [Err] for the [KeyError] of an unknown device. *)
Definition process_data (units : list (Z * UnitConfig))
    (tree : gmap Z Listing) (unit_no : Z) (month : string)
  : result (option (list (string * list Z))) :=
  match dict_get units unit_no with
  | None => Err "KeyError"
  | Some unit_config =>
      let results := init_results unit_config (map fst channel_registry) [] in
      match tree !! unit_no with
      | None => Ok None
      | Some listing => Ok (Some (add_files unit_config month listing results))
      end
  end.

(** The period of a file name, when the name counts for the data type. *)
Definition month_of_file (data_type file : string) : option string :=
  if PyStr.contains data_type file && PyStr.endswith ".csv" file then
    let date_str :=
      PyStr.replace ".csv" "" (List.last (PyStr.split "_" file) EmptyString) in
    if (7 <=? String.length date_str)%nat then Some (PyStr.take 7 date_str)
    else None
  else None.

Fixpoint months_of (data_type : string) (listing : Listing)
    (months : list string) : list string :=
  match listing with
  | [] => months
  | (file, _) :: rest =>
      months_of data_type rest
        (match month_of_file data_type file with
         | Some m => set_add m months
         | None => months
         end)
  end.

(** [report_df.loc[month] = {ch: ... for ch in report_df.columns}] for a
    month that is not in the index; pandas refuses to add a row to a
    frame without columns, which [add_months] raises. *)
Definition add_row (report_df : Report) (month : string)
    (results : list (string * list Z)) : Report :=
  mkReport (rep_columns report_df)
    (rep_rows report_df
     ++ [(month, map (fun ch => _format_quality_result (dict_get results ch))
                     (rep_columns report_df))]).

(** The loop over the months of [update_quality_report]. *)
Fixpoint add_months (units : list (Z * UnitConfig)) (tree : gmap Z Listing)
    (unit_no : Z) (months : list string) (report_df : Report)
    (new_data_added : bool) : result (Report * bool) :=
  match months with
  | [] => Ok (report_df, new_data_added)
  | month :: months' =>
      if negb (mem month (rep_index report_df)) then
        match process_data units tree unit_no month with
        | Err e => Err e
        | Ok (Some (r :: rs)) =>
            match rep_columns report_df with
            | [] => Err "ValueError: cannot set a frame with no defined columns"
            | _ :: _ =>
                add_months units tree unit_no months'
                  (add_row report_df month (r :: rs)) true
            end
        | Ok _ => add_months units tree unit_no months' report_df new_data_added
        end
      else add_months units tree unit_no months' report_df new_data_added
  end.

(** The frame of a report that does not exist yet. *)
Definition new_report (units : list (Z * UnitConfig)) (unit_no : Z) : Report :=
  mkReport
    (List.filter (fun ch => match dict_get units unit_no with
                       | Some unit_config => monitored unit_config ch
                       | None => false
                       end)
            (map fst channel_registry))
    [].

(** The body of the loop of [update_quality_report] for one device.
    [reports] are the workbooks of the data type, by device; a workbook
    read back with [pd.read_excel] is the table that was written, the
    fills are not read.  The flag tells whether the report was saved. *)
Definition update_unit (units : list (Z * UnitConfig)) (tree : gmap Z Listing)
    (data_type : string) (reports : gmap Z Report) (unit_no : Z)
  : result (gmap Z Report * bool) :=
  match tree !! unit_no with
  | None => Ok (reports, false)
  | Some listing =>
      let report_df :=
        match reports !! unit_no with
        | Some r => r
        | None => new_report units unit_no
        end in
      let months := months_of data_type listing [] in
      match add_months units tree unit_no months report_df false with
      | Err e => Err e
      | Ok (report_df, new_data_added) =>
          if negb new_data_added then Ok (reports, false)
          else
            let saved := sort_index report_df in
            match _apply_conditional_formatting (to_excel saved) with
            | Err e => Err e
            | Ok _ => Ok (<[unit_no := saved]> reports, true)
            end
      end
  end.

(** The loop over the devices; [saved] lists the devices whose report
    was saved, in order. *)
Fixpoint update_units (units : list (Z * UnitConfig)) (tree : gmap Z Listing)
    (data_type : string) (keys : list Z) (reports : gmap Z Report)
    (saved : list Z) : result (gmap Z Report * list Z) :=
  match keys with
  | [] => Ok (reports, saved)
  | unit_no :: keys' =>
      match update_unit units tree data_type reports unit_no with
      | Err e => Err e
      | Ok (reports', was_saved) =>
          update_units units tree data_type keys' reports'
            (if was_saved then saved ++ [unit_no] else saved)
      end
  end.

(** [QualityChecker.update_quality_report] *)
Definition update_quality_report (units : list (Z * UnitConfig))
    (tree : gmap Z Listing) (data_type : string) (reports : gmap Z Report)
  : result (gmap Z Report * list Z) :=
  update_units units tree data_type (map fst units) reports [].

End WithLibraries.
End Reporting.

(** ** [qualitychecker.py] and [BulkDownloadGUI] *)

Definition Unit_of_config (c : UnitConfig) : Unit :=
  Unit_init (cfg_unit_no c) (cfg_block c) (cfg_ip_address c) (cfg_port c)
            (cfg_serial c) (cfg_channels c).

(** The loop shared by the two loaders that build [Unit] objects. *)
Fixpoint read_units (config_dir : list (string * result UnitConfig))
  : result (list Unit) :=
  match config_dir with
  | [] => Ok []
  | (file, content) :: rest =>
      if PyStr.endswith ".json" file then
        match content with
        | Err e => Err e
        | Ok unit =>
            match read_units rest with
            | Err e => Err e
            | Ok units => Ok (Unit_of_config unit :: units)
            end
        end
      else read_units rest
  end.

Module QualityCheckerScaffold.

(** [QualityChecker._load_units] of [qualitychecker.py]: [sorted(units)]
    orders by [Unit.__lt__], that is by [unit_no]. *)
Definition _load_units (config_dir : list (string * result UnitConfig))
  : result (list Unit) :=
  match read_units config_dir with
  | Err e => Err e
  | Ok units => Ok (sorted_by Z.leb unit_no units)
  end.

End QualityCheckerScaffold.

Module BulkDownloadGUI.

(** [BulkDownloadGUI.load_units]: [sorted(units, key=lambda x: x.unit_no)] *)
Definition load_units (config_dir : list (string * result UnitConfig))
  : result (list Unit) :=
  match read_units config_dir with
  | Err e => Err e
  | Ok units => Ok (sorted_by Z.leb unit_no units)
  end.

(** The row-order step of [BulkDownloadGUI.combine_data] for one file:
    only the first two timestamps are parsed. *)
Definition combine_fix_order `{Pandas} (df : DataFrame) : DataFrame :=
  if negb (df_empty df) && (1 <? df_len df)%nat then
    match iloc_col0 df with
    | v0 :: v1 :: _ =>
        match to_datetime v0, to_datetime v1 with
        | Ok t0, Ok t1 => if ts_gt t0 t1 then df_reverse df else df
        | _, _ => df
        end
    | _ => df
    end
  else df.

End BulkDownloadGUI.

(** ** Sample libraries and inputs

    One concrete reading of the external libraries, used where a property
    is evaluated on an input. *)

Module Sample.

(** Timestamps written [YYYY-MM-DD HH:MM:SS]: the instant is the number
    read from the fourteen digits, which orders such texts as their dates.
    Integers are instants; [None] and [NaN] are [NaT]. *)
Definition to_datetime_iso (v : pyval) : result timestamp :=
  match v with
  | VNone | VFloat NaN => Ok NaT
  | VInt z => Ok (Ts z)
  | VStr s =>
      let digits :=
        PyStr.replace "-" "" (PyStr.replace " " "" (PyStr.replace ":" "" s)) in
      if ((String.length s =? 19) && (String.length digits =? 14))%nat then
        match PyStr.digits_of_str digits with
        | Some t => Ok (Ts t)
        | None => Err ("Unknown datetime string format: " +:+ s)
        end
      else Err ("Unknown datetime string format: " +:+ s)
  | _ => Err "cannot convert to datetime"
  end.

(** Plain decimal literals, [nan] and [inf]. *)
Definition float_of_decimal (s : string) : option pynum :=
  let t := PyStr.strip s in
  if String.eqb t "nan" then Some NaN
  else if String.eqb t "inf" then Some PosInf
  else if String.eqb t "-inf" then Some NegInf
  else
    match PyStr.split "." t with
    | [i] => option_map (fun z => Fin (inject_Z z)) (PyStr.int_of_str i)
    | [i; f] =>
        match PyStr.int_of_str i, PyStr.digits_of_str f with
        | Some z, Some d =>
            let frac := (inject_Z d / inject_Z (10 ^ Z.of_nat (String.length f)))%Q in
            Some (Fin (if String.eqb (PyStr.take 1 i) "-"
                       then inject_Z z - frac else inject_Z z + frac)%Q)
        | _, _ => None
        end
    | _ => None
    end.

(** Patterns without metacharacters: the search is a substring test. *)
Definition pandas : Pandas :=
  {| to_datetime := to_datetime_iso;
     float_of_str := float_of_decimal;
     regex_search := PyStr.contains |}.

Definition table (col0 : list pyval) : DataFrame :=
  mkDataFrame ["Time"; "Power (kW)"] (map (fun v => [v; VInt 1]) col0).

(** A table whose first two rows go back in time and whose last two go
    forward. *)
Definition zigzag : DataFrame :=
  table [VStr "2024-01-02 00:03:00"; VStr "2024-01-02 00:01:00";
         VStr "2024-01-02 00:02:00"; VStr "2024-01-02 00:05:00"].

(** A table in descending order whose third timestamp is not a date. *)
Definition broken_tail : DataFrame :=
  table [VStr "2024-01-02 00:03:00"; VStr "2024-01-02 00:02:00"; VStr "n/a"].

(** A table in descending order. *)
Definition descending : DataFrame :=
  table [VStr "2024-01-02 00:03:00"; VStr "2024-01-02 00:02:00";
         VStr "2024-01-02 00:01:00"].

Definition day1 : DataFrame :=
  table [VStr "2024-01-01 00:00:00"; VStr "2024-01-01 00:01:00"].

(** Unit 100 has no cloud-storage folder, unit 77 has one. *)
Definition unit100 : Unit := Unit_init 100 1 "10.0.0.5" "8080" "SER100" [("power", true)].
Definition unit77 : Unit := Unit_init 77 3 "10.0.0.7" "8080" "SER77" [("power", true)].

(** The export of unit 100 answers for 2024-01-01 and is unreachable
    afterwards; the export of unit 77 is unreachable and its
    cloud-storage folder has no file. *)
Definition network : Network :=
  {| read_csv_url := fun url =>
       if String.eqb url (daily_url unit100 "2024-01-01") then Fetched day1
       else if String.eqb url (daily_url unit100 "2024-01-03")
       then FetchValueError "No columns to parse from file"
       else FetchOtherError "<urlopen error timed out>";
     drive := fun _ _ => DriveNoItems;
     status_page_space := fun _ => Ok "40<br>";
     last_month_now := "2024-01" |}.

Definition power : Channel :=
  mkChannel "Power" 0 100 (fun _ _ _ => ([], [])).

Definition rules : Rules :=
  {| check_missing_rows := fun _ _ => ([], [], []);
     check_total_energy := fun _ _ => ([], []);
     channel_registry := [("power", power)] |}.

Definition config100 : UnitConfig :=
  mkUnitConfig 100 1 "10.0.0.5" "8080" "SER100" [("power", true)].
Definition config77 : UnitConfig :=
  mkUnitConfig 77 3 "10.0.0.7" "8080" "SER77" [("power", true)].

(** A configuration folder with two descriptors and a stray file. *)
Definition config_dir : list (string * result UnitConfig) :=
  [("unit_100.json", Ok config100); ("README.md", Err "not JSON");
   ("unit_77.json", Ok config77)].

(** A data tree with two daily files of unit 100. *)
Definition tree : gmap Z Reporting.Listing :=
  {[ 100 := [("Minute_2024-01-01.csv",
              Ok (mkDataFrame ["Time"; "Power (kW)"]
                    [[VStr "2024-01-01 00:00:00"; VInt 50];
                     [VStr "2024-01-01 00:01:00"; VFloat NaN];
                     [VStr "2024-01-01 00:02:00"; VInt 101]]));
             ("Minute_2024-02-01.csv",
              Ok (mkDataFrame ["Time"; "Power (kW)"]
                    [[VStr "2024-02-01 00:00:00"; VInt 0]]))] ]}.

(** An export with one reading whose cell is empty: [pd.read_csv] gives
    [NaN] for it. *)
Definition blank_reading : DataFrame :=
  mkDataFrame ["Time"; "Power (kW)"] [[VStr "2024-01-01 00:00:00"; VFloat NaN]].

(** A worksheet with the three cells of the shading examples. *)
Definition worksheet : Worksheet :=
  to_excel (mkReport ["power"; "energy"; "flow"]
              [("2024-01", ["Good: 94, Missing: 0, Bad: 6";
                            "Good: 98, Missing: 1, Bad: 1";
                            "Good: 100, Missing: 0, Bad: 0"])]).

End Sample.


(** ** Notions used in the statements *)

(** The two units are the same device: they differ at most in their data,
    their findings and their data type. *)
Definition same_device (u u' : Unit) : Prop :=
  unit_no u' = unit_no u /\ block u' = block u /\ ip_address u' = ip_address u
  /\ port u' = port u /\ serial u' = serial u /\ channels u' = channels u.

(** The table that [_fix_order] returns for a table. *)
Definition fix_order_table `{Pandas} (u : Unit) (w : World) (d : DataFrame) : DataFrame :=
  match _fix_order u w (Some d) with
  | (_, _, Some d') => d'
  | (_, _, None) => d
  end.

(** Strictly descending and strictly ascending lists of timestamps. *)
Definition descending_ts : list timestamp -> Prop :=
  StronglySorted (fun a b => ts_gt a b = true).
Definition ascending_ts : list timestamp -> Prop :=
  StronglySorted (fun a b => ts_gt b a = true).

(** The cloud-storage attempt gives no usable table: the client raises,
    the folder has no such file, or the file is empty. *)
Definition fallback_fails (r : drive_result) : bool :=
  match r with
  | DriveRaises _ | DriveNoItems => true
  | DriveFile backup_data => df_empty backup_data
  end.

(** [url.split('/')[-1]] *)
Definition last_segment (url : string) : string :=
  List.last (PyStr.split "/" url) EmptyString.

(** The name of the backup file of a unit for a date. *)
Definition backup_name (u : Unit) (date : string) : string :=
  serial u +:+ "_" +:+ date +:+ ".csv".

(** The folder table as section 6 of the specification lists it. *)
Definition spec_folder_table : list (Z * string) := [
  (77, "1Z1ETfHlgitFOBx8SWqYiotkezFwL2ahb");
  (78, "1oOKr0Kt2Jg2j_tqzv6sdRF4bEuNofxy2");
  (79, "1NUruYAn2kafZTrUOFeMndmKHCyXnBVFM");
  (80, "1Idx4pE-vBeRzFQXoBpiwRgfHbh-CZ5Go");
  (81, "1Y17UL5XGQPlFf361V-9FLhP-JhAuFzaI");
  (82, "1ud6EOvBFkXGPR8McKDEJR6Dx3y_NssiF");
  (83, "1O08BMUVd4CnNsYYoH5l1mRYGW97AXsA5");
  (84, "1UHTnt1gOF28LoF7QnS-JcQ69q20pdeDc");
  (85, "1j2tTzGza7hDmwGukHo1HQFTYlMGg1qmo");
  (86, "1pmiaLqn_M3y3Ebn3tT9LnHBvRbgHOsA6");
  (87, "1JPCc3CIt1R5pW61DHtC24wVslnWC8QhN");
  (2804, "1X8M-Ec0y-vl3CrJ9zZxuMUMYAVlMF7fJ");
  (2806, "1Fh7r38--RT9_J1-e4XJnzLdQkXjD0zO5");
  (2808, "127cFRH_0pa1eZN67dYp4H63dM4hwX_43");
  (2810, "1euo9FBA2qem2oaa_ze0bxudcA9ZSOSVc");
  (2812, "1KH_x8Sb7ix-KdBUJYvsGZDOB5Ec3oaei");
  (2814, "125PAJ1RCLN4IDGVUeyh-lmvXQEhY6vMH");
  (2816, "1uCERJeoSE2Oexa59g3Nv7SZNrzQZfHp0");
  (2818, "17dVMIaaF0kzZofbUA4kJAIeYbVhrlNHt")
].

(** The lines and the message of [Unit.check_space]. *)
Definition space_info (u : Unit) (space : string) : string :=
  Unit_str u +:+ ": " +:+ space +:+ " GB left on the SD card".

Definition space_warning (u : Unit) (space : string) : string :=
  Unit_str u +:+ ": Less than 1GB of space available on the SD card: "
  +:+ space +:+ " GB".

Definition space_alert (u : Unit) (space : string) : string * string :=
  ("Maple West SD Card Storage Almost Full",
   Unit_str u +:+ ": Less than 1GB of space available on the SD card"
   +:+ nl +:+ nl +:+ space +:+ " GB left" +:+ nl +:+ nl
   +:+ "http://" +:+ ip_address u +:+ ":" +:+ port u).

(** The sum of the three counts. *)
Definition total_count (counts : Z * Z * Z) : Z :=
  let '(good, missing, bad) := counts in good + missing + bad.

(** The numeric value [q], as an [int] cell would hold it or as a [float]. *)
Definition holds_number (v : pyval) (q : Q) : Prop :=
  v = VFloat (Fin q) \/ exists z, v = VInt z /\ q = inject_Z z.

(** The cell at row [i] and column [j] of a worksheet, from zero. *)
Definition sheet_cell (ws : Worksheet) (i j : nat) : option Cell :=
  match nth_error ws i with
  | Some row => nth_error row j
  | None => None
  end.

(** The text of the cell is empty or holds three counts. *)
Definition cell_parses (c : Cell) : bool :=
  match value c with
  | None | Some EmptyString => true
  | Some text =>
      match QualityChecker.parse_counts text with
      | Ok _ => true
      | Err _ => false
      end
  end.

(** Every cell below the header row and right of the label column does. *)
Definition sheet_parses (ws : Worksheet) : bool :=
  forallb (fun row => forallb cell_parses (tl row)) (tl ws).

(** The entries of a configuration folder that the loaders read. *)
Definition json_files (config_dir : list (string * result UnitConfig))
  : list (string * result UnitConfig) :=
  List.filter (fun entry => PyStr.endswith ".json" entry.1) config_dir.

(** Every descriptor of the folder is well formed. *)
Definition well_formed_dir (config_dir : list (string * result UnitConfig)) : Prop :=
  Forall (fun entry => exists config, entry.2 = Ok config) (json_files config_dir).

(** The descriptors of the folder, in listing order. *)
Definition parsed_configs (config_dir : list (string * result UnitConfig))
  : list UnitConfig :=
  flat_map (fun entry => match entry.2 with Ok config => [config] | Err _ => [] end)
           (json_files config_dir).

(** Ascending order of [unit_no], without repetition. *)
Definition ascending_units : list Unit -> Prop :=
  StronglySorted (fun a b => unit_no a < unit_no b).

(** [if results:] fails: [process_data] gave [None] or an empty dictionary. *)
Definition no_results (r : result (option (list (string * list Z)))) : bool :=
  match r with
  | Ok None | Ok (Some []) => true
  | _ => false
  end.

(** A device all of whose months are accounted for: its step of
    [update_quality_report] saves nothing and leaves the reports as they
    are. *)
Definition settled_unit `{Pandas} `{Rules} (units : list (Z * UnitConfig))
    (tree : gmap Z Reporting.Listing) (data_type : string)
    (reports : gmap Z Report) (unit_no : Z) : Prop :=
  Reporting.update_unit units tree data_type reports unit_no = Ok (reports, false).

From Stdlib Require Import DecimalPos DecimalZ.
From Stdlib Require OrderedTypeEx.

(** ** Further notions *)

(** [unit.data] is unset or holds a non-empty table. *)
Definition data_ok (u : Unit) : Prop :=
  match data u with
  | Some d => df_empty d = false
  | None => True
  end.

(** The list [l] is the list [k] with more items after it. *)
Definition grows_from {A} (l k : list A) : Prop :=
  exists more, l = (k ++ more)%list.

(** The float [NaN], which [pd.read_csv] puts in an empty cell. *)
Definition is_nan (v : pyval) : bool :=
  match v with
  | VFloat NaN => true
  | _ => false
  end.

Definition nan_cells (values : list pyval) : nat :=
  length (List.filter is_nan values).

(** The cloud-storage copy is a non-empty table. *)
Definition usable_backup (r : drive_result) : option DataFrame :=
  match r with
  | DriveFile backup_data => if df_empty backup_data then None else Some backup_data
  | _ => None
  end.

(** The descriptor that was read last among those of a device. *)
Definition last_config (unit_no : Z) (configs : list UnitConfig) : option UnitConfig :=
  List.find (fun config => Z.eqb (cfg_unit_no config) unit_no) (rev configs).

(** Three counts, none of them negative. *)
Definition is_counts (l : list Z) : Prop :=
  exists good missing bad,
    l = [good; missing; bad] /\ 0 <= good /\ 0 <= missing /\ 0 <= bad.

(** The file counts for the month and can be read. *)
Definition readable_for (month : string) (entry : string * result DataFrame) : bool :=
  PyStr.contains month entry.1 && PyStr.endswith ".csv" entry.1
  && match entry.2 with Ok _ => true | Err _ => false end.

(** More sample inputs. *)
Module Sample2.

(** Every export is unreachable; the cloud-storage folder of unit 77 holds
    the file of 2024-01-02, in descending order. *)
Definition network_with_backup : Network :=
  {| read_csv_url := fun _ => FetchOtherError "<urlopen error timed out>";
     drive := fun folder filename =>
       if String.eqb folder "1Z1ETfHlgitFOBx8SWqYiotkezFwL2ahb"
          && String.eqb filename "SER77_2024-01-02.csv"
       then DriveFile Sample.descending else DriveNoItems;
     status_page_space := fun _ => Err "<urlopen error timed out>";
     last_month_now := "2024-01" |}.

(** A newer descriptor of unit 100, with another address. *)
Definition config100_new : UnitConfig :=
  mkUnitConfig 100 1 "10.0.0.9" "8080" "SER100" [("power", true)].

(** A folder in which two files describe unit 100. *)
Definition config_dir_twice : list (string * result UnitConfig) :=
  [("a_unit_100.json", Ok Sample.config100); ("unit_77.json", Ok Sample.config77);
   ("b_unit_100.json", Ok config100_new)].

(** Unit 100 with minute data, monitoring a channel that the sample
    registry does not have. *)
Definition unit_with_flow : Unit :=
  mkUnit 100 1 "10.0.0.5" "8080" "SER100" [("power", true); ("flow", true)]
         (Some Sample.day1) [] [] "Minute".

End Sample2.

(** The character occurs in the text. *)
Fixpoint has_char (c : ascii) (s : string) : bool :=
  match s with
  | EmptyString => false
  | String a s' => Ascii.eqb c a || has_char c s'
  end.

(** A decimal digit. *)
Definition is_digit (c : ascii) : bool :=
  let n := nat_of_ascii c in ((48 <=? n) && (n <=? 57))%nat.

(** Every cell of the report is a text of [_format_quality_result]. *)
Definition formatted_report (r : Report) : Prop :=
  Forall (fun row =>
            Forall (fun text => exists counts,
                      text = QualityChecker._format_quality_result counts)
                   row.2)
         (rep_rows r).

(** A report as [update_quality_report] writes them: it has a channel
    column and every cell is a text of [_format_quality_result]. *)
Definition clean_report (r : Report) : Prop :=
  rep_columns r <> [] /\ formatted_report r.

(** [f"Unit_{unit_no}_{period}.csv"]: the name under which the download
    loop, [combine_data] and [check_quality] write the files of a unit. *)
Definition unit_file_name (unit_no : Z) (period : string) : string :=
  "Unit_" +:+ PyStr.str_of_Z unit_no +:+ "_" +:+ period +:+ ".csv".

(** Every file of every device folder bears such a name, with a period
    free of the capital letters M and H (a date, a month, [combined]). *)
Definition named_by_the_writers (tree : gmap Z Reporting.Listing) : Prop :=
  forall k listing, tree !! k = Some listing ->
    Forall (fun entry : string * result DataFrame =>
              exists n period,
                entry.1 = unit_file_name n period
                /\ has_char "M" period = false /\ has_char "H" period = false)
           listing.

(** ** More of [unit.py] and [main.py]: natural order and [combine_data] *)

(** An item of a natural sort key: a number or a text. *)
Inductive key_item :=
| KInt (n : Z)
| KStr (s : string).

(** [re.split('(\d+)', s)] on ASCII text: the texts between the runs of
    digits and the runs themselves, in turn; the list starts and ends with
    a text, which may be empty.  [cur] is the part being read and [in_run]
    tells whether it is a run of digits. *)
Fixpoint split_digit_runs (s : string) (cur : string) (in_run : bool) : list string :=
  match s with
  | EmptyString => if in_run then [cur; EmptyString] else [cur]
  | String c s' =>
      if is_digit c then
        if in_run then split_digit_runs s' (cur +:+ String c EmptyString) true
        else cur :: split_digit_runs s' (String c EmptyString) true
      else
        if in_run then cur :: split_digit_runs s' (String c EmptyString) false
        else split_digit_runs s' (cur +:+ String c EmptyString) false
  end.

(** Every character satisfies the test. *)
Fixpoint all_chars (test : ascii -> bool) (s : string) : bool :=
  match s with
  | EmptyString => true
  | String c s' => test c && all_chars test s'
  end.

(** [text.isdigit()] on ASCII text *)
Definition isdigit (text : string) : bool :=
  match text with
  | EmptyString => false
  | _ => all_chars is_digit text
  end.

(** The text is ASCII.  On such texts [\d], [isdigit], [lower] and the
    order of texts are Python's; beyond ASCII Python knows further digits
    and letters, which are not modelled. *)
Definition ascii_text (s : string) : bool :=
  all_chars (fun c => (nat_of_ascii c <? 128)%nat) s.

(** [int(text) if text.isdigit() else text.lower()] *)
Definition key_of_part (text : string) : result key_item :=
  if isdigit text then
    match PyStr.int_of_str text with
    | Some n => Ok (KInt n)
    | None => Err "ValueError"
    end
  else Ok (KStr (PyStr.lower text)).

(** [Unit._natural_sort_key] and [BulkDownloadGUI.natural_sort_key] *)
Definition natural_sort_key (s : string) : result (list key_item) :=
  QualityChecker.map_result key_of_part (split_digit_runs s EmptyString false).

(** [a < b] on keys, as Python compares lists: the first pair of unequal
    items decides, and a number against a text is a [TypeError]. *)
Fixpoint key_lt (a b : list key_item) : result bool :=
  match a, b with
  | [], [] => Ok false
  | [], _ :: _ => Ok true
  | _ :: _, [] => Ok false
  | KInt n :: a', KInt m :: b' => if n =? m then key_lt a' b' else Ok (n <? m)
  | KStr s :: a', KStr t :: b' =>
      if String.eqb s t then key_lt a' b' else Ok (String.ltb s t)
  | _, _ => Err "TypeError: '<' not supported between 'int' and 'str'"
  end.

(** The items are in turn a text and a number, starting with a text when
    [text_first] holds. *)
Fixpoint alternating (text_first : bool) (k : list key_item) : Prop :=
  match k with
  | [] => True
  | KStr _ :: k' => text_first = true /\ alternating false k'
  | KInt _ :: k' => text_first = false /\ alternating true k'
  end.

(** [l.sort(key=natural_sort_key)].  Python computes the keys first and
    then orders the elements by [<] on the keys, elements with equal keys
    keeping their order; an exception of the key function or of a
    comparison ends the sort.  The comparisons are those of an insertion
    sort from the right. *)
Fixpoint insert_natural {A} (x : list key_item * A) (l : list (list key_item * A))
  : result (list (list key_item * A)) :=
  match l with
  | [] => Ok [x]
  | y :: l' =>
      match key_lt (fst y) (fst x) with
      | Err e => Err e
      | Ok false => Ok (x :: y :: l')
      | Ok true =>
          match insert_natural x l' with
          | Err e => Err e
          | Ok r => Ok (y :: r)
          end
      end
  end.

Fixpoint sort_keyed {A} (l : list (list key_item * A))
  : result (list (list key_item * A)) :=
  match l with
  | [] => Ok []
  | x :: l' =>
      match sort_keyed l' with
      | Err e => Err e
      | Ok sorted => insert_natural x sorted
      end
  end.

Definition with_key {A} (path : A -> string) (x : A) : result (list key_item * A) :=
  match natural_sort_key (path x) with
  | Err e => Err e
  | Ok k => Ok (k, x)
  end.

Definition sort_natural {A} (path : A -> string) (l : list A) : result (list A) :=
  match QualityChecker.map_result (with_key path) l with
  | Err e => Err e
  | Ok keyed =>
      match sort_keyed keyed with
      | Err e => Err e
      | Ok sorted => Ok (map snd sorted)
      end
  end.

(** In a list of elements with their keys, [x] does not come after [y]. *)
Definition keyed_le {A} (x y : list key_item * A) : Prop :=
  key_lt (fst y) (fst x) = Ok false.

(** [a] does not come after [b] in natural order. *)
Definition natural_le (a b : string) : Prop :=
  exists ka kb, natural_sort_key a = Ok ka /\ natural_sort_key b = Ok kb
                /\ key_lt kb ka = Ok false.

(** The csv files of a device folder with their paths:
    [os.path.join(unit_dir, file)] for every [file] that ends in [.csv]. *)
Definition csv_files (unit_dir : string) (listing : list (string * result DataFrame))
  : list (string * result DataFrame) :=
  map (fun entry => (unit_dir +:+ "/" +:+ fst entry, snd entry))
      (List.filter (fun entry => PyStr.endswith ".csv" (fst entry)) listing).

(** The tables of the files that [pd.read_csv] reads, in the order of the
    list; a file that cannot be read is reported and left out. *)
Definition read_frames (entries : list (string * result DataFrame)) : list DataFrame :=
  flat_map (fun entry => match snd entry with
                         | Ok df => [df]
                         | Err _ => []
                         end) entries.

(** The body of the loop of [BulkDownloadGUI.combine_data] for a device
    whose folder exists: the table that is written to
    [Unit_<n>_combined.csv], or [None] when nothing is written. *)
Definition combine_unit `{Pandas} (unit_dir : string)
    (listing : list (string * result DataFrame)) : option DataFrame :=
  match csv_files unit_dir listing with
  | [] => None
  | files =>
      match sort_natural fst files with
      | Err _ => None
      | Ok sorted =>
          match map BulkDownloadGUI.combine_fix_order (read_frames sorted) with
          | [] => None
          | dfs => Some (df_concat dfs)
          end
      end
  end.

(** ** [main.py]: the dates of a download *)

(** A [datetime] at midnight. *)
Record datetime := mkDate {
  dt_year : Z;
  dt_month : Z;
  dt_day : Z
}.

Definition is_leap (y : Z) : bool :=
  (y mod 4 =? 0) && (negb (y mod 100 =? 0) || (y mod 400 =? 0)).

(** [calendar.monthrange(y, m)[1]] for a month from 1 to 12 *)
Definition days_in_month (y m : Z) : Z :=
  if m =? 2 then (if is_leap y then 29 else 28)
  else if (m =? 4) || (m =? 6) || (m =? 9) || (m =? 11) then 30
  else 31.

(** What the [datetime] constructor accepts. *)
Definition valid_date (y m d : Z) : bool :=
  (1 <=? y) && (y <=? 9999) && (1 <=? m) && (m <=? 12)
  && (1 <=? d) && (d <=? days_in_month y m).

Definition valid (d : datetime) : bool :=
  valid_date (dt_year d) (dt_month d) (dt_day d).

(** [datetime(y, m, d)]; [None] stands for [ValueError]. *)
Definition new_datetime (y m d : Z) : option datetime :=
  if valid_date y m d then Some (mkDate y m d) else None.

(** [a < b] *)
Definition dt_lt (a b : datetime) : bool :=
  (dt_year a <? dt_year b)
  || ((dt_year a =? dt_year b)
      && ((dt_month a <? dt_month b)
          || ((dt_month a =? dt_month b) && (dt_day a <? dt_day b)))).

(** [d + timedelta(days=1)]; [None] stands for [OverflowError]. *)
Definition next_day (d : datetime) : option datetime :=
  if dt_day d <? days_in_month (dt_year d) (dt_month d)
  then Some (mkDate (dt_year d) (dt_month d) (dt_day d + 1))
  else if dt_month d <? 12 then Some (mkDate (dt_year d) (dt_month d + 1) 1)
  else if dt_year d <? 9999 then Some (mkDate (dt_year d + 1) 1 1)
  else None.

(** [d + relativedelta(months=1)]: the day is cut to the length of the new
    month; [None] stands for [ValueError]. *)
Definition next_month (d : datetime) : option datetime :=
  let year := if 12 <? dt_month d + 1 then dt_year d + 1 else dt_year d in
  let month := if 12 <? dt_month d + 1 then dt_month d + 1 - 12 else dt_month d + 1 in
  new_datetime year month (Z.min (days_in_month year month) (dt_day d)).

(** [d.replace(day=1)] *)
Definition first_of_month (d : datetime) : datetime :=
  mkDate (dt_year d) (dt_month d) 1.

(** The loop [while current < end: dates.append(current); current = step(current)].
    [None] when the loop has not ended after [fuel] turns; [Err] when the
    step raises. *)
Fixpoint dates_loop (step : datetime -> option datetime) (fuel : nat)
    (current end_date : datetime) : option (result (list datetime)) :=
  match fuel with
  | O => None
  | S fuel' =>
      if dt_lt current end_date then
        match step current with
        | None => Some (Err "date value out of range")
        | Some next =>
            match dates_loop step fuel' next end_date with
            | Some (Ok dates) => Some (Ok (current :: dates))
            | other => other
            end
        end
      else Some (Ok [])
  end.

(** [BulkDownloadGUI._get_daily_dates] *)
Definition _get_daily_dates (fuel : nat) (start_date end_date : datetime)
  : option (result (list datetime)) :=
  dates_loop next_day fuel start_date end_date.

(** [BulkDownloadGUI._get_monthly_dates] *)
Definition _get_monthly_dates (fuel : nat) (start_date end_date : datetime)
  : option (result (list datetime)) :=
  dates_loop next_month fuel (first_of_month start_date) (first_of_month end_date).

(** [list(calendar.month_name)] in the English locale *)
Definition month_name : list string :=
  [""; "January"; "February"; "March"; "April"; "May"; "June"; "July";
   "August"; "September"; "October"; "November"; "December"].

(** [l.index(x)]; [None] stands for [ValueError]. *)
Fixpoint index_of (x : string) (l : list string) : option Z :=
  match l with
  | [] => None
  | y :: l' => if String.eqb y x then Some 0 else option_map Z.succ (index_of x l')
  end.

(** What the four boxes of the date form hold. *)
Record DateForm := mkDateForm {
  start_month : string;
  start_year : string;
  end_month : string;
  end_year : string
}.

(** [BulkDownloadGUI.validate_date_range]: [None] stands for the pair
    [(None, None)] that is returned after a [ValueError]. *)
Definition validate_date_range (form : DateForm) : option (datetime * datetime) :=
  match index_of (start_month form) month_name, index_of (end_month form) month_name,
        PyStr.int_of_str (start_year form), PyStr.int_of_str (end_year form) with
  | Some sm, Some em, Some sy, Some ey =>
      match new_datetime sy sm 1 with
      | None => None
      | Some start_date =>
          if (1 <=? em) && (em <=? 12) then
            match new_datetime ey em (days_in_month ey em) with
            | None => None
            | Some end_date =>
                if dt_lt end_date start_date then None
                else Some (start_date, end_date)
            end
          else None
      end
  | _, _, _, _ => None
  end.

(** Decimal digits of a number, with zeros in front up to two places:
    [%m] and [%d]. *)
Definition two_digits (n : Z) : string :=
  if n <? 10 then "0" +:+ PyStr.str_of_Z n else PyStr.str_of_Z n.

(** [d.strftime('%Y-%m-%d')] and [d.strftime('%Y-%m')]; [%Y] is the plain
    decimal year, which has four digits from the year 1000 on. *)
Definition strftime_day (d : datetime) : string :=
  PyStr.str_of_Z (dt_year d) +:+ "-" +:+ two_digits (dt_month d)
  +:+ "-" +:+ two_digits (dt_day d).

Definition strftime_month (d : datetime) : string :=
  PyStr.str_of_Z (dt_year d) +:+ "-" +:+ two_digits (dt_month d).

(** The first part of [BulkDownloadGUI.start_download]: the dates the
    download loop runs over, or the message of the error box or of the
    exception that ends the call.  [None] when the date loop has not ended
    after [fuel] turns. *)
Definition dates_to_download (fuel : nat) (data_type : string) (selected_units : list Unit)
    (form : DateForm) : option (result (list datetime)) :=
  match selected_units with
  | [] => Some (Err "Please select at least one unit")
  | _ =>
      match validate_date_range form with
      | None => Some (Err "Invalid date range")
      | Some (start_date, end_date) =>
          if negb (dt_lt start_date end_date) then Some (Err "Invalid date range")
          else
            let dates :=
              if String.eqb data_type "Minute"
              then _get_daily_dates fuel start_date end_date
              else _get_monthly_dates fuel start_date end_date in
            match dates with
            | Some (Ok []) => Some (Err "No dates to download in the specified range")
            | other => other
            end
      end
  end.

(** [current_date.strftime(date_format)] in the download loop *)
Definition date_str (data_type : string) (current_date : datetime) : string :=
  if String.eqb data_type "Minute" then strftime_day current_date
  else strftime_month current_date.

(** The year and the month of a date as one number. *)
Definition month_index (d : datetime) : Z := dt_year d * 12 + dt_month d.

(** A first day of a month. *)
Definition first_day (d : datetime) : Prop := valid d = true /\ dt_day d = 1.

(** The form as the boxes fill it: the names of two months and two
    decimal years. *)
Definition date_form (sm sy em ey : Z) : DateForm :=
  mkDateForm (nth (Z.to_nat sm) month_name "") (PyStr.str_of_Z sy)
             (nth (Z.to_nat em) month_name "") (PyStr.str_of_Z ey).

(** A device folder with three exports, one of them unreadable, and a
    file that is not an export. *)
Module SampleFolder.

Definition listing : list (string * result DataFrame) :=
  [("Unit_100_2024-01-10.csv", Ok Sample.descending);
   ("Unit_100_2024-01-02.csv", Ok Sample.day1);
   ("notes.txt", Err "ParserError");
   ("Unit_100_2024-01-03.csv", Err "EmptyDataError")].

End SampleFolder.

(** ** [main.py]: [BulkDownloadGUI.generate_quality_report] *)

Module Generating.
Import QualityChecker Reporting.

Section WithLibraries.
Context `{Pandas} `{Rules}.

(** The period of a file of the folder:
    [os.path.basename(file).split('_')[-1].replace('.csv', '')[:7]], or
    [None] when the text before the cut has fewer than seven characters. *)
Definition file_month (file : string) : option string :=
  let date_str :=
    PyStr.replace ".csv" "" (List.last (PyStr.split "_" file) EmptyString) in
  if (7 <=? String.length date_str)%nat then Some (PyStr.take 7 date_str)
  else None.

(** [report_df.loc[month] = {ch: ... for ch in report_df.columns}]: the
    row of a label that is in the index is replaced where it stands, a
    new label gets a row at the end. *)
Definition set_row (report_df : Report) (month : string)
    (results : list (string * list Z)) : Report :=
  if mem month (rep_index report_df) then
    mkReport (rep_columns report_df)
      (map (fun row : string * list string =>
              if String.eqb (fst row) month
              then (month, map (fun ch => _format_quality_result (dict_get results ch))
                               (rep_columns report_df))
              else row)
           (rep_rows report_df))
  else add_row report_df month results.

(** The loop over the csv files of the folder; an exception in the body
    is reported and the loop goes on with the next file. *)
Fixpoint report_files (units : list (Z * UnitConfig)) (tree : gmap Z Listing)
    (unit_no : Z) (files : list string) (report_df : Report) : Report :=
  match files with
  | [] => report_df
  | file :: files' =>
      report_files units tree unit_no files'
        (match file_month file with
         | None => report_df
         | Some month =>
             match process_data units tree unit_no month with
             | Ok (Some (r :: rs)) =>
                 match rep_columns report_df with
                 | [] => report_df
                 | _ :: _ => set_row report_df month (r :: rs)
                 end
             | _ => report_df
             end
         end)
  end.

(** [report_df.empty] *)
Definition report_empty (report_df : Report) : bool :=
  match rep_columns report_df, rep_rows report_df with
  | _ :: _, _ :: _ => false
  | _, _ => true
  end.

(** The names of the folder that end in [.csv]. *)
Definition csv_names (listing : Listing) : list string :=
  List.filter (PyStr.endswith ".csv") (map fst listing).

(** The body of the loop of [generate_quality_report] for one device:
    the report that is saved, [None] when none is, [Err] for an exception
    that leaves the loop.  The columns are chosen by looking the device
    up once per channel of the registry: a device that the checker does
    not have raises [KeyError] there, unless the registry is empty, in
    which case every later lookup is inside the loop over the files and
    no report is saved. *)
Definition generate_unit (units : list (Z * UnitConfig)) (tree : gmap Z Listing)
    (unit_no : Z) : result (option Report) :=
  match tree !! unit_no with
  | None => Ok None
  | Some listing =>
      match dict_get units unit_no with
      | None =>
          match channel_registry with
          | [] => Ok None
          | _ :: _ => Err "KeyError"
          end
      | Some _ =>
          match csv_names listing with
          | [] => Ok None
          | files =>
              let report_df :=
                report_files units tree unit_no files (new_report units unit_no) in
              if report_empty report_df then Ok None
              else
                let saved := sort_index report_df in
                match _apply_conditional_formatting (to_excel saved) with
                | Err e => Err e
                | Ok _ => Ok (Some saved)
                end
          end
      end
  end.

(** [BulkDownloadGUI.generate_quality_report]: the reports that are saved,
    by device, and the exception that ended the loop, if any. *)
Fixpoint generate_quality_report (units : list (Z * UnitConfig))
    (tree : gmap Z Listing) (selected_units : list Z) (reports : gmap Z Report)
  : gmap Z Report * option string :=
  match selected_units with
  | [] => (reports, None)
  | unit_no :: rest =>
      match generate_unit units tree unit_no with
      | Err e => (reports, Some e)
      | Ok None => generate_quality_report units tree rest reports
      | Ok (Some saved) =>
          generate_quality_report units tree rest (<[unit_no := saved]> reports)
      end
  end.

(** What a report of [generate_quality_report] holds: no period twice,
    and in the row of a period, for every channel column, the formatted
    counts that [process_data] gives for the period. *)
Definition report_inv (units : list (Z * UnitConfig)) (tree : gmap Z Listing)
    (unit_no : Z) (r : Report) : Prop :=
  List.NoDup (rep_index r)
  /\ formatted_report r
  /\ forall month cells,
       In (month, cells) (rep_rows r) ->
       exists results,
         process_data units tree unit_no month = Ok (Some results)
         /\ cells = map (fun ch => _format_quality_result (dict_get results ch))
                        (rep_columns r).

End WithLibraries.
End Generating.

(** What [combine_data] leaves in the folder of a device: the combined
    file alone. *)
Definition combined_folder (unit_no : Z) (combined : DataFrame)
  : Reporting.Listing :=
  [(unit_file_name unit_no "combined", Ok combined)].

(** * Properties *)

(** ** Strings *)

Local Arguments String.append !s1 s2.

Lemma append_nil_r (s : string) : s +:+ EmptyString = s.
Proof. induction s; simpl; congruence. Qed.

Lemma append_assoc (a b c : string) : (a +:+ b) +:+ c = a +:+ (b +:+ c).
Proof. induction a; simpl; congruence. Qed.

Lemma append_snoc (s : string) (c : ascii) (t : string) :
  (s +:+ String c EmptyString) +:+ t = s +:+ String c t.
Proof. rewrite append_assoc. reflexivity. Qed.

Lemma split_go_nonempty sep skip cur s : PyStr.split_go sep skip cur s <> [].
Proof.
  revert skip cur. induction s as [|c s IH]; intros skip cur; simpl.
  - discriminate.
  - destruct skip; [|apply IH].
    destruct (PyStr.startswith sep (String c s)); [discriminate|apply IH].
Qed.

Lemma last_cons_nonempty {A} (x : A) l d : l <> [] -> List.last (x :: l) d = List.last l d.
Proof. destruct l; [congruence|reflexivity]. Qed.

(** A text without the separator is one field. *)
Lemma split_go_no_sep (c : ascii) cur s :
  PyStr.contains (String c EmptyString) s = false ->
  PyStr.split_go (String c EmptyString) 0 cur s = [cur +:+ s].
Proof.
  revert cur. induction s as [|a s IH]; intros cur Hno; simpl.
  - now rewrite append_nil_r.
  - simpl in Hno. destruct (Ascii.eqb c a) eqn:E.
    + destruct s; discriminate.
    + simpl in Hno. rewrite IH by exact Hno. now rewrite append_snoc.
Qed.

(** [(s + c + d).split(c)[-1] == d] when [d] has no [c]. *)
Lemma split_last_segment (c : ascii) s d :
  PyStr.contains (String c EmptyString) d = false ->
  List.last (PyStr.split (String c EmptyString) (s +:+ String c d)) EmptyString = d.
Proof.
  intros Hno. unfold PyStr.split. generalize EmptyString at 2 as cur.
  induction s as [|a s IH]; intros cur; simpl.
  - rewrite Ascii.eqb_refl. rewrite split_go_no_sep by exact Hno. reflexivity.
  - destruct (Ascii.eqb c a).
    + rewrite last_cons_nonempty by apply split_go_nonempty. apply IH.
    + apply IH.
Qed.

(** ** Row order *)

Section Properties.
Context `{Pandas} `{Network}.

Lemma same_device_refl u : same_device u u.
Proof. repeat split. Qed.

(** [_fix_order] hands back a table whenever it is given one: the table
    itself or its reversal; it touches neither the data of the unit nor
    any part of the world but the log. *)
Lemma fix_order_cases u w d :
  exists u' w' d',
    _fix_order u w (Some d) = (u', w', Some d')
    /\ (d' = d \/ d' = df_reverse d)
    /\ same_device u u' /\ data u' = data u /\ datatype u' = datatype u
    /\ warnings u' = warnings u
    /\ failed_downloads w' = failed_downloads w
    /\ drive_requests w' = drive_requests w
    /\ emails w' = emails w /\ files w' = files w.
Proof.
  unfold _fix_order.
  destruct (df_empty d || (df_len d <? 2)%nat).
  { exists u, w, d. repeat split; auto. }
  destruct (to_datetime_all (iloc_col0 d)) as [ts|e].
  - destruct (first_two_descending ts).
    + exists u, w, (df_reverse d). repeat split; auto.
    + exists u, w, d. repeat split; auto.
  - eexists _, _, d. split; [reflexivity|]. repeat split; auto.
Qed.

Lemma df_empty_reverse d : df_empty (df_reverse d) = df_empty d.
Proof. unfold df_empty, df_reverse. simpl. now rewrite length_rev. Qed.


Lemma to_datetime_all_app col1 col2 ts1 ts2 :
  to_datetime_all col1 = Ok ts1 -> to_datetime_all col2 = Ok ts2 ->
  to_datetime_all (col1 ++ col2)%list = Ok (ts1 ++ ts2)%list.
Proof.
  revert ts1. induction col1 as [|v col1 IH]; intros ts1 H1 H2; simpl in *.
  - now inversion H1.
  - destruct (to_datetime v); [|discriminate].
    destruct (to_datetime_all col1) as [ts|]; [|discriminate].
    inversion H1; subst. now rewrite (IH ts eq_refl H2).
Qed.

Lemma to_datetime_all_rev col ts :
  to_datetime_all col = Ok ts -> to_datetime_all (rev col) = Ok (rev ts).
Proof.
  revert ts. induction col as [|v col IH]; intros ts Hts; simpl in *.
  - now inversion Hts.
  - destruct (to_datetime v) as [t|] eqn:Hv; [|discriminate].
    destruct (to_datetime_all col) as [ts'|]; [|discriminate].
    inversion Hts; subst. simpl.
    apply to_datetime_all_app; [now apply IH|]. simpl. now rewrite Hv.
Qed.

Lemma to_datetime_all_length col ts :
  to_datetime_all col = Ok ts -> length ts = length col.
Proof.
  revert ts. induction col as [|v col IH]; intros ts Hts; simpl in *.
  - now inversion Hts.
  - destruct (to_datetime v); [|discriminate].
    destruct (to_datetime_all col) as [ts'|]; [|discriminate].
    inversion Hts; subst. simpl. f_equal. now apply IH.
Qed.

Lemma iloc_col0_reverse d : iloc_col0 (df_reverse d) = rev (iloc_col0 d).
Proof. unfold iloc_col0, df_reverse. simpl. now rewrite map_rev. Qed.

Lemma df_len_reverse d : df_len (df_reverse d) = df_len d.
Proof. unfold df_len, df_reverse. simpl. apply length_rev. Qed.

Lemma df_reverse_involutive d : df_reverse (df_reverse d) = d.
Proof. destruct d. unfold df_reverse. simpl. now rewrite rev_involutive. Qed.

(** What [_fix_order] does once the whole column has parsed. *)
Lemma fix_order_parsed u w d ts :
  to_datetime_all (iloc_col0 d) = Ok ts ->
  _fix_order u w (Some d) =
    (u, w, Some (if negb (df_empty d) && (2 <=? df_len d)%nat
                    && first_two_descending ts
                 then df_reverse d else d)).
Proof.
  intros Hts. unfold _fix_order. rewrite Hts.
  assert (Hlen : (df_len d <? 2)%nat = negb (2 <=? df_len d)%nat).
  { destruct (Nat.ltb_spec (df_len d) 2), (Nat.leb_spec 2 (df_len d));
      simpl; auto; lia. }
  rewrite Hlen.
  destruct (df_empty d), (2 <=? df_len d)%nat, (first_two_descending ts);
    reflexivity.
Qed.

(** What the row-order step of [combine_data] does in that case. *)
Lemma combine_fix_order_parsed d ts :
  to_datetime_all (iloc_col0 d) = Ok ts ->
  BulkDownloadGUI.combine_fix_order d =
    if negb (df_empty d) && (2 <=? df_len d)%nat && first_two_descending ts
    then df_reverse d else d.
Proof.
  intros Hts. unfold BulkDownloadGUI.combine_fix_order.
  assert (Hlen : (1 <? df_len d)%nat = (2 <=? df_len d)%nat).
  { destruct (Nat.ltb_spec 1 (df_len d)), (Nat.leb_spec 2 (df_len d));
      simpl; auto; lia. }
  rewrite Hlen.
  destruct (negb (df_empty d) && (2 <=? df_len d)%nat); [|reflexivity].
  destruct (iloc_col0 d) as [|v0 [|v1 col]] eqn:Hcol; simpl in Hts.
  - inversion Hts. reflexivity.
  - destruct (to_datetime v0); inversion Hts. reflexivity.
  - destruct (to_datetime v0) as [t0|]; [|discriminate].
    destruct (to_datetime v1) as [t1|]; [|discriminate].
    destruct (to_datetime_all col); inversion Hts. reflexivity.
Qed.

(** The normalisation as a function of the parsed column. *)
Lemma normalize_twice d ts :
  to_datetime_all (iloc_col0 d) = Ok ts ->
  first_two_descending ts && first_two_descending (rev ts) = false ->
  let norm d ts :=
    if negb (df_empty d) && (2 <=? df_len d)%nat && first_two_descending ts
    then df_reverse d else d in
  norm (norm d ts) (if negb (df_empty d) && (2 <=? df_len d)%nat
                       && first_two_descending ts then rev ts else ts)
  = norm d ts.
Proof.
  intros Hts Hzig norm. unfold norm.
  destruct (negb (df_empty d) && (2 <=? df_len d)%nat) eqn:Hbig;
    rewrite ?andb_true_l, ?andb_false_l.
  - destruct (first_two_descending ts) eqn:Hdesc.
    + rewrite df_empty_reverse, df_len_reverse, Hbig, andb_true_l.
      rewrite andb_true_l in Hzig. now rewrite Hzig.
    + now rewrite Hbig, andb_true_l, Hdesc.
  - now rewrite Hbig, andb_false_l.
Qed.


Lemma StronglySorted_snoc {A} (R : A -> A -> Prop) l a :
  StronglySorted R l -> Forall (fun x => R x a) l -> StronglySorted R (l ++ [a])%list.
Proof.
  induction 1 as [|x l Hl IH Hx]; intros Hall; simpl.
  - repeat constructor.
  - inversion Hall; subst. constructor; [now apply IH|].
    apply Forall_app. split; [assumption|now constructor].
Qed.

Lemma descending_rev_ascending ts : descending_ts ts -> ascending_ts (rev ts).
Proof.
  unfold descending_ts, ascending_ts.
  induction 1 as [|t ts Hts IH Ht]; simpl; [constructor|].
  apply StronglySorted_snoc; [exact IH|].
  apply List.Forall_forall. intros x Hx. apply in_rev in Hx.
  rewrite List.Forall_forall in Ht. now apply Ht.
Qed.


End Properties.

(** ** Downloads *)

Section Downloads.
Context `{Pandas} `{Network}.

Lemma daily_url_same_device u u' date :
  same_device u u' -> daily_url u' date = daily_url u date.
Proof.
  intros (_ & _ & Hip & Hport & Hserial & _). unfold daily_url.
  now rewrite Hip, Hport, Hserial.
Qed.

(** The handler of empty data unsets the dataset and records the
    failure in the error list, the log and the failed-downloads record. *)
Lemma empty_data_handler_records u w url date :
  let '(u', w') := empty_data_handler u w url date in
  data u' = None
  /\ errors u' = (errors u ++ [Unit_str u +:+ ": Empty data from " +:+ url])%list
  /\ log w' = (log w ++ [Unit_str u +:+ ": Empty data from " +:+ url +:+ nl +:+ nl])%list
  /\ failed_downloads w' = (failed_downloads w ++ [(unit_no u, date, url)])%list.
Proof. unfold empty_data_handler. simpl. now rewrite append_assoc. Qed.

(** An empty payload, or a [ValueError] of the parser, takes that
    handler. *)
Lemma download_empty_data u w url :
  match read_csv_url url with
  | Fetched response => df_empty response = true
  | FetchValueError _ => True
  | FetchOtherError _ => False
  end ->
  _download u w url =
    empty_data_handler u
      (Log_write w ("Downloading " +:+ Unit_str u +:+ ": "
                    +:+ ip_address u +:+ ":" +:+ port u))
      url (last_segment url).
Proof.
  unfold _download, last_segment.
  destruct (read_csv_url url) as [response| |]; intros Hres;
    [now rewrite Hres | reflexivity | contradiction].
Qed.

(** Any other exception leaves the unit as it was when no cloud-storage
    copy is used. *)
Lemma other_error_handler_keeps_unit u w url date :
  (forall folder, dict_get google_paths (unit_no u) = Some folder ->
     fallback_fails (drive folder (backup_name u date)) = true) ->
  (other_error_handler u w url date).1 = u.
Proof.
  intros Hfail. unfold other_error_handler.
  destruct (dict_get google_paths (unit_no u)) as [folder|]; [|reflexivity].
  specialize (Hfail folder eq_refl). unfold backup_name in Hfail.
  destruct (drive folder (serial u +:+ "_" +:+ date +:+ ".csv"))
    as [msg| |backup]; try reflexivity.
  simpl in Hfail. now rewrite Hfail.
Qed.

Lemma other_error_handler_requests u w url date :
  drive_requests (other_error_handler u w url date).2 =
    match dict_get google_paths (unit_no u) with
    | Some folder => (drive_requests w ++ [(folder, backup_name u date)])%list
    | None => drive_requests w
    end.
Proof.
  unfold other_error_handler, backup_name.
  destruct (dict_get google_paths (unit_no u)) as [folder|]; [|reflexivity].
  destruct (drive folder (serial u +:+ "_" +:+ date +:+ ".csv"))
    as [msg| |backup]; try reflexivity.
  destruct (df_empty backup); [reflexivity|]. cbn [negb].
  match goal with
  | |- context [_fix_order ?u0 ?w0 (Some ?d0)] =>
      destruct (fix_order_cases u0 w0 d0)
        as (u' & w' & d' & Heq & _ & _ & _ & _ & _ & _ & Hreq & _)
  end.
  rewrite Heq. simpl. exact Hreq.
Qed.

Lemma download_requests u w url :
  drive_requests (_download u w url).2 =
    match read_csv_url url, dict_get google_paths (unit_no u) with
    | FetchOtherError _, Some folder =>
        (drive_requests w ++ [(folder, backup_name u (last_segment url))])%list
    | _, _ => drive_requests w
    end.
Proof.
  unfold _download. fold (last_segment url).
  destruct (read_csv_url url) as [response|msg|msg].
  - destruct (df_empty response).
    + destruct (dict_get google_paths (unit_no u)); reflexivity.
    + match goal with
      | |- context [_fix_order ?u0 ?w0 (Some ?d0)] =>
          destruct (fix_order_cases u0 w0 d0)
            as (u' & w' & d' & Heq & _ & _ & _ & _ & _ & _ & Hreq & _)
      end.
      rewrite Heq. simpl. rewrite Hreq.
      destruct (dict_get google_paths (unit_no u)); reflexivity.
  - destruct (dict_get google_paths (unit_no u)); reflexivity.
  - rewrite other_error_handler_requests. reflexivity.
Qed.

Lemma last_segment_daily_url u date :
  PyStr.contains "/" date = false -> last_segment (daily_url u date) = date.
Proof.
  intros Hno. unfold last_segment, daily_url.
  rewrite <- !append_assoc. rewrite append_assoc.
  now apply split_last_segment.
Qed.

Lemma last_segment_monthly_url u date :
  PyStr.contains "/" date = false -> last_segment (monthly_url u date) = date.
Proof.
  intros Hno. unfold last_segment, monthly_url.
  rewrite <- !append_assoc. rewrite append_assoc.
  now apply split_last_segment.
Qed.

Lemma download_minute_fetched u w date df :
  read_csv_url (daily_url u date) = Fetched df -> df_empty df = false ->
  exists u1 w1 prev,
    download_minute_data u w date = (u1, w1)
    /\ data u1 = Some prev /\ df_empty prev = false
    /\ same_device u u1 /\ datatype u1 = "Minute".
Proof.
  intros Hfetch Hne. unfold download_minute_data, _download.
  rewrite Hfetch, Hne.
  match goal with
  | |- context [_fix_order ?u0 ?w0 (Some ?d0)] =>
      destruct (fix_order_cases u0 w0 d0)
        as (u' & w' & d' & Heq & Hd' & Hsame & _ & Htype & _)
  end.
  rewrite Heq. exists (set_data u' (Some d')), w', d'.
  repeat split; try apply Hsame; try exact Htype.
  destruct Hd' as [->| ->]; [exact Hne|now rewrite df_empty_reverse].
Qed.

Lemma download_minute_unreachable u w date e :
  read_csv_url (daily_url u date) = FetchOtherError e ->
  dict_get google_paths (unit_no u) = None ->
  download_minute_data u w date =
    (set_datatype u "Minute",
     Log_write w ("Downloading " +:+ Unit_str u +:+ ": "
                  +:+ ip_address u +:+ ":" +:+ port u)).
Proof.
  intros Hfetch Hnot. unfold download_minute_data, _download.
  rewrite Hfetch. unfold other_error_handler. simpl unit_no. now rewrite Hnot.
Qed.

(** C10.  When [pd.read_csv] raises an exception that is not of the
    empty-data kind and the unit has no cloud-storage folder, or the
    cloud-storage attempt gives no usable table, [_download] leaves the
    unit, and so its [data] field, as it was.  Consequently the download
    loop, which keeps one [Unit] per device across the dates and saves
    whenever [unit.data] is a non-empty table, writes the table of the
    previous date under the file name of the date that failed. *)
Theorem download_error_keeps_previous_data :
  (forall u w url e,
     read_csv_url url = FetchOtherError e ->
     (forall folder, dict_get google_paths (unit_no u) = Some folder ->
        fallback_fails (drive folder (backup_name u (last_segment url))) = true) ->
     (_download u w url).1 = u /\ data (_download u w url).1 = data u)
  /\ (forall u w output_dir d1 d2 df e,
       dict_get google_paths (unit_no u) = None ->
       read_csv_url (daily_url u d1) = Fetched df -> df_empty df = false ->
       read_csv_url (daily_url u d2) = FetchOtherError e ->
       exists prev u1 w1 us w2,
         download_minute_data u w d1 = (u1, w1)
         /\ data u1 = Some prev
         /\ download_dates "Minute" output_dir [d1; d2] [u] w = (us, w2, 2%nat)
         /\ files w2 !! output_file output_dir u d2 = Some prev).
Proof.
  split.
  - intros u w url e Hfetch Hfail.
    assert (Hu : (_download u w url).1 = u).
    { unfold _download. rewrite Hfetch. fold (last_segment url).
      now apply other_error_handler_keeps_unit. }
    now rewrite Hu.
  - intros u w output_dir d1 d2 df e Hnot Hfetch Hne Herr.
    destruct (download_minute_fetched u w d1 df Hfetch Hne)
      as (u1 & w1 & prev & Hdl1 & Hdata & Hprev & Hsame & Htype).
    assert (Hno1 : unit_no u1 = unit_no u) by apply Hsame.
    assert (Herr1 : read_csv_url (daily_url u1 d2) = FetchOtherError e)
      by now rewrite (daily_url_same_device u u1 d2 Hsame).
    assert (Hnot1 : dict_get google_paths (unit_no u1) = None)
      by now rewrite Hno1.
    exists prev, u1, w1. eexists. eexists.
    split; [exact Hdl1|]. split; [exact Hdata|].
    unfold download_dates, download_units, download_one.
    rewrite String.eqb_refl, Hdl1, Hdata, Hprev. cbn [negb].
    rewrite String.eqb_refl.
    rewrite (download_minute_unreachable u1 _ d2 e Herr1 Hnot1).
    cbn [data set_datatype]. rewrite Hdata, Hprev. cbn [negb].
    split; [reflexivity|].
    unfold output_file. cbn [unit_no set_datatype]. rewrite Hno1.
    unfold to_csv. cbn [files]. apply lookup_insert_eq.
Qed.

(** C7 (amended).  [google_paths] is the folder table of the
    specification, which has 19 entries.  When [pd.read_csv] raises an
    exception that is not of the empty-data kind for a unit of the table,
    [_download] makes one cloud-storage attempt, for the file
    [<serial>_<date>.csv] in the folder mapped to the unit, where [date]
    is the last segment of the URL: the date given to
    [download_minute_data] and [download_hour_data].  For a unit outside
    the table no attempt is made, whatever the download does. *)
Theorem fallback_uses_mapped_folder :
  google_paths = spec_folder_table
  /\ length google_paths = 19%nat
  /\ (forall u w url e folder,
       read_csv_url url = FetchOtherError e ->
       dict_get google_paths (unit_no u) = Some folder ->
       drive_requests (_download u w url).2
       = (drive_requests w ++ [(folder, backup_name u (last_segment url))])%list)
  /\ (forall u w date e folder,
       PyStr.contains "/" date = false ->
       dict_get google_paths (unit_no u) = Some folder ->
       (read_csv_url (daily_url u date) = FetchOtherError e ->
        drive_requests (download_minute_data u w date).2
        = (drive_requests w ++ [(folder, serial u +:+ "_" +:+ date +:+ ".csv")])%list)
       /\ (read_csv_url (monthly_url u date) = FetchOtherError e ->
           drive_requests (download_hour_data u w date).2
           = (drive_requests w ++ [(folder, serial u +:+ "_" +:+ date +:+ ".csv")])%list))
  /\ (forall u w url,
       dict_get google_paths (unit_no u) = None ->
       drive_requests (_download u w url).2 = drive_requests w).
Proof.
  split; [reflexivity|]. split; [reflexivity|]. split; [|split].
  - intros u w url e folder Hfetch Hin.
    now rewrite download_requests, Hfetch, Hin.
  - intros u w date e folder Hno Hin. split; intros Hfetch.
    + unfold download_minute_data. rewrite download_requests.
      cbn [unit_no set_datatype]. rewrite Hfetch, Hin.
      now rewrite last_segment_daily_url.
    + unfold download_hour_data. rewrite download_requests.
      cbn [unit_no set_datatype]. rewrite Hfetch, Hin.
      now rewrite last_segment_monthly_url.
  - intros u w url Hnot. rewrite download_requests, Hnot.
    now destruct (read_csv_url url).
Qed.

End Downloads.

(** ** Device health and the quality check *)

Section Health.
Context `{Pandas}.

Lemma check_space_on_healthy u w space f :
  float_of_str space = Some f ->
  num_lt (Fin 1) f && num_lt f (Fin 40) = true ->
  check_space_on u w space = Log_write w (space_info u space).
Proof. intros Hf Hin. unfold check_space_on. now rewrite Hf, Hin. Qed.

Lemma check_space_on_alert u w space :
  match float_of_str space with
  | Some f => num_lt (Fin 1) f && num_lt f (Fin 40) = false
  | None => True
  end ->
  check_space_on u w space
  = send_email (Log_write w (space_warning u space))
               (space_alert u space).1 (space_alert u space).2.
Proof.
  intros Hout. unfold check_space_on.
  destruct (float_of_str space) as [f|]; [now rewrite Hout|reflexivity].
Qed.

Lemma Qgt_true a b : (a < b)%Q -> negb (Qle_bool b a) = true.
Proof.
  intros Hlt. destruct (Qle_bool b a) eqn:E; [|reflexivity].
  apply Qle_bool_iff in E. exfalso. eapply Qlt_not_le; eassumption.
Qed.

Lemma Qgt_false a b : (b <= a)%Q -> negb (Qle_bool b a) = false.
Proof. intros Hle. apply Qle_bool_iff in Hle. now rewrite Hle. Qed.

(** C8 (amended).  A figure that parses as a number strictly between 1
    and 40 is logged and no message is sent.  A figure at or below 1, at
    or above 40, infinite, not a number, or one that does not parse, is
    logged as a warning and one alert is sent. *)
Theorem check_space_alerts_outside_open_range (u : Unit) (w : World)
    (space : string) :
  (forall q, float_of_str space = Some (Fin q) -> (1 < q)%Q -> (q < 40)%Q ->
     log (check_space_on u w space) = (log w ++ [space_info u space])%list
     /\ emails (check_space_on u w space) = emails w)
  /\ (forall q, float_of_str space = Some (Fin q) -> (q <= 1)%Q \/ (40 <= q)%Q ->
       log (check_space_on u w space) = (log w ++ [space_warning u space])%list
       /\ emails (check_space_on u w space)
          = (emails w ++ [space_alert u space])%list)
  /\ (float_of_str space = None \/ float_of_str space = Some NaN
      \/ float_of_str space = Some PosInf \/ float_of_str space = Some NegInf ->
       log (check_space_on u w space) = (log w ++ [space_warning u space])%list
       /\ emails (check_space_on u w space)
          = (emails w ++ [space_alert u space])%list).
Proof.
  split; [|split].
  - intros q Hq Hlo Hhi.
    rewrite (check_space_on_healthy u w space (Fin q) Hq); [split; reflexivity|].
    simpl. now rewrite (Qgt_true 1 q Hlo), (Qgt_true q 40 Hhi).
  - intros q Hq Hout.
    rewrite check_space_on_alert; [split; reflexivity|].
    rewrite Hq. simpl. destruct Hout as [Hlo|Hhi].
    + now rewrite (Qgt_false 1 q Hlo).
    + rewrite (Qgt_false q 40 Hhi). apply andb_false_r.
  - intros Hbad.
    rewrite check_space_on_alert; [split; reflexivity|].
    destruct Hbad as [-> |[-> |[-> | ->]]]; reflexivity.
Qed.

End Health.

Section Quality.
Context `{Rules} `{Network}.

(** Without a dataset [check_quality] returns the two lists at once and
    changes nothing. *)
Lemma check_quality_no_data u w save_files date :
  data u = None ->
  check_quality u w save_files date = (u, w, RetLists (errors u) (warnings u)).
Proof. intros Hdata. unfold check_quality. now rewrite Hdata. Qed.

(** For hour data only the missing-row check runs, and the dataset is
    saved under last month's name when [save_files] is set. *)
Lemma check_quality_hour u w save_files date d :
  data u = Some d -> datatype u = "Hour" ->
  let '(u', w', _) := check_quality u w save_files date in
  errors u' = (errors u ++ (check_missing_rows d (unit_no u)).1.1)%list
  /\ warnings u' = (warnings u ++ (check_missing_rows d (unit_no u)).1.2)%list
  /\ files w' = if save_files
                then <[data_file u last_month_now := d]> (files w)
                else files w.
Proof.
  intros Hdata Htype. unfold check_quality. rewrite Hdata.
  destruct (check_missing_rows d (unit_no u)) as [[es ws] bad]. simpl.
  rewrite Htype. simpl. destruct save_files; repeat split.
Qed.

End Quality.

(** ** Quality counts *)

Section Counting.
Context `{Pandas}.
Import QualityChecker.

Lemma count_number_total c counts v :
  total_count (count_number c counts v)
  = total_count counts + match as_number v with Some _ => 1 | None => 0 end.
Proof.
  destruct counts as [[g m] b]. unfold count_number.
  destruct (as_number v) as [x|]; [|unfold total_count; lia].
  destruct (num_le (Fin (min_value c)) x && num_le x (Fin (max_value c)));
    unfold total_count; lia.
Qed.

(** Every value but the float [NaN] adds one to exactly one count; the
    float [NaN] adds one to the missing count and one to the bad count. *)
Lemma count_value_total c counts v :
  total_count (count_value c counts v)
  = total_count counts + match v with VFloat NaN => 2 | _ => 1 end.
Proof.
  destruct counts as [[g m] b].
  destruct v as [|x|z|[| |q|]|[|a s]]; unfold count_value;
    cbn [isna eq_empty as_number orb];
    try (rewrite count_number_total; cbn [as_number]; unfold total_count; lia).
  destruct (float_of_str (String a s)) as [f|].
  - rewrite count_number_total. cbn [as_number]. unfold total_count. lia.
  - unfold total_count. lia.
Qed.

Lemma count_values_total_from c values counts :
  Forall (fun v => v <> VFloat NaN) values ->
  total_count (fold_left (count_value c) values counts)
  = total_count counts + Z.of_nat (length values).
Proof.
  intros Hall. revert counts.
  induction Hall as [|v values Hv _ IH]; intros counts; simpl fold_left.
  - simpl. lia.
  - rewrite IH, count_value_total.
    destruct v as [| | |[]|]; simpl length; try lia. congruence.
Qed.

(** Without float [NaN] cells the three counts add up to the number of
    values examined. *)
Lemma count_values_total c values :
  Forall (fun v => v <> VFloat NaN) values ->
  total_count (count_values c values) = Z.of_nat (length values).
Proof.
  intros Hall. unfold count_values.
  now rewrite count_values_total_from.
Qed.

(** A number inside the closed range is good, the bounds included. *)
Lemma count_value_in_range c g m b v q :
  holds_number v q ->
  (min_value c <= q)%Q -> (q <= max_value c)%Q ->
  count_value c (g, m, b) v = (g + 1, m, b).
Proof.
  intros Hv Hlo Hhi. apply Qle_bool_iff in Hlo, Hhi.
  destruct Hv as [-> | (z & -> & ->)]; simpl; now rewrite Hlo, Hhi.
Qed.

(** A number below the lower bound or above the upper bound is bad. *)
Lemma count_value_out_of_range c g m b v q :
  holds_number v q ->
  (q < min_value c)%Q \/ (max_value c < q)%Q ->
  count_value c (g, m, b) v = (g, m, b + 1).
Proof.
  intros Hv Hout.
  assert (Hb : Qle_bool (min_value c) q && Qle_bool q (max_value c) = false).
  { destruct Hout as [Hlo|Hhi].
    - destruct (Qle_bool (min_value c) q) eqn:E; [|reflexivity].
      apply Qle_bool_iff in E. exfalso. eapply Qlt_not_le; eassumption.
    - destruct (Qle_bool q (max_value c)) eqn:E; [|apply andb_false_r].
      apply Qle_bool_iff in E. exfalso. eapply Qlt_not_le; eassumption. }
  destruct Hv as [-> | (z & -> & ->)]; simpl; now rewrite Hb.
Qed.

(** [None], the empty text and a text that is not a number are missing. *)
Lemma count_value_missing c g m b v :
  v = VNone \/ v = VStr EmptyString
  \/ (exists s, v = VStr s /\ float_of_str s = None) ->
  count_value c (g, m, b) v = (g, m + 1, b).
Proof.
  intros [-> |[-> |(s & -> & Hs)]]; try reflexivity.
  unfold count_value. destruct s as [|a s]; [reflexivity|].
  simpl. now rewrite Hs.
Qed.

End Counting.

(** ** Conditional formatting *)

Section Formatting.
Import QualityChecker.

Lemma map_result_total {A B} (f : A -> result B) (ok : A -> bool) l :
  (forall a, ok a = true -> exists b, f a = Ok b) ->
  forallb ok l = true -> exists l', map_result f l = Ok l'.
Proof.
  intros Hok. induction l as [|a l IH]; simpl; intros Hall.
  - now exists [].
  - apply andb_true_iff in Hall as [Ha Hl].
    destruct (Hok a Ha) as [b ->]. destruct (IH Hl) as [l' ->].
    now exists (b :: l').
Qed.

Lemma map_result_nth {A B} (f : A -> result B) l l' i a :
  map_result f l = Ok l' -> nth_error l i = Some a ->
  exists b, f a = Ok b /\ nth_error l' i = Some b.
Proof.
  revert l' i. induction l as [|x l IH]; intros l' i Hmap Hnth.
  - destruct i; discriminate.
  - simpl in Hmap. destruct (f x) as [y|] eqn:Hx; [|discriminate].
    destruct (map_result f l) as [ys|] eqn:Hl; [|discriminate].
    inversion Hmap; subst. destruct i as [|i]; simpl in *.
    + inversion Hnth; subst. now exists y.
    + now apply (IH ys i).
Qed.

Lemma format_cell_total cell :
  cell_parses cell = true -> exists cell', format_cell cell = Ok cell'.
Proof.
  unfold cell_parses, format_cell.
  destruct (value cell) as [[|a s]|]; eauto.
  destruct (parse_counts (String a s)) as [[[g m] b]|]; [|discriminate].
  intros _. destruct (0 <? g + m + b); eauto.
  destruct (Qgt_bool _ 5); eauto. destruct (Qgt_bool _ 1); eauto.
Qed.

Lemma Qgt_bool_true a b : Qgt_bool a b = true <-> (b < a)%Q.
Proof.
  unfold Qgt_bool. split.
  - intros Hb. apply Qnot_le_lt. intros Hle.
    apply Qle_bool_iff in Hle. rewrite Hle in Hb. discriminate.
  - intros Hlt. destruct (Qle_bool a b) eqn:E; [|reflexivity].
    apply Qle_bool_iff in E. exfalso. eapply Qlt_not_le; eassumption.
Qed.

Lemma Qgt_bool_false a b : Qgt_bool a b = false <-> (a <= b)%Q.
Proof.
  unfold Qgt_bool. rewrite negb_false_iff. apply Qle_bool_iff.
Qed.

(** The shade of one populated cell. *)
Lemma format_cell_shade cell cell' text good missing bad :
  format_cell cell = Ok cell' ->
  value cell = Some text -> text <> EmptyString ->
  parse_counts text = Ok (good, missing, bad) ->
  0 < good + missing + bad ->
  let pct := problem_percentage missing bad (good + missing + bad) in
  value cell' = Some text
  /\ ((5 < pct)%Q -> fill cell' = Some red_fill)
  /\ ((1 < pct)%Q -> (pct <= 5)%Q -> fill cell' = Some yellow_fill)
  /\ ((pct <= 1)%Q -> fill cell' = fill cell).
Proof.
  intros Hfmt Hval Hne Hparse Htot pct. unfold format_cell in Hfmt.
  rewrite Hval in Hfmt. destruct text as [|a s]; [congruence|].
  rewrite Hparse in Hfmt.
  apply Z.ltb_lt in Htot. rewrite Htot in Hfmt. fold pct in Hfmt.
  destruct (Qgt_bool pct 5) eqn:H5.
  - apply Qgt_bool_true in H5. inversion Hfmt; subst; simpl.
    repeat split; auto.
    + intros _ Hle. exfalso. eapply Qlt_not_le; eassumption.
    + intros Hle. exfalso. eapply Qlt_not_le; [exact H5|].
      eapply Qle_trans; [exact Hle|]. discriminate.
  - apply Qgt_bool_false in H5. destruct (Qgt_bool pct 1) eqn:H1.
    + apply Qgt_bool_true in H1. inversion Hfmt; subst; simpl.
      repeat split; auto.
      * intros Hgt. exfalso. eapply Qlt_not_le; eassumption.
      * intros Hle. exfalso. eapply Qlt_not_le; eassumption.
    + apply Qgt_bool_false in H1. inversion Hfmt; subst.
      repeat split; auto.
      * intros Hgt. exfalso. eapply Qlt_not_le; eassumption.
      * intros Hgt. exfalso. eapply Qlt_not_le; eassumption.
Qed.

Lemma format_row_total row :
  forallb cell_parses (tl row) = true -> exists row', format_row row = Ok row'.
Proof.
  destruct row as [|c cells]; simpl; [eauto|]. intros Hall.
  destruct (map_result_total format_cell cell_parses cells
              format_cell_total Hall) as [cells' ->]. eauto.
Qed.


End Formatting.

(** ** Sorting and the configuration store *)

Section Sorting.
Context {A K : Type} (le : K -> K -> bool) (key : A -> K).

Lemma insert_by_perm x l : Permutation (insert_by le key x l) (x :: l).
Proof.
  induction l as [|y l IH]; simpl; [reflexivity|].
  destruct (le (key x) (key y)); [reflexivity|].
  rewrite IH. apply perm_swap.
Qed.

Lemma sorted_by_perm l : Permutation (sorted_by le key l) l.
Proof.
  induction l as [|x l IH]; simpl; [reflexivity|].
  rewrite insert_by_perm. now constructor.
Qed.

Lemma sorted_by_length l : length (sorted_by le key l) = length l.
Proof. apply Permutation_length, sorted_by_perm. Qed.

End Sorting.

Section Loading.

Lemma insert_by_Z_sorted {A} (key : A -> Z) x l :
  StronglySorted (fun a b => key a <= key b) l ->
  StronglySorted (fun a b => key a <= key b) (insert_by Z.leb key x l).
Proof.
  induction 1 as [|y l Hl IH Hy]; simpl.
  - repeat constructor.
  - destruct (Z.leb_spec (key x) (key y)) as [Hle|Hgt].
    + constructor; [now constructor|].
      constructor; [exact Hle|].
      rewrite List.Forall_forall in *. intros a Ha. specialize (Hy a Ha). lia.
    + constructor; [exact IH|].
      rewrite List.Forall_forall in *. intros a Ha.
      apply (Permutation_in _ (insert_by_perm Z.leb key x l)) in Ha.
      destruct Ha as [<- |Ha]; [lia|now apply Hy].
Qed.

Lemma sorted_by_Z_sorted {A} (key : A -> Z) l :
  StronglySorted (fun a b => key a <= key b) (sorted_by Z.leb key l).
Proof.
  induction l as [|x l IH]; simpl; [constructor|].
  now apply insert_by_Z_sorted.
Qed.

Lemma sorted_strict {A} (key : A -> Z) l :
  StronglySorted (fun a b => key a <= key b) l -> List.NoDup (map key l) ->
  StronglySorted (fun a b => key a < key b) l.
Proof.
  induction 1 as [|x l Hl IH Hx]; intros Hnd; [constructor|].
  simpl in Hnd. apply List.NoDup_cons_iff in Hnd as [Hnotin Hnd].
  constructor; [now apply IH|].
  rewrite List.Forall_forall in *. intros y Hy.
  specialize (Hx y Hy).
  assert (key x <> key y); [|lia].
  intros Heq. apply Hnotin. rewrite Heq. now apply in_map.
Qed.

(** On a folder whose descriptors are well formed the reading loop
    returns one unit per descriptor, in listing order. *)
Lemma read_units_well_formed config_dir :
  well_formed_dir config_dir ->
  read_units config_dir = Ok (map Unit_of_config (parsed_configs config_dir))
  /\ length (parsed_configs config_dir) = length (json_files config_dir).
Proof.
  unfold well_formed_dir, parsed_configs, json_files.
  induction config_dir as [|[file content] rest IH]; simpl; intros Hwf.
  - split; reflexivity.
  - destruct (PyStr.endswith ".json" file); simpl in *.
    + inversion Hwf as [|? ? [config Hc] Hrest]; subst. simpl in Hc. subst.
      destruct (IH Hrest) as [-> Hlen]. simpl. split; [reflexivity|].
      now rewrite Hlen.
    + now apply IH.
Qed.

(** C6.  For a configuration folder whose [.json] files are all well
    formed and carry distinct [unit_no] values, both loaders return, with
    exactly one unit per [.json] file: the units of the descriptors, in
    strictly ascending order of [unit_no]. *)
Theorem load_units_sorted (config_dir : list (string * result UnitConfig)) :
  well_formed_dir config_dir ->
  List.NoDup (map cfg_unit_no (parsed_configs config_dir)) ->
  exists units,
    BulkDownloadGUI.load_units config_dir = Ok units
    /\ QualityCheckerScaffold._load_units config_dir = Ok units
    /\ length units = length (json_files config_dir)
    /\ Permutation units (map Unit_of_config (parsed_configs config_dir))
    /\ ascending_units units.
Proof.
  intros Hwf Hnd.
  destruct (read_units_well_formed config_dir Hwf) as [Hread Hlen].
  unfold BulkDownloadGUI.load_units, QualityCheckerScaffold._load_units.
  rewrite Hread. eexists. split; [reflexivity|]. split; [reflexivity|].
  split; [|split].
  - now rewrite sorted_by_length, length_map.
  - apply sorted_by_perm.
  - apply sorted_strict; [apply sorted_by_Z_sorted|].
    apply (Permutation_NoDup
             (Permutation_map unit_no (Permutation_sym (sorted_by_perm Z.leb unit_no _)))).
    rewrite map_map. exact Hnd.
Qed.

End Loading.

(** ** Quality reports *)

Section Reports.
Context `{Pandas} `{Rules}.
Import Reporting.
Variables (units : list (Z * UnitConfig)) (tree : gmap Z Listing)
          (data_type : string).

Lemma mem_In x l : mem x l = true <-> In x l.
Proof.
  unfold mem. rewrite existsb_exists. split.
  - intros (y & Hy & Heq). apply String.eqb_eq in Heq. now subst.
  - intros Hin. exists x. split; [exact Hin|apply String.eqb_refl].
Qed.

Lemma mem_perm x l l' : Permutation l l' -> mem x l = mem x l'.
Proof.
  intros Hperm.
  destruct (mem x l) eqn:E, (mem x l') eqn:E'; try reflexivity.
  - apply mem_In in E. apply (Permutation_in _ Hperm) in E.
    apply mem_In in E. congruence.
  - apply mem_In in E'. apply (Permutation_in _ (Permutation_sym Hperm)) in E'.
    apply mem_In in E'. congruence.
Qed.

Lemma mem_sort_index x r : mem x (rep_index (sort_index r)) = mem x (rep_index r).
Proof.
  apply mem_perm. unfold rep_index, sort_index. simpl.
  apply Permutation_map, sorted_by_perm.
Qed.

Lemma mem_app_l x l l' : mem x l = true -> mem x (l ++ l')%list = true.
Proof. rewrite !mem_In. intros Hin. apply in_or_app. now left. Qed.

(** What the loop over the months leaves behind: the periods of the
    report stay, and every month of the loop is now a period of the
    report or has no results. *)
Lemma add_months_spec unit_no months :
  forall report_df flag report_df' flag',
    add_months units tree unit_no months report_df flag = Ok (report_df', flag') ->
    (forall m, mem m (rep_index report_df) = true ->
               mem m (rep_index report_df') = true)
    /\ (forall m, In m months -> mem m (rep_index report_df') = false ->
                  no_results (process_data units tree unit_no m) = true).
Proof.
  induction months as [|month months IH]; intros r flag r' flag' Hadd;
    simpl in Hadd.
  - inversion Hadd; subst. split; [auto|]. intros m [].
  - destruct (mem month (rep_index r)) eqn:Hmem; simpl in Hadd.
    + destruct (IH _ _ _ _ Hadd) as [Hkeep Hrest]. split; [exact Hkeep|].
      intros m [<- |Hin] Hnot; [|now apply Hrest].
      rewrite (Hkeep _ Hmem) in Hnot. discriminate.
    + destruct (process_data units tree unit_no month)
        as [[[|x xs]|]|e] eqn:Hpd; try discriminate.
      * destruct (IH _ _ _ _ Hadd) as [Hkeep Hrest]. split; [exact Hkeep|].
        intros m [<- |Hin] Hnot; [now rewrite Hpd|now apply Hrest].
      * destruct (rep_columns r) as [|col cols] eqn:Hcols; [discriminate|].
        destruct (IH _ _ _ _ Hadd) as [Hkeep Hrest].
        assert (Hnew : mem month (rep_index r') = true).
        { apply Hkeep. unfold add_row, rep_index. simpl.
          rewrite map_app. apply mem_In, in_or_app. right. now left. }
        split.
        -- intros m Hm. apply Hkeep. unfold add_row, rep_index. simpl.
           rewrite map_app. now apply mem_app_l.
        -- intros m [<- |Hin] Hnot; [congruence|now apply Hrest].
      * destruct (IH _ _ _ _ Hadd) as [Hkeep Hrest]. split; [exact Hkeep|].
        intros m [<- |Hin] Hnot; [now rewrite Hpd|now apply Hrest].
Qed.

(** When every month is a period of the report or has no results, the
    loop changes nothing. *)
Lemma add_months_stable unit_no months report_df flag :
  (forall m, In m months ->
     mem m (rep_index report_df) = true
     \/ no_results (process_data units tree unit_no m) = true) ->
  add_months units tree unit_no months report_df flag = Ok (report_df, flag).
Proof.
  induction months as [|month months IH]; intros Hall; simpl; [reflexivity|].
  assert (Hrest : forall m, In m months ->
            mem m (rep_index report_df) = true
            \/ no_results (process_data units tree unit_no m) = true)
    by (intros m Hm; apply Hall; now right).
  destruct (Hall month (or_introl eq_refl)) as [Hmem|Hno].
  - rewrite Hmem. simpl. now apply IH.
  - destruct (mem month (rep_index report_df)); simpl; [now apply IH|].
    destruct (process_data units tree unit_no month) as [[[|x xs]|]|e];
      try discriminate; now apply IH.
Qed.

Local Abbreviation settled := (settled_unit units tree data_type).

Lemma update_unit_settles reports unit_no reports' was_saved :
  update_unit units tree data_type reports unit_no = Ok (reports', was_saved) ->
  settled reports' unit_no.
Proof.
  unfold settled_unit. intros Hstep.
  unfold update_unit in Hstep |- *.
  destruct (tree !! unit_no) as [listing|]; [|now inversion Hstep; subst].
  destruct (add_months units tree unit_no (months_of data_type listing [])
              (match reports !! unit_no with
               | Some r => r
               | None => new_report units unit_no
               end) false) as [[r' flag']|e] eqn:Hadd; [|discriminate].
  destruct flag'; cbn [negb] in Hstep.
  - destruct (QualityChecker._apply_conditional_formatting (to_excel (sort_index r')))
      as [ws|e]; [|discriminate].
    inversion Hstep; subst. rewrite lookup_insert_eq.
    destruct (add_months_spec _ _ _ _ _ _ Hadd) as [_ Hrest].
    rewrite add_months_stable; [reflexivity|].
    intros m Hm. rewrite mem_sort_index.
    destruct (mem m (rep_index r')) eqn:Hmem; [now left|right].
    now apply Hrest.
  - inversion Hstep; subst.
    now rewrite Hadd.
Qed.

Lemma update_unit_lookup reports reports2 unit_no :
  reports2 !! unit_no = reports !! unit_no ->
  settled reports unit_no -> settled reports2 unit_no.
Proof.
  unfold settled_unit, update_unit. intros ->.
  destruct (tree !! unit_no) as [listing|]; [|reflexivity].
  destruct (add_months _ _ _ _ _ _) as [[r' flag']|e]; [|discriminate].
  destruct flag'; cbn [negb]; [|reflexivity].
  destruct (QualityChecker._apply_conditional_formatting _); discriminate.
Qed.

Lemma update_unit_other reports j reports' was_saved k :
  update_unit units tree data_type reports j = Ok (reports', was_saved) ->
  settled reports k -> settled reports' k.
Proof.
  intros Hstep Hk. destruct (decide (j = k)) as [->|Hne].
  - unfold settled_unit in Hk. rewrite Hk in Hstep. now inversion Hstep; subst.
  - apply (update_unit_lookup reports); [|exact Hk].
    unfold update_unit in Hstep.
    destruct (tree !! j); [|now inversion Hstep].
    destruct (add_months _ _ _ _ _ _) as [[r' flag']|e]; [|discriminate].
    destruct flag'; cbn [negb] in Hstep; [|now inversion Hstep].
    destruct (QualityChecker._apply_conditional_formatting _); [|discriminate].
    inversion Hstep; subst. now apply lookup_insert_ne.
Qed.

Lemma update_units_settles keys :
  forall reports saved reports' saved',
    update_units units tree data_type keys reports saved = Ok (reports', saved') ->
    (forall k, settled reports k -> settled reports' k)
    /\ (forall k, In k keys -> settled reports' k).
Proof.
  induction keys as [|j keys IH]; intros reports saved reports' saved' Hrun;
    simpl in Hrun.
  - inversion Hrun; subst. split; [auto|]. intros k [].
  - destruct (update_unit units tree data_type reports j)
      as [[reports1 was_saved]|e] eqn:Hstep; [|discriminate].
    destruct (IH _ _ _ _ Hrun) as [Hkeep Hkeys]. split.
    + intros k Hk. apply Hkeep. now apply (update_unit_other _ _ _ _ _ Hstep).
    + intros k [<- |Hin]; [|now apply Hkeys].
      apply Hkeep. now apply (update_unit_settles _ _ _ _ Hstep).
Qed.

Lemma update_units_stable keys reports saved :
  (forall k, In k keys -> settled reports k) ->
  update_units units tree data_type keys reports saved = Ok (reports, saved).
Proof.
  revert saved. induction keys as [|j keys IH]; intros saved Hall; simpl;
    [reflexivity|].
  rewrite (Hall j (or_introl eq_refl)). apply IH.
  intros k Hk. apply Hall. now right.
Qed.


End Reports.

(** * Further properties of the sources *)

(** ** [Unit._fix_order] and the downloads *)

Section MoreDownloads.
Context `{Pandas} `{Network}.

Lemma same_device_trans u1 u2 u3 :
  same_device u1 u2 -> same_device u2 u3 -> same_device u1 u3.
Proof.
  unfold same_device. intros (A1 & A2 & A3 & A4 & A5 & A6) (B1 & B2 & B3 & B4 & B5 & B6).
  repeat split; congruence.
Qed.


Lemma fix_order_data_ok u w d :
  df_empty d = false ->
  exists u' w' d',
    _fix_order u w (Some d) = (u', w', Some d') /\ df_empty d' = false
    /\ same_device u u' /\ datatype u' = datatype u
    /\ emails w' = emails w /\ files w' = files w
    /\ grows_from (log w') (log w).
Proof.
  intros Hne. unfold _fix_order.
  destruct (df_empty d || (df_len d <? 2)%nat).
  { exists u, w, d. repeat split; auto. exists []. now rewrite app_nil_r. }
  destruct (to_datetime_all (iloc_col0 d)) as [ts|e].
  - destruct (first_two_descending ts).
    + exists u, w, (df_reverse d). repeat split; auto.
      * now rewrite df_empty_reverse.
      * exists []. now rewrite app_nil_r.
    + exists u, w, d. repeat split; auto. exists []. now rewrite app_nil_r.
  - eexists _, _, d. split; [reflexivity|]. repeat split; auto.
    eexists. reflexivity.
Qed.

Lemma grows_from_refl {A} (l : list A) : grows_from l l.
Proof. exists []. now rewrite app_nil_r. Qed.

Lemma grows_from_trans {A} (l1 l2 l3 : list A) :
  grows_from l2 l1 -> grows_from l3 l2 -> grows_from l3 l1.
Proof.
  intros [m1 ->] [m2 ->]. exists (m1 ++ m2)%list. now rewrite app_assoc.
Qed.

Lemma grows_from_snoc {A} (l : list A) x : grows_from (l ++ [x])%list l.
Proof. now exists [x]. Qed.

(** What [_download] keeps, in every case. *)
Lemma download_frame u w url :
  let '(u', w') := _download u w url in
  same_device u u' /\ datatype u' = datatype u
  /\ emails w' = emails w /\ files w' = files w
  /\ grows_from (log w') (log w)
  /\ (data_ok u -> data_ok u').
Proof.
  unfold _download.
  set (w0 := Log_write w _).
  assert (Hw0 : grows_from (log w0) (log w)) by apply grows_from_snoc.
  destruct (read_csv_url url) as [response|msg|msg].
  - destruct (df_empty response) eqn:Hne.
    + unfold empty_data_handler. simpl. repeat split; auto.
      eapply grows_from_trans; [exact Hw0|apply grows_from_snoc].
    + destruct (fix_order_data_ok u w0 response Hne)
        as (u' & w' & d' & -> & Hd' & Hsame & Htype & Hmail & Hfiles & Hlog).
      repeat split; try apply Hsame; auto;
        try (eapply grows_from_trans; [exact Hw0|exact Hlog]).
  - unfold empty_data_handler. simpl. repeat split; auto.
    eapply grows_from_trans; [exact Hw0|apply grows_from_snoc].
  - unfold other_error_handler.
    destruct (dict_get google_paths (unit_no u)) as [folder|];
      [|repeat split; auto].
    set (filename := serial u +:+ "_" +:+ _ +:+ ".csv").
    set (w1 := drive_request _ _ _).
    assert (Hw1 : grows_from (log w1) (log w)).
    { eapply grows_from_trans; [exact Hw0|]. apply grows_from_snoc. }
    destruct (drive folder filename) as [e| |backup].
    + repeat split; auto.
      eapply grows_from_trans; [exact Hw1|apply grows_from_snoc].
    + repeat split; auto.
      eapply grows_from_trans; [exact Hw1|apply grows_from_snoc].
    + destruct (df_empty backup) eqn:Hne; cbn [negb].
      * repeat split; auto.
        eapply grows_from_trans; [exact Hw1|apply grows_from_snoc].
      * destruct (fix_order_data_ok u w1 backup Hne)
          as (u' & w' & d' & -> & Hd' & Hsame & Htype & Hmail & Hfiles & Hlog).
        repeat split; try apply Hsame; auto.
        eapply grows_from_trans; [|apply grows_from_snoc].
        eapply grows_from_trans; [exact Hw1|exact Hlog].
Qed.

(** X2.  [_download] keeps the device, sends no message and writes no
    file; the log only grows.  A unit whose dataset is unset or a
    non-empty table is left with a dataset that is unset or a non-empty
    table: an empty table is never stored. *)
Theorem download_never_stores_empty_table (u : Unit) (w : World) (url : string) :
  data_ok u ->
  data_ok (_download u w url).1
  /\ same_device u (_download u w url).1
  /\ emails (_download u w url).2 = emails w
  /\ files (_download u w url).2 = files w
  /\ grows_from (log (_download u w url).2) (log w).
Proof.
  intros Hok. pose proof (download_frame u w url) as Hframe.
  destruct (_download u w url) as [u' w'].
  destruct Hframe as (Hsame & _ & Hmail & Hfiles & Hlog & Hdata).
  simpl. repeat split; try apply Hsame; auto.
Qed.


End MoreDownloads.

(** ** The download loop *)

Section DownloadLoop.
Context `{Pandas} `{Network}.

Lemma output_file_same_device output_dir u u' date :
  same_device u u' -> output_file output_dir u' date = output_file output_dir u date.
Proof. intros (Hno & _). unfold output_file. now rewrite Hno. Qed.

Lemma same_device_set_datatype u t : same_device u (set_datatype u t).
Proof. repeat split. Qed.

Lemma download_one_frame data_type output_dir date u w :
  let '(u', w', saved) := download_one data_type output_dir date u w in
  same_device u u'
  /\ emails w' = emails w
  /\ (files w' = files w
      \/ exists d, files w' = <[output_file output_dir u date := d]> (files w)).
Proof.
  unfold download_one.
  assert (Hdl : exists t, (if String.eqb data_type "Minute"
                           then download_minute_data u w date
                           else download_hour_data u w date)
                          = _download (set_datatype u t) w
                              (if String.eqb data_type "Minute"
                               then daily_url u date else monthly_url u date)).
  { destruct (String.eqb data_type "Minute"); eexists; reflexivity. }
  destruct Hdl as [t ->].
  pose proof (download_frame (set_datatype u t) w
                (if String.eqb data_type "Minute"
                 then daily_url u date else monthly_url u date)) as Hframe.
  destruct (_download _ _ _) as [u' w'].
  destruct Hframe as (Hsame & _ & Hmail & Hfiles & _ & _).
  assert (Hsame' : same_device u u')
    by (eapply same_device_trans; [apply (same_device_set_datatype u t)|exact Hsame]).
  destruct (data u') as [d|]; [|repeat split; try apply Hsame'; auto].
  destruct (negb (df_empty d)); [|repeat split; try apply Hsame'; auto].
  split; [exact Hsame'|]. split; [exact Hmail|]. right. exists d.
  unfold to_csv. cbn [files]. rewrite Hfiles.
  now rewrite (output_file_same_device output_dir u u' date Hsame').
Qed.

Lemma download_units_frame data_type output_dir date units :
  forall w,
    let '(us, w', n) := download_units data_type output_dir date units w in
    (n <= length units)%nat
    /\ Forall2 same_device units us
    /\ emails w' = emails w
    /\ (forall path,
          (forall u, In u units -> path <> output_file output_dir u date) ->
          files w' !! path = files w !! path).
Proof.
  induction units as [|u units IH]; intros w; simpl.
  - repeat split; auto.
  - pose proof (download_one_frame data_type output_dir date u w) as Hone.
    destruct (download_one data_type output_dir date u w) as [[u' w1] saved].
    destruct Hone as (Hsame & Hmail & Hfiles).
    specialize (IH w1).
    destruct (download_units data_type output_dir date units w1) as [[us w2] n].
    destruct IH as (Hn & Hus & Hmail2 & Hpaths).
    split; [destruct saved; lia|]. split; [now constructor|].
    split; [congruence|].
    intros path Hpath.
    rewrite Hpaths by (intros u0 Hu0; apply Hpath; now right).
    destruct Hfiles as [->|[d ->]]; [reflexivity|].
    apply lookup_insert_ne. intros Heq. apply (Hpath u); [now left|now symmetry].
Qed.

Lemma Forall2_same_device_in units us u' :
  Forall2 same_device units us -> In u' us ->
  exists u, In u units /\ same_device u u'.
Proof.
  induction 1 as [|u v units us Huv _ IH]; intros Hin; [destruct Hin|].
  destruct Hin as [<- |Hin].
  - exists u. split; [now left|exact Huv].
  - destruct (IH Hin) as (u0 & Hu0 & Hs). exists u0. split; [now right|exact Hs].
Qed.

Lemma Forall2_same_device_trans l1 l2 l3 :
  Forall2 same_device l1 l2 -> Forall2 same_device l2 l3 ->
  Forall2 same_device l1 l3.
Proof.
  intros H12. revert l3. induction H12 as [|a b l1 l2 Hab _ IH]; intros l3 H23;
    inversion H23; subst; constructor.
  - eapply same_device_trans; eassumption.
  - now apply IH.
Qed.

Lemma Forall2_same_device_refl l : Forall2 same_device l l.
Proof. induction l; constructor; [apply same_device_refl|assumption]. Qed.

(** X4.  The download loop of [start_download].  The number of saved
    files is at most the number of dates times the number of selected
    units; the units stay the same devices; no message is sent; and
    every path other than [<output_dir>/UNIT <n>/Unit_<n>_<date>.csv] for
    a selected unit and a date of the list holds what it held before. *)
Theorem download_dates_bounded (data_type output_dir : string)
    (dates : list string) (units : list Unit) (w : World) :
  exists us w' n,
    download_dates data_type output_dir dates units w = (us, w', n)
    /\ (n <= length dates * length units)%nat
    /\ Forall2 same_device units us
    /\ emails w' = emails w
    /\ (forall path,
          (forall u date, In u units -> In date dates ->
                          path <> output_file output_dir u date) ->
          files w' !! path = files w !! path).
Proof.
  revert units w. induction dates as [|date dates IH]; intros units w; simpl.
  - exists units, w, 0%nat. repeat split; auto.
    apply Forall2_same_device_refl.
  - pose proof (download_units_frame data_type output_dir date units w) as Hday.
    destruct (download_units data_type output_dir date units w) as [[us1 w1] n1].
    destruct Hday as (Hn1 & Hus1 & Hmail1 & Hpaths1).
    destruct (IH us1 w1) as (us & w' & n & -> & Hn & Hus & Hmail & Hpaths).
    exists us, w', (n1 + n)%nat. split; [reflexivity|].
    assert (Hlen : length us1 = length units)
      by (symmetry; eapply Forall2_length; exact Hus1).
    split; [rewrite Hlen in Hn; lia|].
    split; [eapply Forall2_same_device_trans; eassumption|].
    split; [congruence|].
    intros path Hpath.
    rewrite Hpaths.
    + apply Hpaths1. intros u Hu. apply Hpath; [exact Hu|now left].
    + intros u1 d Hu1 Hd.
      destruct (Forall2_same_device_in units us1 u1 Hus1 Hu1) as (u & Hu & Hs).
      rewrite (output_file_same_device output_dir u u1 d Hs).
      apply Hpath; [exact Hu|now right].
Qed.

End DownloadLoop.

(** ** [Unit.check_quality] *)

Section MoreQuality.
Context `{Rules} `{Network}.

Lemma check_channels_frame d bad chs :
  forall u,
    let '(u', e) := check_channels u d bad chs in
    grows_from (errors u') (errors u) /\ grows_from (warnings u') (warnings u)
    /\ same_device u u' /\ data u' = data u /\ datatype u' = datatype u.
Proof.
  induction chs as [|[channel flag] chs IH]; intros u; simpl.
  - repeat split; apply grows_from_refl.
  - destruct flag; [|apply IH].
    destruct (dict_get channel_registry channel) as [c|].
    + destruct (check_channel c d (unit_no u) bad) as [es ws].
      specialize (IH (add_warnings (add_errors u es) ws)).
      destruct (check_channels _ d bad chs) as [u' e].
      destruct IH as (He & Hw & Hs & Hd & Ht). simpl in *.
      repeat split; try apply Hs; auto.
      * eapply grows_from_trans; [|exact He]. now exists es.
      * eapply grows_from_trans; [|exact Hw]. now exists ws.
    + repeat split; apply grows_from_refl.
Qed.

(** X5.  [check_quality] only adds to the error and warning lists of the
    unit and leaves its device, its dataset and its data type alone; it
    sends no message and, without [save_files], writes no file.  When it
    returns the two lists they are the lists of the unit after the call,
    and with [save_files] the dataset is then in the file named after the
    [date] argument; when it returns [None] (hour data) and [save_files]
    is set, the dataset is in the file named after last month, whatever
    [date] is. *)
Theorem check_quality_accumulates (u : Unit) (w : World) (save_files : bool)
    (date : string) :
  exists u' w' r,
    check_quality u w save_files date = (u', w', r)
    /\ grows_from (errors u') (errors u)
    /\ grows_from (warnings u') (warnings u)
    /\ same_device u u' /\ data u' = data u /\ datatype u' = datatype u
    /\ emails w' = emails w
    /\ (save_files = false -> files w' = files w)
    /\ (forall es ws, r = RetLists es ws -> es = errors u' /\ ws = warnings u')
    /\ (forall d, data u = Some d -> save_files = true ->
          (forall es ws, r = RetLists es ws ->
             files w' !! data_file u date = Some d)
          /\ (r = RetNone -> files w' !! data_file u last_month_now = Some d)).
Proof.
  unfold check_quality. destruct (data u) as [d|] eqn:Hdata.
  2: { exists u, w, (RetLists (errors u) (warnings u)).
       split; [reflexivity|].
       split; [apply grows_from_refl|]. split; [apply grows_from_refl|].
       split; [apply same_device_refl|].
       split; [exact Hdata|]. split; [reflexivity|]. split; [reflexivity|].
       split; [reflexivity|].
       split; [intros es ws Hr; now inversion Hr|].
       intros d Hd. discriminate. }
  destruct (check_missing_rows d (unit_no u)) as [[mes mws] bad].
  cbn [unit_no datatype channels add_errors add_warnings].
  destruct (String.eqb (datatype u) "Hour").
  - eexists _, _, RetNone. split; [reflexivity|].
    split; [now exists mes|]. split; [now exists mws|].
    split; [repeat split|].
    split; [exact Hdata|]. split; [reflexivity|].
    split; [destruct save_files; reflexivity|].
    split; [intros ->; reflexivity|].
    split; [intros es ws Hr; discriminate|].
    intros d0 Hd0 ->. inversion Hd0; subst.
    split; [intros es ws Hr; discriminate|].
    intros _. apply lookup_insert_eq.
  - destruct (check_total_energy d (unit_no u)) as [ees ews].
    set (u1 := add_warnings (add_errors (add_warnings (add_errors u mes) mws) ees) ews).
    pose proof (check_channels_frame d bad (channels u) u1) as Hch.
    cbn [channels add_errors add_warnings].
    assert (He1 : grows_from (errors u1) (errors u)).
    { exists (mes ++ ees)%list. unfold u1. simpl. now rewrite app_assoc. }
    assert (Hw1 : grows_from (warnings u1) (warnings u)).
    { exists (mws ++ ews)%list. unfold u1. simpl. now rewrite app_assoc. }
    destruct (check_channels u1 d bad (channels u)) as [u' [e|]];
      destruct Hch as (He & Hw & Hs & Hd & Ht).
    + eexists u', _, (Raises e). split; [reflexivity|].
      split; [eapply grows_from_trans; eassumption|].
      split; [eapply grows_from_trans; eassumption|].
      split; [exact Hs|]. split; [now rewrite Hd|]. split; [exact Ht|].
      split; [reflexivity|]. split; [reflexivity|].
      split; [intros es ws Hr; discriminate|].
      intros d0 Hd0 _. split; [intros es ws Hr|intros Hr]; discriminate.
    + eexists u', _, _. split; [reflexivity|].
      split; [eapply grows_from_trans; eassumption|].
      split; [eapply grows_from_trans; eassumption|].
      split; [exact Hs|]. split; [now rewrite Hd|]. split; [exact Ht|].
      split; [destruct (_ && _)%bool, save_files; reflexivity|].
      split; [intros ->; destruct (_ && _)%bool; reflexivity|].
      split; [intros es ws Hr; now inversion Hr|].
      intros d0 Hd0 ->. inversion Hd0; subst.
      split; [|intros Hr; discriminate]. intros es ws _.
      assert (Hfile : data_file u' date = data_file u date).
      { unfold data_file. destruct Hs as (Hno & _). now rewrite Hno, Ht. }
      rewrite Hfile.
      destruct (_ && _)%bool; cbn [files Log_write to_csv];
        apply lookup_insert_eq.
Qed.

Lemma check_channels_unknown d bad chs :
  forall u channel,
    In (channel, true) chs -> dict_get channel_registry channel = None ->
    exists msg, (check_channels u d bad chs).2 = Some msg.
Proof.
  induction chs as [|[c flag] chs IH]; intros u channel Hin Hnone;
    [destruct Hin|].
  simpl. destruct Hin as [Heq|Hin].
  - inversion Heq; subst. rewrite Hnone. eexists. reflexivity.
  - destruct flag; [|now apply (IH u channel)].
    destruct (dict_get channel_registry c) as [ch|]; [|eexists; reflexivity].
    destruct (check_channel ch d (unit_no u) bad) as [es ws].
    now apply (IH _ channel).
Qed.

(** X6.  A unit that monitors a channel which the registry does not have
    makes [check_quality] raise on minute data (the [KeyError] of the
    lookup), after the row and energy checks; the dataset is then not
    saved, also when [save_files] is set. *)
Theorem check_quality_unknown_channel_raises (u : Unit) (w : World)
    (save_files : bool) (date : string) (d : DataFrame) (channel : string) :
  data u = Some d -> datatype u <> "Hour" ->
  In (channel, true) (channels u) ->
  dict_get channel_registry channel = None ->
  exists u' w' msg,
    check_quality u w save_files date = (u', w', Raises msg)
    /\ files w' = files w.
Proof.
  intros Hdata Htype Hin Hnone. unfold check_quality. rewrite Hdata.
  destruct (check_missing_rows d (unit_no u)) as [[mes mws] bad].
  cbn [unit_no datatype channels add_errors add_warnings].
  apply String.eqb_neq in Htype. rewrite Htype.
  destruct (check_total_energy d (unit_no u)) as [ees ews].
  cbn [channels add_errors add_warnings].
  set (u1 := add_warnings (add_errors (add_warnings (add_errors u mes) mws) ees) ews).
  destruct (check_channels_unknown d bad (channels u) u1 channel Hin Hnone)
    as [msg Hmsg].
  destruct (check_channels u1 d bad (channels u)) as [u' [e|]];
    [|discriminate].
  eexists u', _, e. split; reflexivity.
Qed.

End MoreQuality.

(** ** Dictionaries and the configuration dictionary *)

Section Dictionaries.
Context {K V : Type} `{EqDecision K}.

Lemma dict_get_set (d : list (K * V)) k v k' :
  dict_get (dict_set d k v) k' = if decide (k = k') then Some v else dict_get d k'.
Proof.
  induction d as [|[k0 v0] d IH]; simpl.
  - destruct (decide (k = k')); reflexivity.
  - destruct (decide (k0 = k)) as [->|Hne]; simpl.
    + destruct (decide (k = k')); reflexivity.
    + rewrite IH. destruct (decide (k0 = k')) as [->|Hne'].
      * destruct (decide (k = k')); [congruence|reflexivity].
      * reflexivity.
Qed.

Lemma dict_set_keys_in (d : list (K * V)) k v x :
  In x (map fst (dict_set d k v)) <-> x = k \/ In x (map fst d).
Proof.
  induction d as [|[k0 v0] d IH]; simpl.
  - intuition.
  - destruct (decide (k0 = k)) as [->|Hne]; simpl; [intuition|].
    rewrite IH. intuition.
Qed.

Lemma dict_set_NoDup (d : list (K * V)) k v :
  List.NoDup (map fst d) -> List.NoDup (map fst (dict_set d k v)).
Proof.
  induction d as [|[k0 v0] d IH]; simpl; intros Hnd.
  - repeat constructor. intros [].
  - apply List.NoDup_cons_iff in Hnd as [Hnotin Hnd].
    destruct (decide (k0 = k)) as [->|Hne]; simpl.
    + now constructor.
    + constructor; [|now apply IH].
      rewrite dict_set_keys_in. intros [Heq|Hin]; [congruence|contradiction].
Qed.

Lemma dict_set_Forall (P : K * V -> Prop) (d : list (K * V)) k v :
  P (k, v) -> Forall P d -> Forall P (dict_set d k v).
Proof.
  intros Hkv. induction 1 as [|[k0 v0] d Hx Hd IH]; simpl.
  - now repeat constructor.
  - destruct (decide (k0 = k)); constructor; auto.
Qed.

Lemma dict_get_in_keys (d : list (K * V)) k :
  (exists v, dict_get d k = Some v) <-> In k (map fst d).
Proof.
  induction d as [|[k0 v0] d IH]; simpl.
  - split; [intros [v Hv]; discriminate|intros []].
  - destruct (decide (k0 = k)) as [->|Hne].
    + split; [now left|]. intros _. now exists v0.
    + rewrite IH. split; [now right|]. intros [Heq|Hin]; [congruence|exact Hin].
Qed.

Lemma dict_get_Forall (P : K * V -> Prop) (d : list (K * V)) k v :
  Forall P d -> dict_get d k = Some v -> P (k, v).
Proof.
  induction 1 as [|[k0 v0] d Hx Hd IH]; simpl; [discriminate|].
  destruct (decide (k0 = k)) as [->|Hne]; [|exact IH].
  intros Heq. now inversion Heq; subst.
Qed.

End Dictionaries.

Section ConfigDictionary.

Lemma find_app_first {A} (f : A -> bool) l1 l2 :
  List.find f (l1 ++ l2)%list =
    match List.find f l1 with
    | Some x => Some x
    | None => List.find f l2
    end.
Proof.
  induction l1 as [|a l1 IH]; simpl; [reflexivity|].
  now destruct (f a).
Qed.

Lemma load_units_dict_spec config_dir :
  forall units0,
    well_formed_dir config_dir ->
    List.NoDup (map fst units0) ->
    Forall (fun e => cfg_unit_no e.2 = e.1) units0 ->
    exists units,
      QualityChecker._load_units config_dir units0 = Ok units
      /\ List.NoDup (map fst units)
      /\ Forall (fun e => cfg_unit_no e.2 = e.1) units
      /\ (forall k, dict_get units k =
                    match last_config k (parsed_configs config_dir) with
                    | Some c => Some c
                    | None => dict_get units0 k
                    end).
Proof.
  unfold well_formed_dir, parsed_configs, json_files, last_config.
  induction config_dir as [|[file content] rest IH]; intros units0 Hwf Hnd Hkeys;
    simpl.
  - exists units0. repeat split; auto.
  - simpl in Hwf. destruct (PyStr.endswith ".json" file); simpl in *.
    + inversion Hwf as [|? ? [config Hc] Hrest]; subst. simpl in Hc. subst.
      destruct (IH (dict_set units0 (cfg_unit_no config) config) Hrest)
        as (units & Hload & Hnd' & Hkeys' & Hget).
      * now apply dict_set_NoDup.
      * now apply dict_set_Forall.
      * exists units. split; [exact Hload|]. split; [exact Hnd'|].
        split; [exact Hkeys'|]. intros k. rewrite Hget. simpl.
        rewrite find_app_first.
        destruct (find _ (rev _)) as [c|]; [reflexivity|]. simpl.
        rewrite dict_get_set.
        destruct (decide (cfg_unit_no config = k)) as [->|Hne].
        -- now rewrite Z.eqb_refl.
        -- apply Z.eqb_neq in Hne. now rewrite Hne.
    + now apply IH.
Qed.

(** X7.  [QualityChecker._load_units] of [main.py].  On a folder whose
    [.json] files are well formed it returns a dictionary with one entry
    per [unit_no], each stored under the [unit_no] of its descriptor; when
    several files carry the same [unit_no] the one listed last wins, and a
    [unit_no] of no file is absent. *)
Theorem load_units_dict_last_wins (config_dir : list (string * result UnitConfig)) :
  well_formed_dir config_dir ->
  exists units,
    QualityChecker._load_units config_dir [] = Ok units
    /\ List.NoDup (map fst units)
    /\ Forall (fun e => cfg_unit_no e.2 = e.1) units
    /\ (forall k, dict_get units k = last_config k (parsed_configs config_dir)).
Proof.
  intros Hwf.
  destruct (load_units_dict_spec config_dir [] Hwf) as (units & Hload & Hnd & Hk & Hget).
  - constructor.
  - constructor.
  - exists units. repeat split; auto.
    intros k. rewrite Hget. now destruct (last_config k _).
Qed.


End ConfigDictionary.

(** ** [_check_data_quality] and [process_data] *)

Section MoreCounting.
Context `{Pandas} `{Rules}.
Import QualityChecker Reporting.

Lemma count_number_nonneg c g m b v :
  0 <= g -> 0 <= m -> 0 <= b ->
  let '(g', m', b') := count_number c (g, m, b) v in
  0 <= g' /\ 0 <= m' /\ 0 <= b'.
Proof.
  intros Hg Hm Hb. unfold count_number.
  destruct (as_number v) as [x|]; [|auto].
  destruct (num_le _ _ && num_le _ _); repeat split; lia.
Qed.

Lemma count_value_nonneg c g m b v :
  0 <= g -> 0 <= m -> 0 <= b ->
  let '(g', m', b') := count_value c (g, m, b) v in
  0 <= g' /\ 0 <= m' /\ 0 <= b'.
Proof.
  intros Hg Hm Hb. unfold count_value.
  destruct (isna v || eq_empty v).
  - apply count_number_nonneg; lia.
  - destruct (as_number v).
    + now apply count_number_nonneg.
    + destruct v as [| | | |s]; try (repeat split; lia).
      destruct (float_of_str s); [now apply count_number_nonneg|].
      repeat split; lia.
Qed.

Lemma nan_cells_cons v values :
  nan_cells (v :: values) = ((if is_nan v then 1 else 0) + nan_cells values)%nat.
Proof. unfold nan_cells. simpl. now destruct (is_nan v). Qed.

Lemma count_values_from c values :
  forall g m b,
    0 <= g -> 0 <= m -> 0 <= b ->
    let '(g', m', b') := fold_left (count_value c) values (g, m, b) in
    0 <= g' /\ 0 <= m' /\ 0 <= b'
    /\ g' + m' + b' = g + m + b + Z.of_nat (length values)
                      + Z.of_nat (nan_cells values).
Proof.
  induction values as [|v values IH]; intros g m b Hg Hm Hb; cbn [fold_left].
  - unfold nan_cells. simpl. repeat split; lia.
  - pose proof (count_value_nonneg c g m b v Hg Hm Hb) as Hnn.
    pose proof (count_value_total c (g, m, b) v) as Htot.
    destruct (count_value c (g, m, b) v) as [[g1 m1] b1].
    destruct Hnn as (Hg1 & Hm1 & Hb1).
    specialize (IH g1 m1 b1 Hg1 Hm1 Hb1).
    destruct (fold_left (count_value c) values (g1, m1, b1)) as [[g' m'] b'].
    destruct IH as (Hg' & Hm' & Hb' & Hsum).
    repeat split; try assumption.
    unfold total_count in Htot. rewrite nan_cells_cons.
    change (length (v :: values)) with (S (length values)).
    rewrite Nat2Z.inj_succ, Nat2Z.inj_add.
    destruct v as [| | |[]|]; cbn [is_nan] in *; lia.
Qed.

(** What [_check_data_quality] returns when it returns counts. *)
Lemma check_data_quality_counts (data : DataFrame) (unit_config : UnitConfig)
    (channel_name : string) (counts : list Z) :
  _check_data_quality data unit_config channel_name = Ok (Some counts) ->
  exists channel_info i good missing bad,
    monitored unit_config channel_name = true
    /\ dict_get channel_registry channel_name = Some channel_info
    /\ first_match (regex channel_info) (columns data) = Some i
    /\ counts = [good; missing; bad]
    /\ 0 <= good /\ 0 <= missing /\ 0 <= bad
    /\ good + missing + bad
       = Z.of_nat (length (rows data))
         + Z.of_nat (nan_cells (map (fun r => nth i r VNone) (rows data))).
Proof.
  unfold _check_data_quality. intros Hres.
  destruct (monitored unit_config channel_name) eqn:Hmon; [|discriminate].
  cbn [negb] in Hres.
  destruct (dict_get channel_registry channel_name) as [c|] eqn:Hreg;
    [|discriminate].
  destruct (first_match (regex c) (columns data)) as [i|] eqn:Hcol;
    [|discriminate].
  destruct (length (rows data) =? 0)%nat; [discriminate|].
  pose proof (count_values_from c (map (fun r => nth i r VNone) (rows data))
                0 0 0) as Hcount.
  unfold count_values in Hres.
  destruct (fold_left _ _ _) as [[g m] b].
  destruct Hcount as (Hg & Hm & Hb & Hsum); try lia.
  inversion Hres; subst. exists c, i, g, m, b.
  rewrite length_map in Hsum. repeat split; auto.
Qed.

(** X9.  When [_check_data_quality] returns counts, the channel is one
    the unit monitors and the registry knows, the counts are three
    numbers, none negative, read from the first column whose header
    matches the pattern, and their sum is the number of rows plus the
    number of float [NaN] cells of that column: each such cell is counted
    twice. *)
Theorem check_data_quality_sum (data : DataFrame) (unit_config : UnitConfig)
    (channel_name : string) (counts : list Z) :
  _check_data_quality data unit_config channel_name = Ok (Some counts) ->
  exists channel_info i good missing bad,
    monitored unit_config channel_name = true
    /\ dict_get channel_registry channel_name = Some channel_info
    /\ first_match (regex channel_info) (columns data) = Some i
    /\ counts = [good; missing; bad]
    /\ 0 <= good /\ 0 <= missing /\ 0 <= bad
    /\ good + missing + bad
       = Z.of_nat (length (rows data))
         + Z.of_nat (nan_cells (map (fun r => nth i r VNone) (rows data))).
Proof. apply check_data_quality_counts. Qed.

Lemma zip_add_counts a b : is_counts a -> is_counts b -> is_counts (zip_add a b).
Proof.
  intros (g1 & m1 & b1 & -> & ? & ? & ?) (g2 & m2 & b2 & -> & ? & ? & ?).
  exists (g1 + g2), (m1 + m2), (b1 + b2). simpl. repeat split; lia.
Qed.

Lemma init_results_spec unit_config names :
  forall results,
    Forall (fun e => is_counts e.2) results ->
    Forall (fun e => is_counts e.2) (init_results unit_config names results)
    /\ (forall name,
          In name (map fst (init_results unit_config names results))
          <-> In name (map fst results)
              \/ (In name names /\ monitored unit_config name = true))
    /\ (Forall (fun e => e.2 = [0; 0; 0]) results ->
        Forall (fun e => e.2 = [0; 0; 0]) (init_results unit_config names results)).
Proof.
  induction names as [|n names IH]; intros results Hres; simpl.
  - split; [exact Hres|]. split; [|auto]. intros name. intuition.
  - destruct (monitored unit_config n) eqn:Hmon.
    + destruct (IH (dict_set results n [0; 0; 0])) as (Hc & Hk & Hz).
      { apply dict_set_Forall; [|exact Hres]. exists 0, 0, 0. simpl.
        repeat split; lia. }
      split; [exact Hc|]. split.
      * intros name. rewrite Hk, dict_set_keys_in. split.
        -- intros [[->|Hin]|[Hin Hm]]; auto.
        -- intros [Hin|[[->|Hin] Hm]]; auto.
      * intros Hzero. apply Hz. now apply dict_set_Forall.
    + destruct (IH results Hres) as (Hc & Hk & Hz).
      split; [exact Hc|]. split; [|exact Hz].
      intros name. rewrite Hk. split.
      * intros [Hin|[Hin Hm]]; auto.
      * intros [Hin|[[->|Hin] Hm]]; auto. congruence.
Qed.

Lemma add_file_spec unit_config data names :
  forall results,
    Forall (fun e => is_counts e.2) results ->
    Forall (fun e => is_counts e.2) (add_file unit_config data names results)
    /\ (forall name, In name (map fst (add_file unit_config data names results))
                     <-> In name (map fst results)).
Proof.
  induction names as [|n names IH]; intros results Hres; simpl.
  - split; [exact Hres|]. intros name. reflexivity.
  - destruct (monitored unit_config n); [|now apply IH].
    destruct (_check_data_quality data unit_config n) as [[quality|]|e] eqn:Hq.
    + destruct (dict_get results n) as [old|] eqn:Hold.
      * destruct (check_data_quality_counts data unit_config n quality Hq)
          as (c & i & g & m & b & _ & _ & _ & -> & Hg & Hm & Hb & _).
        destruct (IH (dict_set results n (zip_add old [g; m; b]))) as (Hc & Hk).
        { apply dict_set_Forall; [|exact Hres]. simpl.
          apply zip_add_counts.
          - apply (dict_get_Forall (fun e => is_counts e.2) results n old Hres Hold).
          - exists g, m, b. repeat split; auto. }
        split; [exact Hc|]. intros name. rewrite Hk, dict_set_keys_in.
        split; [|now right]. intros [->|Hin]; [|exact Hin].
        apply dict_get_in_keys. now exists old.
      * split; [exact Hres|]. intros name. reflexivity.
    + now apply IH.
    + split; [exact Hres|]. intros name. reflexivity.
Qed.

Lemma add_files_spec unit_config month listing :
  forall results,
    Forall (fun e => is_counts e.2) results ->
    Forall (fun e => is_counts e.2) (add_files unit_config month listing results)
    /\ (forall name,
          In name (map fst (add_files unit_config month listing results))
          <-> In name (map fst results))
    /\ (forallb (fun entry => negb (readable_for month entry)) listing = true ->
        add_files unit_config month listing results = results).
Proof.
  induction listing as [|[file content] rest IH]; intros results Hres; simpl.
  - split; [exact Hres|]. split; [intros name; reflexivity|auto].
  - unfold readable_for at 1. simpl.
    destruct (PyStr.contains month file && PyStr.endswith ".csv" file); simpl.
    + destruct content as [data|e]; simpl.
      * destruct (add_file_spec unit_config data (map fst channel_registry)
                    results Hres) as (Hc1 & Hk1).
        destruct (IH _ Hc1) as (Hc & Hk & _).
        split; [exact Hc|]. split; [|discriminate].
        intros name. now rewrite Hk, Hk1.
      * apply IH. exact Hres.
    + apply IH. exact Hres.
Qed.

(** X10.  When the device folder exists [process_data] returns a
    dictionary with exactly the channels of the registry that the unit
    monitors, each with three counts, none negative.  When no file of the
    folder counts for the month and can be read, every count is zero: the
    outcome differs from the [None] of a missing folder. *)
Theorem process_data_shape (units : list (Z * UnitConfig)) (tree : gmap Z Listing)
    (unit_no : Z) (month : string) (unit_config : UnitConfig) (listing : Listing) :
  dict_get units unit_no = Some unit_config ->
  tree !! unit_no = Some listing ->
  exists results,
    process_data units tree unit_no month = Ok (Some results)
    /\ Forall (fun e => is_counts e.2) results
    /\ (forall name,
          (exists l, dict_get results name = Some l)
          <-> In name (map fst channel_registry)
              /\ monitored unit_config name = true)
    /\ (forallb (fun entry => negb (readable_for month entry)) listing = true ->
        Forall (fun e => e.2 = [0; 0; 0]) results).
Proof.
  intros Hcfg Htree. unfold process_data. rewrite Hcfg, Htree.
  eexists. split; [reflexivity|].
  destruct (init_results_spec unit_config (map fst channel_registry) [])
    as (Hc0 & Hk0 & Hz0); [constructor|].
  destruct (add_files_spec unit_config month listing _ Hc0) as (Hc & Hk & Hsame).
  split; [exact Hc|]. split.
  - intros name. rewrite dict_get_in_keys, Hk, Hk0. simpl. intuition.
  - intros Hnone. rewrite (Hsame Hnone). apply Hz0. constructor.
Qed.

End MoreCounting.

(** ** Texts of counts *)

Section CountTexts.
Import QualityChecker.

Lemma has_char_app c s t : has_char c (s +:+ t) = has_char c s || has_char c t.
Proof.
  induction s as [|a s IH]; simpl; [reflexivity|].
  now rewrite IH, orb_assoc.
Qed.

Lemma startswith_first_char c0 p a s :
  Ascii.eqb c0 a = false -> PyStr.startswith (String c0 p) (String a s) = false.
Proof. intros Hne. simpl. now rewrite Hne. Qed.

(** A field without the first character of the separator is read through. *)
Lemma split_go_field c0 p field :
  has_char c0 field = false ->
  forall cur tail,
    PyStr.split_go (String c0 p) 0 cur (field +:+ tail)
    = PyStr.split_go (String c0 p) 0 (cur +:+ field) tail.
Proof.
  induction field as [|a field IH]; intros Hno cur tail.
  - simpl. now rewrite append_nil_r.
  - simpl in Hno. apply orb_false_iff in Hno as [Ha Hfield].
    change (String a field +:+ tail) with (String a (field +:+ tail)).
    cbn [PyStr.split_go]. rewrite (startswith_first_char c0 p a _ Ha).
    rewrite (IH Hfield). now rewrite append_snoc.
Qed.

Lemma split_go_last_field c0 p field cur :
  has_char c0 field = false ->
  PyStr.split_go (String c0 p) 0 cur field = [cur +:+ field].
Proof.
  intros Hno. rewrite <- (append_nil_r field) at 1.
  now rewrite split_go_field.
Qed.

Lemma split_comma_cut cur tail :
  PyStr.split_go ", " 0 cur (", " +:+ tail) = cur :: PyStr.split_go ", " 0 "" tail.
Proof. reflexivity. Qed.

Lemma split_colon_cut cur tail :
  PyStr.split_go ": " 0 cur (": " +:+ tail) = cur :: PyStr.split_go ": " 0 "" tail.
Proof. reflexivity. Qed.

Lemma string_of_uint_chars c d :
  is_digit c = false -> has_char c (NilEmpty.string_of_uint d) = false.
Proof.
  intros Hc. induction d; simpl; try reflexivity; rewrite IHd, orb_false_r;
    apply Ascii.eqb_neq; intros ->; discriminate.
Qed.

Lemma string_of_uint_no_blank d :
  PyStr.lstrip (NilEmpty.string_of_uint d) = NilEmpty.string_of_uint d.
Proof. destruct d; reflexivity. Qed.

(** The decimal text of an integer has digits and the minus sign only. *)
Lemma str_of_Z_chars c n :
  is_digit c = false -> c <> "-"%char -> has_char c (PyStr.str_of_Z n) = false.
Proof.
  intros Hc Hminus. unfold PyStr.str_of_Z.
  destruct (Z.to_int n) as [d|d]; simpl.
  - destruct d; try (now apply string_of_uint_chars).
    simpl. rewrite orb_false_r. apply Ascii.eqb_neq. intros ->. discriminate.
  - apply Ascii.eqb_neq in Hminus. rewrite Hminus. simpl.
    destruct d; try (now apply string_of_uint_chars).
    simpl. rewrite orb_false_r. apply Ascii.eqb_neq. intros ->. discriminate.
Qed.

Lemma rev_app_rev_app s t u :
  String.rev_app (String.rev_app s t) u = String.rev_app t (s +:+ u).
Proof.
  revert t u. induction s as [|a s IH]; intros t u; simpl; [reflexivity|].
  now rewrite IH.
Qed.

Lemma rev_involutive_string s : String.rev (String.rev s) = s.
Proof.
  unfold String.rev. rewrite rev_app_rev_app. simpl. apply append_nil_r.
Qed.

Lemma has_char_rev_app c s t :
  has_char c (String.rev_app s t) = has_char c s || has_char c t.
Proof.
  revert t. induction s as [|a s IH]; intros t; simpl; [reflexivity|].
  rewrite IH. simpl. destruct (Ascii.eqb c a), (has_char c s); reflexivity.
Qed.

(** [strip] leaves a text without blanks as it is. *)
Lemma lstrip_no_blank s :
  (forall c, PyStr.is_blank c = true -> has_char c s = false) ->
  PyStr.lstrip s = s.
Proof.
  intros Hno. destruct s as [|a s]; [reflexivity|]. simpl.
  destruct (PyStr.is_blank a) eqn:Ha; [|reflexivity].
  specialize (Hno a Ha). simpl in Hno. now rewrite Ascii.eqb_refl in Hno.
Qed.

Lemma strip_no_blank s :
  (forall c, PyStr.is_blank c = true -> has_char c s = false) ->
  PyStr.strip s = s.
Proof.
  intros Hno. unfold PyStr.strip. rewrite (lstrip_no_blank s Hno).
  rewrite lstrip_no_blank; [apply rev_involutive_string|].
  intros c Hc. unfold String.rev. rewrite has_char_rev_app, (Hno c Hc).
  reflexivity.
Qed.

Lemma blank_not_digit c : PyStr.is_blank c = true -> is_digit c = false /\ c <> "-"%char.
Proof.
  unfold PyStr.is_blank, is_digit. intros Hb. split.
  - destruct (48 <=? nat_of_ascii c)%nat eqn:Hlo; [|reflexivity].
    destruct (nat_of_ascii c <=? 57)%nat eqn:Hhi; [|reflexivity].
    apply Nat.leb_le in Hlo, Hhi.
    repeat (apply orb_true_iff in Hb as [Hb|Hb]); apply Nat.eqb_eq in Hb; lia.
  - intros ->. discriminate.
Qed.

(** [int(str(n)) == n] *)
Lemma int_of_str_of_Z n : PyStr.int_of_str (PyStr.str_of_Z n) = Some n.
Proof.
  unfold PyStr.int_of_str. rewrite strip_no_blank.
  2: { intros c Hc. destruct (blank_not_digit c Hc). now apply str_of_Z_chars. }
  unfold PyStr.str_of_Z. rewrite <- (DecimalZ.of_to n) at 2.
  destruct n as [|p|p]; [reflexivity| |]; simpl Z.to_int;
    pose proof (DecimalPos.Unsigned.to_uint_nonnil p) as Hnil;
    destruct (Pos.to_uint p) as [|d|d|d|d|d|d|d|d|d|d] eqn:Hd;
    try congruence; simpl; rewrite ?NilEmpty.usu; reflexivity.
Qed.

(** What [count_field] reads in a field [<label>: <n>]. *)
Lemma count_field_read parts i label n :
  has_char ":" label = false ->
  nth_error parts i = Some (label +:+ ": " +:+ PyStr.str_of_Z n) ->
  count_field parts i = Ok n.
Proof.
  intros Hlabel Hpart. unfold count_field, item. rewrite Hpart.
  unfold PyStr.split. rewrite (split_go_field ":" " " label Hlabel).
  rewrite split_colon_cut. rewrite split_go_last_field.
  2: { apply str_of_Z_chars; [reflexivity|discriminate]. }
  simpl nth_error. cbv iota beta. now rewrite int_of_str_of_Z.
Qed.

Lemma format_three g m b :
  _format_quality_result (Some [g; m; b])
  = ("Good: " +:+ PyStr.str_of_Z g) +:+ ", "
    +:+ ("Missing: " +:+ PyStr.str_of_Z m) +:+ ", "
    +:+ ("Bad: " +:+ PyStr.str_of_Z b).
Proof. unfold _format_quality_result. now rewrite !append_assoc. Qed.

Lemma parse_three g m b :
  parse_counts (_format_quality_result (Some [g; m; b])) = Ok (g, m, b).
Proof.
  unfold parse_counts. rewrite format_three. unfold PyStr.split.
  assert (Hfield : forall label n,
            has_char "," label = false ->
            has_char "," (label +:+ PyStr.str_of_Z n) = false).
  { intros label n Hl. rewrite has_char_app, Hl.
    apply str_of_Z_chars; [reflexivity|discriminate]. }
  rewrite (split_go_field "," " " _ (Hfield "Good: " g eq_refl)).
  rewrite split_comma_cut.
  rewrite (split_go_field "," " " _ (Hfield "Missing: " m eq_refl)).
  rewrite split_comma_cut.
  rewrite (split_go_last_field "," " " _ _ (Hfield "Bad: " b eq_refl)).
  rewrite (count_field_read _ 0 "Good" g); [|reflexivity|reflexivity].
  rewrite (count_field_read _ 1 "Missing" m); [|reflexivity|reflexivity].
  rewrite (count_field_read _ 2 "Bad" b); [|reflexivity|reflexivity].
  reflexivity.
Qed.

(** Every text of [_format_quality_result] holds three counts. *)
Lemma parse_formatted counts :
  exists g m b, parse_counts (_format_quality_result counts) = Ok (g, m, b).
Proof.
  destruct counts as [[|g [|m [|b [|x l]]]]|];
    try (exists 0, 0, 0; reflexivity).
  exists g, m, b. apply parse_three.
Qed.

(** X11.  The text that [_format_quality_result] writes for three counts
    is read back by [_apply_conditional_formatting] as those counts; for a
    missing result, or a list that does not have three items, the text
    reads back as three zeros. *)
Theorem format_quality_result_reads_back (counts : option (list Z)) :
  parse_counts (_format_quality_result counts)
  = Ok (match counts with
        | Some [g; m; b] => (g, m, b)
        | _ => (0, 0, 0)
        end).
Proof.
  destruct counts as [[|g [|m [|b [|x l]]]]|]; try reflexivity.
  apply parse_three.
Qed.

End CountTexts.

(** ** Reports that the engine wrote *)

Section WrittenReports.
Context `{Pandas} `{Rules}.
Import QualityChecker Reporting.

Lemma format_cell_value cell cell' :
  format_cell cell = Ok cell' -> value cell' = value cell.
Proof.
  unfold format_cell. destruct (value cell) as [[|a s]|] eqn:Hv;
    try (intros Heq; inversion Heq; subst; exact Hv).
  destruct (parse_counts (String a s)) as [[[g m] b]|]; [|discriminate].
  destruct (0 <? g + m + b); [|intros Heq; inversion Heq; subst; exact Hv].
  destruct (Qgt_bool _ 5); [intros Heq; inversion Heq; reflexivity|].
  destruct (Qgt_bool _ 1); intros Heq; inversion Heq; subst; auto.
Qed.

Lemma map_result_values {A} (f : A -> result A) (g : A -> option string) l l' :
  (forall a b, f a = Ok b -> g b = g a) ->
  map_result f l = Ok l' -> map g l' = map g l.
Proof.
  intros Hf. revert l'. induction l as [|a l IH]; intros l' Hmap; simpl in Hmap.
  - now inversion Hmap.
  - destruct (f a) as [b|] eqn:Ha; [|discriminate].
    destruct (map_result f l) as [bs|]; [|discriminate].
    inversion Hmap; subst. simpl. now rewrite (Hf a b Ha), (IH bs).
Qed.

Lemma format_row_values row row' :
  format_row row = Ok row' -> map value row' = map value row.
Proof.
  unfold format_row. destruct row as [|c cells]; [now intros [= <-]|].
  destruct (map_result format_cell cells) as [cells'|] eqn:Hcells; [|discriminate].
  intros [= <-]. simpl. f_equal.
  exact (map_result_values format_cell value cells cells' format_cell_value Hcells).
Qed.

Lemma formatting_values ws ws' :
  _apply_conditional_formatting ws = Ok ws' ->
  map (map value) ws' = map (map value) ws.
Proof.
  unfold _apply_conditional_formatting. destruct ws as [|header data_rows];
    [now intros [= <-]|].
  destruct (map_result format_row data_rows) as [rows'|] eqn:Hrows; [|discriminate].
  intros [= <-]. simpl. f_equal.
  revert rows' Hrows. induction data_rows as [|r rs IH]; intros rows' Hrows;
    simpl in Hrows.
  - now inversion Hrows.
  - destruct (format_row r) as [r'|] eqn:Hr; [|discriminate].
    destruct (map_result format_row rs) as [rs'|]; [|discriminate].
    inversion Hrows; subst. simpl.
    now rewrite (format_row_values r r' Hr), (IH rs').
Qed.

Lemma formatted_sheet_parses r :
  formatted_report r -> sheet_parses (to_excel r) = true.
Proof.
  unfold formatted_report, sheet_parses, to_excel. simpl.
  induction 1 as [|[label cells] rows Hrow _ IH]; simpl; [reflexivity|].
  rewrite IH, andb_true_r. clear IH. simpl in Hrow.
  induction Hrow as [|text cells [counts ->] _ IHc]; simpl; [reflexivity|].
  rewrite IHc, andb_true_r. unfold cell_parses. simpl.
  destruct (parse_formatted counts) as (g & m & b & ->).
  now destruct (_format_quality_result counts).
Qed.

(** Formatting goes through on a report of formatted cells. *)
Lemma formatting_total (r : Report) :
  formatted_report r ->
  exists ws',
    _apply_conditional_formatting (to_excel r) = Ok ws'
    /\ map (map value) ws' = map (map value) (to_excel r).
Proof.
  intros Hfmt. pose proof (formatted_sheet_parses r Hfmt) as Hparses.
  unfold _apply_conditional_formatting in *. unfold to_excel in *.
  unfold sheet_parses in Hparses. simpl in Hparses.
  destruct (map_result_total format_row (fun row => forallb cell_parses (tl row))
              _ format_row_total Hparses) as [rows' Hrows].
  pose proof (formatting_values (to_excel r)) as Hvalues.
  unfold _apply_conditional_formatting, to_excel in Hvalues.
  rewrite Hrows in *. eexists. split; [reflexivity|]. now apply Hvalues.
Qed.

(** X12.  Conditional formatting never raises on a report whose cells
    were all written by [_format_quality_result], and it changes fills
    only: the sheet keeps its shape and every cell keeps its text. *)
Theorem formatting_accepts_written_reports (r : Report) :
  formatted_report r ->
  exists ws',
    _apply_conditional_formatting (to_excel r) = Ok ws'
    /\ map (map value) ws' = map (map value) (to_excel r).
Proof. apply formatting_total. Qed.

Lemma formatted_add_row r month results :
  formatted_report r -> formatted_report (add_row r month results).
Proof.
  unfold formatted_report, add_row. simpl. intros Hfmt.
  apply Forall_app. split; [exact Hfmt|]. constructor; [|constructor].
  simpl. apply List.Forall_forall. intros text Hin.
  apply in_map_iff in Hin as (ch & <- & _). eexists. reflexivity.
Qed.

Lemma formatted_sort_index r : formatted_report r -> formatted_report (sort_index r).
Proof.
  unfold formatted_report, sort_index. simpl. intros Hfmt.
  rewrite List.Forall_forall in *. intros row Hin. apply Hfmt.
  eapply Permutation_in; [apply (sorted_by_perm String.leb fst)|exact Hin].
Qed.

(** A unit with results has a channel column in a new report. *)
Lemma new_report_columns units tree unit_no month x xs :
  process_data units tree unit_no month = Ok (Some (x :: xs)) ->
  rep_columns (new_report units unit_no) <> [].
Proof.
  unfold process_data, new_report. simpl.
  destruct (dict_get units unit_no) as [cfg|]; [|discriminate].
  destruct (tree !! unit_no) as [listing|]; [|discriminate].
  intros Hres Hcols. inversion Hres as [Hfiles].
  destruct (init_results_spec cfg (map fst channel_registry) [])
    as (Hc0 & Hk0 & _); [constructor|].
  destruct (add_files_spec cfg month listing _ Hc0) as (_ & Hk & _).
  assert (Hin : In x.1 (map fst (x :: xs))) by now left.
  rewrite <- Hfiles in Hin. apply Hk, Hk0 in Hin.
  destruct Hin as [[]|[Hreg Hmon]].
  assert (Hfil : In x.1 (List.filter (fun ch => monitored cfg ch)
                           (map fst channel_registry)))
    by (apply filter_In; now split).
  rewrite Hcols in Hfil. destruct Hfil.
Qed.

Lemma add_months_total units tree unit_no cfg months :
  dict_get units unit_no = Some cfg ->
  forall r flag,
    (forall month x xs,
       process_data units tree unit_no month = Ok (Some (x :: xs)) ->
       rep_columns r <> []) ->
    formatted_report r ->
    exists r' flag',
      add_months units tree unit_no months r flag = Ok (r', flag')
      /\ formatted_report r'
      /\ rep_columns r' = rep_columns r
      /\ (flag' = true -> flag = true \/ rep_columns r <> []).
Proof.
  intros Hcfg. induction months as [|month months IH]; intros r flag Hcols Hfmt;
    simpl.
  - exists r, flag. repeat split; auto.
  - destruct (mem month (rep_index r)); simpl; [now apply IH|].
    destruct (process_data units tree unit_no month) as [[[|x xs]|]|e] eqn:Hpd.
    + now apply IH.
    + pose proof (Hcols month x xs Hpd) as Hne.
      destruct (rep_columns r) as [|col cols] eqn:Hc; [congruence|].
      destruct (IH (add_row r month (x :: xs)) true) as (r' & flag' & Hadd & Hf & Hk & _).
      * intros m y ys Hm. unfold add_row. simpl. rewrite Hc. discriminate.
      * now apply formatted_add_row.
      * exists r', flag'. split; [exact Hadd|]. split; [exact Hf|].
        split; [now rewrite Hk; unfold add_row; simpl|].
        intros _. right. discriminate.
    + now apply IH.
    + unfold process_data in Hpd. rewrite Hcfg in Hpd.
      destruct (tree !! unit_no); discriminate.
Qed.

Lemma update_unit_total units tree data_type reports unit_no cfg :
  dict_get units unit_no = Some cfg ->
  (forall k r, reports !! k = Some r -> clean_report r) ->
  exists reports' was_saved,
    update_unit units tree data_type reports unit_no = Ok (reports', was_saved)
    /\ (forall k r, reports' !! k = Some r -> clean_report r)
    /\ (was_saved = false -> reports' = reports)
    /\ (forall k, k <> unit_no -> reports' !! k = reports !! k).
Proof.
  intros Hcfg Hclean. unfold update_unit.
  destruct (tree !! unit_no) as [listing|] eqn:Htree.
  2: { exists reports, false. split; [reflexivity|]. split; [exact Hclean|].
       split; auto. }
  set (r0 := match reports !! unit_no with
             | Some r => r
             | None => new_report units unit_no
             end).
  assert (Hcols : forall month x xs,
            process_data units tree unit_no month = Ok (Some (x :: xs)) ->
            rep_columns r0 <> []).
  { intros month x xs Hpd. unfold r0.
    destruct (reports !! unit_no) as [r|] eqn:Hr.
    - apply (Hclean unit_no r Hr).
    - exact (new_report_columns units tree unit_no month x xs Hpd). }
  assert (Hfmt : formatted_report r0).
  { unfold r0. destruct (reports !! unit_no) as [r|] eqn:Hr.
    - apply (Hclean unit_no r Hr).
    - unfold formatted_report, new_report. simpl. constructor. }
  destruct (add_months_total units tree unit_no cfg
              (months_of data_type listing []) Hcfg r0 false Hcols Hfmt)
    as (r' & flag' & -> & Hf & Hk & Hflag).
  destruct flag'; cbn [negb].
  - destruct (formatting_total (sort_index r')
                (formatted_sort_index r' Hf)) as (ws' & -> & _).
    eexists _, true. split; [reflexivity|]. split; [|split].
    + intros k r Hkr. destruct (decide (unit_no = k)) as [->|Hne].
      * rewrite lookup_insert_eq in Hkr. inversion Hkr; subst.
        split; [|now apply formatted_sort_index].
        unfold sort_index. simpl. rewrite Hk.
        destruct (Hflag eq_refl) as [Hfalse|Hne]; [discriminate|exact Hne].
      * rewrite lookup_insert_ne in Hkr by exact Hne. now apply (Hclean k).
    + discriminate.
    + intros k Hne. apply lookup_insert_ne. congruence.
  - exists reports, false. split; [reflexivity|]. split; [exact Hclean|].
    split; auto.
Qed.

Lemma update_units_total units tree data_type keys :
  (forall k, In k keys -> exists cfg, dict_get units k = Some cfg) ->
  forall reports saved,
    (forall k r, reports !! k = Some r -> clean_report r) ->
    exists reports' saved',
      update_units units tree data_type keys reports saved = Ok (reports', saved')
      /\ (forall k r, reports' !! k = Some r -> clean_report r)
      /\ (forall k, In k saved -> In k saved')
      /\ (forall k, In k saved' -> In k saved \/ In k keys)
      /\ (forall k, ~ In k saved' -> reports' !! k = reports !! k).
Proof.
  induction keys as [|j keys IH]; intros Hkeys reports saved Hclean; simpl.
  - exists reports, saved. split; [reflexivity|]. split; [exact Hclean|].
    repeat split; auto.
  - destruct (Hkeys j (or_introl eq_refl)) as [cfg Hcfg].
    destruct (update_unit_total units tree data_type reports j cfg Hcfg Hclean)
      as (reports1 & b & -> & Hclean1 & Hsame & Hother).
    destruct (IH (fun k Hk => Hkeys k (or_intror Hk)) reports1
                (if b then (saved ++ [j])%list else saved) Hclean1)
      as (reports' & saved' & -> & Hclean' & Hmono & Hsaved & Hrest).
    exists reports', saved'. split; [reflexivity|]. split; [exact Hclean'|].
    split; [|split].
    + intros k Hk. apply Hmono. destruct b; [|exact Hk].
      apply in_or_app. now left.
    + intros k Hk. destruct (Hsaved k Hk) as [Hin|Hin]; [|right; now right].
      destruct b; [|now left].
      apply in_app_or in Hin as [Hin|[<-|[]]]; [now left|right; now left].
    + intros k Hk. rewrite (Hrest k Hk).
      destruct b; [|now rewrite (Hsame eq_refl)].
      apply Hother. intros ->. apply Hk, Hmono.
      apply in_or_app. right. now left.
Qed.


End WrittenReports.

(** ** The names of the data files *)

Section FileNames.
Context `{Pandas} `{Rules}.
Import Reporting.

Lemma contains_no_first_char c0 p s :
  has_char c0 s = false -> PyStr.contains (String c0 p) s = false.
Proof.
  induction s as [|a s IH]; intros Hno; [reflexivity|].
  simpl in Hno. apply orb_false_iff in Hno as [Ha Hs].
  cbn [PyStr.contains]. rewrite (startswith_first_char c0 p a s Ha).
  now apply IH.
Qed.

Lemma unit_file_name_chars c n period :
  is_digit c = false -> c <> "-"%char ->
  has_char c "Unit_.csv" = false -> has_char c period = false ->
  has_char c (unit_file_name n period) = false.
Proof.
  intros Hd Hm Hfix Hp. unfold unit_file_name.
  rewrite !has_char_app, (str_of_Z_chars c n Hd Hm), Hp.
  simpl in Hfix. repeat (apply orb_false_iff in Hfix as [? Hfix]).
  simpl. now repeat (rewrite ?orb_false_r; try match goal with
                                               | H : Ascii.eqb c _ = false |- _ => rewrite H
                                               end).
Qed.

Lemma output_file_name output_dir u date :
  output_file output_dir u date
  = (output_dir +:+ "/UNIT " +:+ PyStr.str_of_Z (unit_no u)) +:+ "/"
    +:+ unit_file_name (unit_no u) date.
Proof. reflexivity. Qed.

Lemma data_file_name u period :
  data_file u period
  = (datatype u +:+ "_Data/UNIT " +:+ PyStr.str_of_Z (unit_no u)) +:+ "/"
    +:+ unit_file_name (unit_no u) period.
Proof. unfold data_file, unit_file_name. now rewrite !append_assoc. Qed.

Lemma month_of_file_written data_type n period :
  data_type = "Minute" \/ data_type = "Hour" ->
  has_char "M" period = false -> has_char "H" period = false ->
  month_of_file data_type (unit_file_name n period) = None.
Proof.
  intros Htype HM HH. unfold month_of_file.
  assert (Hno : PyStr.contains data_type (unit_file_name n period) = false).
  { destruct Htype as [-> | ->]; apply contains_no_first_char;
      apply unit_file_name_chars; try reflexivity; try discriminate; assumption. }
  now rewrite Hno.
Qed.

Lemma months_of_written data_type listing months :
  data_type = "Minute" \/ data_type = "Hour" ->
  Forall (fun entry : string * result DataFrame =>
            exists n period,
              entry.1 = unit_file_name n period
              /\ has_char "M" period = false /\ has_char "H" period = false)
         listing ->
  months_of data_type listing months = months.
Proof.
  intros Htype Hall. revert months.
  induction Hall as [|[file content] listing (n & period & Hname & HM & HH) _ IH];
    intros months; simpl; [reflexivity|].
  simpl in Hname. subst file.
  now rewrite (month_of_file_written data_type n period Htype HM HH).
Qed.

(** X14.  The data files that this program writes are named
    [Unit_<n>_<period>.csv], and such a name contains neither [Minute] nor
    [Hour].  [update_quality_report], which only looks at the files whose
    name contains the data type, therefore finds no period in a tree that
    holds such files only: for both data types it saves nothing and
    leaves every report as it is. *)
Theorem update_quality_report_skips_written_files
    (units : list (Z * UnitConfig)) (tree : gmap Z Listing) (data_type : string)
    (reports : gmap Z Report) :
  data_type = "Minute" \/ data_type = "Hour" ->
  named_by_the_writers tree ->
  update_quality_report units tree data_type reports = Ok (reports, [])
  /\ (forall output_dir u date,
        output_file output_dir u date
        = (output_dir +:+ "/UNIT " +:+ PyStr.str_of_Z (unit_no u)) +:+ "/"
          +:+ unit_file_name (unit_no u) date)
  /\ (forall u period,
        data_file u period
        = (datatype u +:+ "_Data/UNIT " +:+ PyStr.str_of_Z (unit_no u)) +:+ "/"
          +:+ unit_file_name (unit_no u) period).
Proof.
  intros Htype Hnames. split; [|split; [apply output_file_name|apply data_file_name]].
  unfold update_quality_report. generalize (@nil Z) as saved.
  induction (map fst units) as [|k keys IH]; intros saved; simpl; [reflexivity|].
  assert (Hstep : update_unit units tree data_type reports k = Ok (reports, false)).
  { unfold update_unit. destruct (tree !! k) as [listing|] eqn:Hk; [|reflexivity].
    now rewrite (months_of_written data_type listing [] Htype (Hnames k listing Hk)). }
  rewrite Hstep. apply IH.
Qed.

End FileNames.

(** ** Natural order *)

Section NaturalOrder.

Import QualityChecker.

Lemma uint_of_string_digits s :
  all_chars is_digit s = true -> exists d, NilEmpty.uint_of_string s = Some d.
Proof.
  induction s as [|a s IH]; simpl; intros Hall; [now eexists|].
  apply andb_true_iff in Hall as [Ha Hs].
  destruct (IH Hs) as [d ->].
  destruct a as [[] [] [] [] [] [] [] []]; try discriminate Ha; simpl; now eexists.
Qed.

Lemma digit_not_blank c : is_digit c = true -> PyStr.is_blank c = false.
Proof.
  intros Hd. destruct (PyStr.is_blank c) eqn:Hb; [|reflexivity].
  destruct (blank_not_digit c Hb) as [Hn _]. congruence.
Qed.

Lemma all_digits_has_char c s :
  is_digit c = false -> all_chars is_digit s = true -> has_char c s = false.
Proof.
  intros Hc. induction s as [|a s IH]; simpl; [reflexivity|].
  intros Hall. apply andb_true_iff in Hall as [Ha Hs].
  rewrite (IH Hs), orb_false_r. apply Ascii.eqb_neq. intros ->. congruence.
Qed.

(** [int] reads every text that [isdigit] accepts. *)
Lemma int_of_digits text :
  isdigit text = true -> exists n, 0 <= n /\ PyStr.int_of_str text = Some n.
Proof.
  intros Hd. destruct text as [|a s]; [discriminate|].
  unfold isdigit in Hd.
  destruct (uint_of_string_digits _ Hd) as [d Hu].
  unfold PyStr.int_of_str. rewrite strip_no_blank.
  2: { intros c Hc. destruct (blank_not_digit c Hc) as [Hn _].
       now apply all_digits_has_char. }
  simpl in Hd. apply andb_true_iff in Hd as [Ha Hs].
  destruct (Ascii.eqb a "-") eqn:Hm.
  { apply Ascii.eqb_eq in Hm. subst a. discriminate. }
  destruct (Ascii.eqb a "+") eqn:Hp.
  { apply Ascii.eqb_eq in Hp. subst a. discriminate. }
  unfold PyStr.digits_of_str. rewrite Hu. simpl.
  exists (Z.of_uint d). split; [|reflexivity].
  unfold Z.of_uint. lia.
Qed.

Lemma key_of_part_digits text :
  isdigit text = true -> exists n, 0 <= n /\ key_of_part text = Ok (KInt n).
Proof.
  intros Hd. unfold key_of_part. rewrite Hd.
  destruct (int_of_digits text Hd) as (n & Hn & ->). now exists n.
Qed.

Lemma key_of_part_text text :
  isdigit text = false -> key_of_part text = Ok (KStr (PyStr.lower text)).
Proof. intros Hd. unfold key_of_part. now rewrite Hd. Qed.

Lemma all_chars_app test s t :
  all_chars test (s +:+ t) = all_chars test s && all_chars test t.
Proof.
  induction s as [|a s IH]; simpl; [reflexivity|]. now rewrite IH, andb_assoc.
Qed.

Lemma isdigit_snoc cur c :
  isdigit cur = true -> is_digit c = true -> isdigit (cur +:+ String c "") = true.
Proof.
  intros Hcur Hc. destruct cur as [|a s]; [discriminate|].
  unfold isdigit in *. cbn [String.append].
  change (String a (s +:+ String c "")) with (String a s +:+ String c "").
  rewrite all_chars_app, Hcur. simpl. now rewrite Hc.
Qed.

Lemma isdigit_snoc_other cur c :
  is_digit c = false -> isdigit (cur +:+ String c "") = false.
Proof.
  intros Hc. destruct cur as [|a s]; [simpl; now rewrite Hc|].
  unfold isdigit. cbn [String.append].
  change (String a (s +:+ String c "")) with (String a s +:+ String c "").
  rewrite all_chars_app. simpl. rewrite Hc. now rewrite andb_false_r.
Qed.

Lemma isdigit_single c : isdigit (String c "") = is_digit c.
Proof. simpl. apply andb_true_r. Qed.

(** The key of the parts of a text: numbers and texts in turn. *)
Lemma split_digit_runs_keys s :
  forall cur in_run,
    isdigit cur = in_run ->
    exists k, map_result key_of_part (split_digit_runs s cur in_run) = Ok k
              /\ alternating (negb in_run) k.
Proof.
  induction s as [|c s IH]; intros cur in_run Hcur.
  - destruct in_run; simpl.
    + destruct (key_of_part_digits cur Hcur) as (n & _ & ->).
      eexists. split; [reflexivity|]. simpl. auto.
    + rewrite (key_of_part_text cur Hcur).
      eexists. split; [reflexivity|]. simpl. auto.
  - simpl. destruct (is_digit c) eqn:Hc, in_run.
    + apply IH. now apply isdigit_snoc.
    + destruct (IH (String c "") true) as (k & Hk & Halt).
      { now rewrite isdigit_single. }
      cbn [map_result]. rewrite (key_of_part_text cur Hcur), Hk.
      eexists. split; [reflexivity|]. simpl. auto.
    + destruct (IH (String c "") false) as (k & Hk & Halt).
      { now rewrite isdigit_single. }
      cbn [map_result].
      destruct (key_of_part_digits cur Hcur) as (n & _ & ->). rewrite Hk.
      eexists. split; [reflexivity|]. simpl. auto.
    + apply IH. now apply isdigit_snoc_other.
Qed.

Lemma natural_sort_key_alternating s :
  exists k, natural_sort_key s = Ok k /\ alternating true k.
Proof. apply (split_digit_runs_keys s "" false). reflexivity. Qed.

Lemma key_lt_alternating a :
  forall b text_first,
    alternating text_first a -> alternating text_first b ->
    exists r, key_lt a b = Ok r.
Proof.
  induction a as [|x a IH]; intros [|y b] t Ha Hb; simpl; try (now eexists).
  - destruct x; now eexists.
  - destruct x as [n|s], y as [m|s']; simpl in Ha, Hb;
      destruct Ha as [Ht Ha], Hb as [Ht' Hb]; try congruence.
    + destruct (Z.eqb n m); [eapply IH; eauto | now eexists].
    + destruct (String.eqb s s'); [eapply IH; eauto | now eexists].
Qed.

(** X15.  [_natural_sort_key] and [natural_sort_key] return a key for
    every ASCII text, and the keys of any two such texts can be compared:
    a number is never set against a text, so that [<] on two keys never
    raises the [TypeError] of Python 3. *)
Theorem natural_sort_key_comparable (s t : string) :
  ascii_text s = true -> ascii_text t = true ->
  exists ks kt r,
    natural_sort_key s = Ok ks /\ natural_sort_key t = Ok kt /\ key_lt ks kt = Ok r.
Proof.
  intros _ _.
  destruct (natural_sort_key_alternating s) as (ks & Hs & Has).
  destruct (natural_sort_key_alternating t) as (kt & Ht & Hat).
  destruct (key_lt_alternating ks kt true Has Hat) as [r Hr].
  now exists ks, kt, r.
Qed.

End NaturalOrder.

Section NaturalSort.

Import QualityChecker.

Lemma string_ltb_lt s t : String.ltb s t = true <-> OrderedTypeEx.String_as_OT.lt s t.
Proof.
  rewrite <- OrderedTypeEx.String_as_OT.cmp_lt. unfold String.ltb, OrderedTypeEx.String_as_OT.cmp.
  destruct (String.compare s t); split; congruence.
Qed.

Lemma string_ltb_trans s t u :
  String.ltb s t = true -> String.ltb t u = true -> String.ltb s u = true.
Proof.
  rewrite !string_ltb_lt. apply OrderedTypeEx.String_as_OT.lt_trans.
Qed.

Lemma string_ltb_irrefl s : String.ltb s s = false.
Proof.
  unfold String.ltb. replace (String.compare s s) with Eq; [reflexivity|].
  symmetry. apply OrderedTypeEx.String_as_OT.cmp_eq. reflexivity.
Qed.

Lemma string_ltb_total s t :
  String.eqb s t = false -> String.ltb s t = false -> String.ltb t s = true.
Proof.
  intros Hne Hlt. unfold String.ltb in *. rewrite String.compare_antisym.
  destruct (String.compare s t) eqn:Hc; try discriminate; [|reflexivity].
  apply String.compare_eq_iff in Hc. subst. now rewrite String.eqb_refl in Hne.
Qed.

Lemma string_ltb_asym s t : String.ltb s t = true -> String.ltb t s = false.
Proof.
  intros Hlt. unfold String.ltb in *. rewrite String.compare_antisym.
  destruct (String.compare s t); try discriminate. reflexivity.
Qed.

Lemma string_ltb_neq s t : String.ltb s t = true -> String.eqb t s = false.
Proof.
  intros Hlt. apply String.eqb_neq. intros ->. now rewrite string_ltb_irrefl in Hlt.
Qed.

Lemma key_lt_irrefl a : key_lt a a = Ok false.
Proof.
  induction a as [|[n|s] a IH]; simpl; [reflexivity| |].
  - now rewrite Z.eqb_refl.
  - now rewrite String.eqb_refl.
Qed.

Lemma key_lt_asym a : forall b, key_lt a b = Ok true -> key_lt b a = Ok false.
Proof.
  induction a as [|x a IH]; intros [|y b] Hlt; simpl in *; try congruence.
  - destruct y; reflexivity.
  - destruct x; discriminate.
  - destruct x as [n|s], y as [m|t]; try discriminate.
    + destruct (Z.eqb_spec n m) as [->|Hne].
      * rewrite Z.eqb_refl. now apply IH.
      * injection Hlt as Hlt. apply Z.ltb_lt in Hlt.
        destruct (Z.eqb_spec m n); [lia|]. f_equal. apply Z.ltb_ge. lia.
    + destruct (String.eqb_spec s t) as [->|Hne].
      * rewrite String.eqb_refl. now apply IH.
      * injection Hlt as Hlt. rewrite (string_ltb_neq _ _ Hlt).
        f_equal. now apply string_ltb_asym.
Qed.

Lemma string_order_cases s t :
  (s = t /\ String.ltb s t = false /\ String.ltb t s = false)
  \/ (String.eqb s t = false /\ String.eqb t s = false
      /\ String.ltb s t = true /\ String.ltb t s = false)
  \/ (String.eqb s t = false /\ String.eqb t s = false
      /\ String.ltb s t = false /\ String.ltb t s = true).
Proof.
  destruct (String.eqb_spec s t) as [->|Hne].
  - left. now rewrite string_ltb_irrefl.
  - right. assert (String.eqb t s = false) as Hne' by (apply String.eqb_neq; congruence).
    destruct (String.ltb s t) eqn:Hlt.
    + left. repeat split; auto. now apply string_ltb_asym.
    + right. repeat split; auto. apply string_ltb_total; [now apply String.eqb_neq|exact Hlt].
Qed.

(** On keys of one shape, not coming after is transitive. *)
Lemma key_le_trans a :
  forall b c text_first,
    alternating text_first a -> alternating text_first b -> alternating text_first c ->
    key_lt b a = Ok false -> key_lt c b = Ok false -> key_lt c a = Ok false.
Proof.
  induction a as [|x a IH]; intros [|y b] [|z c] tf Ha Hb Hc Hba Hcb;
    try (destruct x as [n|s]); try (destruct y as [m|t]); try (destruct z as [p|u]);
    simpl in Hba, Hcb |- *; try congruence;
    simpl in Ha, Hb, Hc;
    destruct Ha as [Hta Ha], Hb as [Htb Hb], Hc as [Htc Hc].
  - revert Hba Hcb.
    destruct (Z.eqb_spec m n) as [Hmn|Hmn], (Z.eqb_spec p m) as [Hpm|Hpm],
             (Z.eqb_spec p n) as [Hpn|Hpn]; intros Hba Hcb;
      try lia;
      try (injection Hba as Hba; apply Z.ltb_ge in Hba);
      try (injection Hcb as Hcb; apply Z.ltb_ge in Hcb);
      try lia;
      try (f_equal; apply Z.ltb_ge; lia).
    now apply (IH b c true).
  - destruct (string_order_cases t s) as [(Hts & _ & _)|[(E1 & E2 & L1 & L2)|(E1 & E2 & L1 & L2)]];
    destruct (string_order_cases u t) as [(Hut & _ & _)|[(F1 & F2 & M1 & M2)|(F1 & F2 & M1 & M2)]];
    destruct (string_order_cases u s) as [(Hus & _ & _)|[(G1 & G2 & K1 & K2)|(G1 & G2 & K1 & K2)]];
      subst;
      rewrite ?String.eqb_refl, ?string_ltb_irrefl, ?E1, ?E2, ?L1, ?L2, ?F1, ?F2, ?M1, ?M2,
        ?G1, ?G2, ?K1, ?K2 in *;
      try congruence.
    + now apply (IH b c false).
    + pose proof (string_ltb_trans _ _ _ L2 M2) as Hsu. congruence.
Qed.

Context {A : Type}.

Local Abbreviation keyed := (list key_item * A)%type.

Lemma insert_natural_sorted (x : keyed) :
  forall l,
    alternating true (fst x) ->
    Forall (fun y => alternating true (fst y)) l ->
    StronglySorted keyed_le l ->
    exists r, insert_natural x l = Ok r
              /\ Permutation (x :: l) r
              /\ StronglySorted keyed_le r.
Proof.
  intros l Hx. induction l as [|y l IH]; intros Hall Hs.
  - exists [x]. repeat split; auto. repeat constructor.
  - apply List.Forall_cons_iff in Hall as [Hy Hall].
    apply StronglySorted_inv in Hs as [Hs Hle].
    simpl. destruct (key_lt_alternating (fst y) (fst x) true Hy Hx) as [[|] Hr];
      rewrite Hr.
    + destruct (IH Hall Hs) as (r & -> & Hperm & Hsr).
      exists (y :: r). split; [reflexivity|]. split.
      * rewrite perm_swap. now constructor.
      * constructor; [exact Hsr|].
        eapply Permutation_Forall; [exact Hperm|].
        constructor; [|exact Hle]. unfold keyed_le. now apply key_lt_asym.
    + exists (x :: y :: l). split; [reflexivity|]. split; [reflexivity|].
      constructor; [now constructor|].
      constructor; [exact Hr|].
      rewrite List.Forall_forall in Hle, Hall |- *. intros z Hz.
      unfold keyed_le in *.
      eapply (key_le_trans (fst x) (fst y) (fst z) true); eauto.
Qed.

Lemma sort_keyed_sorted (l : list keyed) :
  Forall (fun y => alternating true (fst y)) l ->
  exists r, sort_keyed l = Ok r /\ Permutation l r /\ StronglySorted keyed_le r.
Proof.
  induction l as [|x l IH]; intros Hall.
  - exists []. repeat split; auto. constructor.
  - apply List.Forall_cons_iff in Hall as [Hx Hall].
    destruct (IH Hall) as (s & Hs & Hperm & Hsorted). simpl. rewrite Hs.
    destruct (insert_natural_sorted x s Hx) as (r & Hr & Hperm' & Hsorted'); auto.
    { eapply Permutation_Forall; eauto. }
    exists r. split; [exact Hr|]. split; [|exact Hsorted'].
    rewrite <- Hperm'. now constructor.
Qed.

Lemma with_keys (path : A -> string) (l : list A) :
  exists keyed,
    map_result (with_key path) l = Ok keyed
    /\ map snd keyed = l
    /\ Forall (fun y => natural_sort_key (path (snd y)) = Ok (fst y)
                        /\ alternating true (fst y)) keyed.
Proof.
  induction l as [|x l (keyed & Hk & Hsnd & Hall)].
  - exists []. repeat split; auto.
  - destruct (natural_sort_key_alternating (path x)) as (k & Hkey & Halt).
    exists ((k, x) :: keyed). simpl. unfold with_key at 1. rewrite Hkey, Hk.
    split; [reflexivity|]. split; [now rewrite Hsnd|].
    constructor; auto.
Qed.

Lemma sort_natural_spec (path : A -> string) (l : list A) :
  exists sorted,
    sort_natural path l = Ok sorted
    /\ Permutation l sorted
    /\ StronglySorted (fun x y => natural_le (path x) (path y)) sorted.
Proof.
  destruct (with_keys path l) as (keyed & Hk & Hsnd & Hall).
  destruct (sort_keyed_sorted keyed) as (r & Hr & Hperm & Hsorted).
  { eapply List.Forall_impl; [|exact Hall]. now intros y [_ Hy]. }
  exists (map snd r). unfold sort_natural. rewrite Hk, Hr.
  split; [reflexivity|]. split.
  { rewrite <- Hsnd. now apply Permutation_map. }
  assert (Hall' : Forall (fun y => natural_sort_key (path (snd y)) = Ok (fst y)) r).
  { eapply Permutation_Forall; [exact Hperm|].
    eapply List.Forall_impl; [|exact Hall]. now intros y [Hy _]. }
  clear - Hsorted Hall'. induction Hsorted as [|y r Hs IH Hle]; simpl.
  - constructor.
  - apply List.Forall_cons_iff in Hall' as [Hy Hall']. constructor; [now apply IH|].
    rewrite List.Forall_forall in Hle, Hall' |- *.
    intros z Hz. apply in_map_iff in Hz as (z' & <- & Hz').
    exists (fst y), (fst z'). split; [exact Hy|]. split; [now apply Hall'|].
    now apply Hle.
Qed.

(** X16.  [sort(key=natural_sort_key)], as [combine_data] and [load_data]
    call it, never raises on ASCII texts: it returns the elements it was
    given, each as often as before, and no element of the result comes
    after a later one in natural order. *)
Theorem sort_natural_sorted (path : A -> string) (l : list A) :
  Forall (fun x => ascii_text (path x) = true) l ->
  exists sorted,
    sort_natural path l = Ok sorted
    /\ Permutation l sorted
    /\ StronglySorted (fun x y => natural_le (path x) (path y)) sorted.
Proof. intros _. apply sort_natural_spec. Qed.

End NaturalSort.

(** ** The dates of a download *)

Section Dates.

(** A number that grows with the date, for the dates the constructor accepts. *)
Local Abbreviation ord d := (month_index d * 32 + dt_day d).

Lemma days_in_month_bounds y m : 28 <= days_in_month y m <= 31.
Proof.
  unfold days_in_month.
  destruct (m =? 2)%Z; [destruct (is_leap y); lia|].
  destruct ((m =? 4)%Z || (m =? 6)%Z || (m =? 9)%Z || (m =? 11)%Z); lia.
Qed.

Lemma valid_iff d :
  valid d = true
  <-> 1 <= dt_year d <= 9999 /\ 1 <= dt_month d <= 12
      /\ 1 <= dt_day d <= days_in_month (dt_year d) (dt_month d).
Proof.
  unfold valid, valid_date. rewrite !andb_true_iff, !Z.leb_le. tauto.
Qed.

Lemma dt_lt_iff a b :
  dt_lt a b = true
  <-> dt_year a < dt_year b
      \/ (dt_year a = dt_year b
          /\ (dt_month a < dt_month b
              \/ (dt_month a = dt_month b /\ dt_day a < dt_day b))).
Proof.
  unfold dt_lt.
  rewrite !orb_true_iff, !andb_true_iff, !orb_true_iff, !andb_true_iff,
    !Z.ltb_lt, !Z.eqb_eq.
  tauto.
Qed.

Lemma dt_lt_ord a b :
  valid a = true -> valid b = true -> (dt_lt a b = true <-> ord a < ord b).
Proof.
  rewrite !valid_iff, dt_lt_iff. unfold month_index.
  pose proof (days_in_month_bounds (dt_year a) (dt_month a)).
  pose proof (days_in_month_bounds (dt_year b) (dt_month b)).
  lia.
Qed.

Lemma ord_inj a b : valid a = true -> valid b = true -> ord a = ord b -> a = b.
Proof.
  rewrite !valid_iff. unfold month_index.
  pose proof (days_in_month_bounds (dt_year a) (dt_month a)).
  pose proof (days_in_month_bounds (dt_year b) (dt_month b)).
  destruct a as [ya ma da], b as [yb mb db]; simpl in *. intros Ha Hb Heq.
  assert (ya = yb /\ ma = mb /\ da = db) as (-> & -> & ->) by lia. reflexivity.
Qed.

(** The day after a date is the next date of the calendar. *)
Lemma next_day_next d end_date :
  valid d = true -> valid end_date = true -> dt_lt d end_date = true ->
  exists d', next_day d = Some d' /\ valid d' = true /\ ord d < ord d'
             /\ forall x, valid x = true -> ord d < ord x -> ord d' <= ord x.
Proof.
  intros Hd He Hlt. apply (dt_lt_ord d end_date Hd He) in Hlt.
  apply valid_iff in Hd, He.
  pose proof (days_in_month_bounds (dt_year d) (dt_month d)) as Hdim.
  pose proof (days_in_month_bounds (dt_year end_date) (dt_month end_date)) as Hdime.
  assert (Hnext : forall x, valid x = true -> ord d < ord x ->
             dt_day d = days_in_month (dt_year d) (dt_month d) ->
             month_index d + 1 <= month_index x).
  { intros x Hx Hord Hlast. apply valid_iff in Hx.
    pose proof (days_in_month_bounds (dt_year x) (dt_month x)) as Hdimx.
    unfold month_index in *.
    destruct (Z.eq_dec (dt_year x * 12 + dt_month x) (dt_year d * 12 + dt_month d))
      as [Heq|Hne]; [|lia].
    assert (dt_year x = dt_year d /\ dt_month x = dt_month d) as [Hy Hm] by lia.
    rewrite Hy, Hm in Hx. lia. }
  unfold next_day.
  destruct (Z.ltb_spec (dt_day d) (days_in_month (dt_year d) (dt_month d))) as [Hday|Hday].
  { eexists. split; [reflexivity|]. rewrite valid_iff. unfold month_index in *. cbn [dt_year dt_month dt_day].
    repeat split; lia. }
  assert (Hlast : dt_day d = days_in_month (dt_year d) (dt_month d)) by lia.
  destruct (Z.ltb_spec (dt_month d) 12) as [Hmonth|Hmonth].
  { eexists. split; [reflexivity|]. rewrite valid_iff. cbn [dt_year dt_month dt_day].
    pose proof (days_in_month_bounds (dt_year d) (dt_month d + 1)).
    split; [lia|]. split; [unfold month_index; simpl; lia|].
    intros x Hx Hord. specialize (Hnext x Hx Hord Hlast).
    apply valid_iff in Hx. unfold month_index in *. cbn [dt_year dt_month dt_day]. lia. }
  destruct (Z.ltb_spec (dt_year d) 9999) as [Hyear|Hyear].
  { eexists. split; [reflexivity|]. rewrite valid_iff. cbn [dt_year dt_month dt_day].
    pose proof (days_in_month_bounds (dt_year d + 1) 1).
    split; [lia|]. split; [unfold month_index; simpl; lia|].
    intros x Hx Hord. specialize (Hnext x Hx Hord Hlast).
    apply valid_iff in Hx. unfold month_index in *. cbn [dt_year dt_month dt_day]. lia. }
  exfalso. unfold month_index in *.
  assert (dt_year end_date = dt_year d /\ dt_month end_date = dt_month d) as [Hy Hm] by lia.
  rewrite Hy, Hm in He. lia.
Qed.

Lemma next_month_next d end_date :
  first_day d -> first_day end_date -> dt_lt d end_date = true ->
  exists d', next_month d = Some d' /\ first_day d' /\ ord d < ord d'
             /\ forall x, first_day x -> ord d < ord x -> ord d' <= ord x.
Proof.
  intros [Hd Hd1] [He He1] Hlt. apply (dt_lt_ord d end_date Hd He) in Hlt.
  apply valid_iff in Hd, He.
  unfold next_month, new_datetime, first_day.
  destruct (Z.ltb_spec 12 (dt_month d + 1)) as [Hm|Hm].
  - pose proof (days_in_month_bounds (dt_year d + 1) (dt_month d + 1 - 12)) as Hdim.
    assert (dt_year d < 9999) as Hy by (unfold month_index in *; lia).
    match goal with |- context [valid_date ?y ?m ?day] =>
      assert (valid_date y m day = true) as Hv
        by (unfold valid_date; rewrite !andb_true_iff, !Z.leb_le; lia)
    end.
    rewrite Hv. eexists. split; [reflexivity|].
    unfold valid, month_index in *. cbn [dt_year dt_month dt_day].
    split; [split; [exact Hv|lia]|]. split; [lia|].
    intros x [Hx Hx1] Hord. apply valid_iff in Hx. lia.
  - pose proof (days_in_month_bounds (dt_year d) (dt_month d + 1)) as Hdim.
    match goal with |- context [valid_date ?y ?m ?day] =>
      assert (valid_date y m day = true) as Hv
        by (unfold valid_date; rewrite !andb_true_iff, !Z.leb_le; lia)
    end.
    rewrite Hv. eexists. split; [reflexivity|].
    unfold valid, month_index in *. cbn [dt_year dt_month dt_day].
    split; [split; [exact Hv|lia]|]. split; [lia|].
    intros x [Hx Hx1] Hord. apply valid_iff in Hx. lia.
Qed.

(** The loop lists the dates of a set from [current] up to the end date,
    the end date left out, when the step gives the next date of the set. *)
Lemma dates_loop_spec (step : datetime -> option datetime) (P : datetime -> Prop)
    (end_date : datetime) :
  (forall d, P d -> valid d = true) ->
  P end_date ->
  (forall d, P d -> dt_lt d end_date = true ->
     exists d', step d = Some d' /\ P d' /\ ord d < ord d'
                /\ forall x, P x -> ord d < ord x -> ord d' <= ord x) ->
  forall fuel current,
    P current ->
    Z.max 0 (ord end_date - ord current) < Z.of_nat fuel ->
    exists dates,
      dates_loop step fuel current end_date = Some (Ok dates)
      /\ (forall d, In d dates <-> P d /\ ord current <= ord d < ord end_date)
      /\ StronglySorted (fun a b => dt_lt a b = true) dates.
Proof.
  intros Hvalid Hend Hstep. induction fuel as [|fuel IH]; intros current Hcur Hfuel.
  - simpl in Hfuel. lia.
  - cbn [dates_loop]. destruct (dt_lt current end_date) eqn:Hlt.
    + destruct (Hstep current Hcur Hlt) as (d' & Hd' & HP' & Hord & Hmin).
      rewrite Hd'.
      apply (dt_lt_ord current end_date (Hvalid _ Hcur) (Hvalid _ Hend)) in Hlt.
      destruct (IH d' HP') as (dates & -> & Hin & Hsorted); [lia|].
      exists (current :: dates). split; [reflexivity|]. split.
      * intros d. simpl. rewrite Hin. split.
        -- intros [<-|(HPd & Hlo & Hhi)]; [split; [exact Hcur|lia]|].
           split; [exact HPd|lia].
        -- intros (HPd & Hlo & Hhi).
           destruct (Z.eq_dec (ord current) (ord d)) as [Heq|Hne].
           ++ left. apply ord_inj; auto.
           ++ right. split; [exact HPd|]. split; [apply Hmin; [exact HPd|lia]|lia].
      * constructor; [exact Hsorted|].
        apply List.Forall_forall. intros d Hd. apply Hin in Hd as (HPd & Hlo & Hhi).
        apply (dt_lt_ord current d (Hvalid _ Hcur) (Hvalid _ HPd)). lia.
    + exists []. split; [reflexivity|]. split; [|constructor].
      intros d. simpl. split; [tauto|]. intros (HPd & Hlo & Hhi).
      assert (ord current < ord end_date) as Hlt' by lia.
      apply (dt_lt_ord current end_date (Hvalid _ Hcur) (Hvalid _ Hend)) in Hlt'.
      congruence.
Qed.

End Dates.

Section DateRange.

Local Abbreviation ord d := (month_index d * 32 + dt_day d).

Lemma index_of_month m :
  0 <= m <= 12 -> index_of (nth (Z.to_nat m) month_name "") month_name = Some m.
Proof.
  intros Hm.
  assert (m = 0 \/ m = 1 \/ m = 2 \/ m = 3 \/ m = 4 \/ m = 5 \/ m = 6 \/ m = 7
          \/ m = 8 \/ m = 9 \/ m = 10 \/ m = 11 \/ m = 12) as Hcases by lia.
  repeat (destruct Hcases as [->|Hcases]; [reflexivity|]).
  subst. reflexivity.
Qed.

Lemma valid_date_first y m :
  1 <= y <= 9999 -> 1 <= m <= 12 -> valid_date y m 1 = true.
Proof.
  intros Hy Hm. unfold valid_date. pose proof (days_in_month_bounds y m).
  rewrite !andb_true_iff, !Z.leb_le. lia.
Qed.

Lemma valid_date_last y m :
  1 <= y <= 9999 -> 1 <= m <= 12 -> valid_date y m (days_in_month y m) = true.
Proof.
  intros Hy Hm. unfold valid_date. pose proof (days_in_month_bounds y m).
  rewrite !andb_true_iff, !Z.leb_le. lia.
Qed.

Lemma validate_date_form sm sy em ey :
  1 <= sm <= 12 -> 1 <= sy <= 9999 -> 1 <= em <= 12 -> 1 <= ey <= 9999 ->
  validate_date_range (date_form sm sy em ey)
  = if ey * 12 + em <? sy * 12 + sm then None
    else Some (mkDate sy sm 1, mkDate ey em (days_in_month ey em)).
Proof.
  intros Hsm Hsy Hem Hey. unfold validate_date_range, date_form.
  cbn [start_month start_year end_month end_year].
  rewrite !index_of_month, !int_of_str_of_Z by lia.
  unfold new_datetime. rewrite valid_date_first, valid_date_last by lia.
  replace ((1 <=? em) && (em <=? 12))%bool with true
    by (symmetry; rewrite andb_true_iff, !Z.leb_le; lia).
  pose proof (days_in_month_bounds ey em).
  destruct (Z.ltb_spec (ey * 12 + em) (sy * 12 + sm)) as [Hlt|Hge].
  - replace (dt_lt _ _) with true; [reflexivity|].
    symmetry. apply dt_lt_iff. simpl. lia.
  - replace (dt_lt _ _) with false; [reflexivity|].
    symmetry. apply not_true_is_false. rewrite dt_lt_iff. simpl. lia.
Qed.

Lemma dates_loop_mono step end_date :
  forall fuel current r,
    dates_loop step fuel current end_date = Some r ->
    forall fuel', (fuel <= fuel')%nat ->
      dates_loop step fuel' current end_date = Some r.
Proof.
  induction fuel as [|fuel IH]; intros current r Hr fuel' Hle; [discriminate|].
  destruct fuel' as [|fuel']; [lia|]. cbn [dates_loop] in *.
  destruct (dt_lt current end_date); [|exact Hr].
  destruct (step current) as [next|]; [|exact Hr].
  destruct (dates_loop step fuel next end_date) as [r'|] eqn:Hloop; [|discriminate].
  rewrite (IH _ _ Hloop fuel') by lia. exact Hr.
Qed.

(** X19.  The days of a download of minute data.  With the months and
    years that the form offers, [start_download] refuses a range whose end
    month lies before the start month; otherwise the loop runs, in
    ascending order, over every day from the first of the start month to
    the last day of the end month, that last day left out. *)
Theorem minute_dates_leave_out_last_day (selected_units : list Unit) (sm sy em ey : Z) :
  selected_units <> [] ->
  1 <= sm <= 12 -> 1 <= sy <= 9999 -> 1 <= em <= 12 -> 1 <= ey <= 9999 ->
  exists fuel outcome,
    (forall fuel', (fuel <= fuel')%nat ->
       dates_to_download fuel' "Minute" selected_units (date_form sm sy em ey)
       = Some outcome)
    /\ match outcome with
       | Err msg => ey * 12 + em < sy * 12 + sm /\ msg = "Invalid date range"
       | Ok dates =>
           sy * 12 + sm <= ey * 12 + em
           /\ StronglySorted (fun a b => dt_lt a b = true) dates
           /\ forall d,
                In d dates
                <-> valid d = true
                    /\ sy * 12 + sm <= month_index d <= ey * 12 + em
                    /\ d <> mkDate ey em (days_in_month ey em)
       end.
Proof.
  intros Hunits Hsm Hsy Hem Hey.
  destruct selected_units as [|u units]; [congruence|].
  unfold dates_to_download. rewrite validate_date_form by assumption.
  pose proof (days_in_month_bounds ey em) as Hdim.
  destruct (Z.ltb_spec (ey * 12 + em) (sy * 12 + sm)) as [Hlt|Hge].
  { exists 0%nat, (Err "Invalid date range"). split; [reflexivity|]. now split. }
  set (start_date := mkDate sy sm 1).
  set (end_date := mkDate ey em (days_in_month ey em)).
  assert (Hstart : valid start_date = true) by (now apply valid_date_first).
  assert (Hend : valid end_date = true) by (now apply valid_date_last).
  assert (Hord : ord start_date < ord end_date).
  { unfold month_index, start_date, end_date. simpl. lia. }
  assert (Hlt : dt_lt start_date end_date = true) by (now apply dt_lt_ord).
  rewrite Hlt. cbn [negb]. change ("Minute" =? "Minute")%string with true. cbv iota.
  unfold _get_daily_dates.
  destruct (dates_loop_spec next_day (fun d => valid d = true) end_date)
    with (fuel := S (Z.to_nat (ord end_date - ord start_date))) (current := start_date)
    as (dates & Hloop & Hin & Hsorted); auto.
  { intros d Hd Hlt'. now apply (next_day_next d end_date). }
  { lia. }
  exists (S (Z.to_nat (ord end_date - ord start_date))), (Ok dates). split.
  - intros fuel' Hfuel. rewrite (dates_loop_mono _ _ _ _ _ Hloop fuel' Hfuel).
    destruct dates as [|d0 dates]; [|reflexivity].
    exfalso. apply (Hin start_date). split; [exact Hstart|lia].
  - split; [lia|]. split; [exact Hsorted|].
    intros d. rewrite Hin. clear Hin Hloop Hsorted.
    unfold month_index, start_date, end_date in *. cbn [dt_year dt_month dt_day] in *.
    split.
    + intros (Hd & Hlo & Hhi). split; [exact Hd|].
      apply valid_iff in Hd.
      pose proof (days_in_month_bounds (dt_year d) (dt_month d)).
      split; [lia|]. intros ->. cbn [dt_year dt_month dt_day] in *. lia.
    + intros (Hd & Hrange & Hne). split; [exact Hd|].
      apply valid_iff in Hd.
      pose proof (days_in_month_bounds (dt_year d) (dt_month d)).
      split; [lia|].
      destruct (Z.eq_dec (dt_year d * 12 + dt_month d) (ey * 12 + em)) as [Heq|Hneq];
        [|lia].
      assert (dt_year d = ey /\ dt_month d = em) as [Hy Hm] by lia.
      rewrite Hy, Hm in Hd.
      destruct (Z.eq_dec (dt_day d) (days_in_month ey em)) as [Hday|Hday]; [|lia].
      exfalso. apply Hne. destruct d as [y m day]; simpl in *. congruence.
Qed.

(** X20.  The months of a download of hour data.  [start_download]
    refuses a range whose end month lies before the start month, and with
    one and the same month at both ends it stops with the message that
    there are no dates to download; otherwise the loop runs, in ascending
    order, over the first days of the months from the start month to the
    month before the end month: the end month is never downloaded. *)
Theorem hour_dates_leave_out_end_month (selected_units : list Unit) (sm sy em ey : Z) :
  selected_units <> [] ->
  1 <= sm <= 12 -> 1 <= sy <= 9999 -> 1 <= em <= 12 -> 1 <= ey <= 9999 ->
  exists fuel outcome,
    (forall fuel', (fuel <= fuel')%nat ->
       dates_to_download fuel' "Hour" selected_units (date_form sm sy em ey)
       = Some outcome)
    /\ match outcome with
       | Err msg =>
           (ey * 12 + em < sy * 12 + sm /\ msg = "Invalid date range")
           \/ (ey * 12 + em = sy * 12 + sm
               /\ msg = "No dates to download in the specified range")
       | Ok dates =>
           sy * 12 + sm < ey * 12 + em
           /\ StronglySorted (fun a b => dt_lt a b = true) dates
           /\ forall d,
                In d dates
                <-> first_day d /\ sy * 12 + sm <= month_index d < ey * 12 + em
       end.
Proof.
  intros Hunits Hsm Hsy Hem Hey.
  destruct selected_units as [|u units]; [congruence|].
  unfold dates_to_download. rewrite validate_date_form by assumption.
  pose proof (days_in_month_bounds ey em) as Hdim.
  destruct (Z.ltb_spec (ey * 12 + em) (sy * 12 + sm)) as [Hlt|Hge].
  { exists 0%nat, (Err "Invalid date range"). split; [reflexivity|]. left. now split. }
  set (start_date := mkDate sy sm 1).
  set (end_date := mkDate ey em (days_in_month ey em)).
  assert (Hstart : valid start_date = true) by (now apply valid_date_first).
  assert (Hend : valid end_date = true) by (now apply valid_date_last).
  assert (Hord : ord start_date < ord end_date).
  { unfold month_index, start_date, end_date. simpl. lia. }
  assert (Hlt : dt_lt start_date end_date = true) by (now apply dt_lt_ord).
  rewrite Hlt. cbn [negb]. change ("Hour" =? "Minute")%string with false. cbv iota.
  unfold _get_monthly_dates.
  change (first_of_month start_date) with start_date.
  set (end_month := first_of_month end_date).
  assert (Hend1 : first_day end_month).
  { split; [now apply valid_date_first|reflexivity]. }
  assert (Hstart1 : first_day start_date) by (split; [exact Hstart|reflexivity]).
  destruct (dates_loop_spec next_month first_day end_month)
    with (fuel := S (Z.to_nat (ord end_month - ord start_date))) (current := start_date)
    as (dates & Hloop & Hin & Hsorted); auto.
  { now intros d [Hd _]. }
  { intros d Hd Hlt'. now apply (next_month_next d end_month). }
  { lia. }
  assert (Hin' : forall d, In d dates
                   <-> first_day d /\ sy * 12 + sm <= month_index d < ey * 12 + em).
  { intros d. rewrite Hin.
    unfold month_index, start_date, end_month, end_date, first_of_month.
    cbn [dt_year dt_month dt_day].
    split; intros ([Hd Hd1] & Hrange); (split; [now split|]); lia. }
  destruct dates as [|d0 dates].
  - exists (S (Z.to_nat (ord end_month - ord start_date))),
      (Err "No dates to download in the specified range").
    split.
    + intros fuel' Hfuel. now rewrite (dates_loop_mono _ _ _ _ _ Hloop fuel' Hfuel).
    + right. split; [|reflexivity].
      destruct (Z.eq_dec (ey * 12 + em) (sy * 12 + sm)) as [Heq|Hne]; [exact Heq|].
      exfalso. apply (Hin' start_date). split; [exact Hstart1|].
      unfold month_index, start_date. simpl. lia.
  - exists (S (Z.to_nat (ord end_month - ord start_date))), (Ok (d0 :: dates)).
    split.
    + intros fuel' Hfuel. now rewrite (dates_loop_mono _ _ _ _ _ Hloop fuel' Hfuel).
    + split; [|split; [exact Hsorted|exact Hin']].
      assert (In d0 (d0 :: dates)) as Hd0 by (now left).
      apply Hin' in Hd0. lia.
Qed.

End DateRange.

(** ** The order of the downloaded files *)

Section DateOrder.

Import QualityChecker.

Lemma run_of_digits d :
  all_chars is_digit d = true ->
  forall cur rest,
    split_digit_runs (d +:+ rest) cur true = split_digit_runs rest (cur +:+ d) true.
Proof.
  induction d as [|c d IH]; intros Hd cur rest.
  - now rewrite append_nil_r.
  - simpl in Hd. apply andb_true_iff in Hd as [Hc Hd].
    cbn [String.append split_digit_runs]. rewrite Hc, (IH Hd).
    now rewrite append_snoc.
Qed.

Lemma number_part text cur rest :
  isdigit text = true ->
  split_digit_runs (text +:+ rest) cur false = cur :: split_digit_runs rest text true.
Proof.
  destruct text as [|c d]; [discriminate|]. intros Hd.
  unfold isdigit in Hd. simpl in Hd. apply andb_true_iff in Hd as [Hc Hd].
  cbn [String.append split_digit_runs]. rewrite Hc. now rewrite (run_of_digits d Hd).
Qed.

Lemma scan_prefix p :
  forall cur in_run,
    exists toks cur',
      isdigit cur' = false
      /\ forall rest,
           split_digit_runs ((p +:+ "_") +:+ rest) cur in_run
           = (toks ++ split_digit_runs rest cur' false)%list.
Proof.
  induction p as [|a p IH]; intros cur in_run.
  - destruct in_run.
    + exists [cur], "_". split; [reflexivity|]. reflexivity.
    + exists [], (cur +:+ "_"). split; [now apply isdigit_snoc_other|]. reflexivity.
  - cbn [String.append split_digit_runs]. destruct (is_digit a), in_run.
    + apply IH.
    + destruct (IH (String a "") true) as (toks & cur' & Hcur' & Hsplit).
      exists (cur :: toks), cur'. split; [exact Hcur'|].
      intros rest. now rewrite Hsplit.
    + destruct (IH (String a "") false) as (toks & cur' & Hcur' & Hsplit).
      exists (cur :: toks), cur'. split; [exact Hcur'|].
      intros rest. now rewrite Hsplit.
    + apply IH.
Qed.

Lemma key_of_part_total text : exists k, key_of_part text = Ok k.
Proof.
  destruct (isdigit text) eqn:Hd.
  - destruct (key_of_part_digits text Hd) as (n & _ & Hn). eauto.
  - rewrite (key_of_part_text text Hd). eauto.
Qed.

Lemma keys_total parts : exists k, map_result key_of_part parts = Ok k.
Proof.
  induction parts as [|text parts [k Hk]]; [now exists []|].
  destruct (key_of_part_total text) as [x Hx]. exists (x :: k).
  simpl. now rewrite Hx, Hk.
Qed.

Lemma map_result_app {A B} (f : A -> result B) l1 l2 k1 k2 :
  map_result f l1 = Ok k1 -> map_result f l2 = Ok k2 ->
  map_result f (l1 ++ l2)%list = Ok (k1 ++ k2)%list.
Proof.
  revert k1. induction l1 as [|a l1 IH]; intros k1 H1 H2; simpl in *.
  - injection H1 as <-. exact H2.
  - destruct (f a); [|discriminate].
    destruct (map_result f l1) eqn:Hl1; [|discriminate].
    injection H1 as <-. now rewrite (IH _ eq_refl H2).
Qed.

Lemma key_lt_app k a b : key_lt (k ++ a)%list (k ++ b)%list = key_lt a b.
Proof.
  induction k as [|[n|s] k IH]; simpl; [reflexivity| |].
  - now rewrite Z.eqb_refl.
  - now rewrite String.eqb_refl.
Qed.

Lemma all_digits_uint d : all_chars is_digit (NilEmpty.string_of_uint d) = true.
Proof. induction d; simpl; auto. Qed.

Lemma number_text n :
  0 <= n -> isdigit (PyStr.str_of_Z n) = true
            /\ key_of_part (PyStr.str_of_Z n) = Ok (KInt n).
Proof.
  intros Hn.
  assert (Hd : isdigit (PyStr.str_of_Z n) = true).
  { unfold PyStr.str_of_Z. destruct n as [|p|p]; [reflexivity| |lia].
    simpl. pose proof (DecimalPos.Unsigned.to_uint_nonnil p) as Hnil.
    destruct (Pos.to_uint p) eqn:Hp; try congruence;
      rewrite <- Hp; unfold isdigit;
      pose proof (all_digits_uint (Pos.to_uint p)) as Hall;
      rewrite Hp in *; simpl in *; exact Hall. }
  split; [exact Hd|]. unfold key_of_part. now rewrite Hd, int_of_str_of_Z.
Qed.

Lemma two_digits_text n :
  0 <= n -> isdigit (two_digits n) = true /\ key_of_part (two_digits n) = Ok (KInt n).
Proof.
  intros Hn. unfold two_digits. destruct (Z.ltb_spec n 10) as [Hlt|Hge].
  - assert (Hcases : In n (map Z.of_nat (seq 0 10))) by (simpl; lia).
    simpl in Hcases.
    repeat (destruct Hcases as [<-|Hcases]; [split; reflexivity|]).
    destruct Hcases.
  - apply number_text. lia.
Qed.

Lemma output_file_parts output_dir u period :
  output_file output_dir u period
  = (((output_dir +:+ "/UNIT " +:+ PyStr.str_of_Z (unit_no u))
      +:+ "/Unit_" +:+ PyStr.str_of_Z (unit_no u)) +:+ "_")
    +:+ (period +:+ ".csv").
Proof. unfold output_file. now rewrite !append_assoc. Qed.

(** The key of a file name that ends in an underscore, a day and [.csv]. *)
Lemma day_name_key p :
  exists k c, forall d,
    valid d = true ->
    natural_sort_key ((p +:+ "_") +:+ (strftime_day d +:+ ".csv"))
    = Ok (k ++ [KStr c; KInt (dt_year d); KStr "-"; KInt (dt_month d); KStr "-";
                KInt (dt_day d); KStr ".csv"])%list.
Proof.
  destruct (scan_prefix p "" false) as (toks & cur' & Hcur' & Hsplit).
  destruct (keys_total toks) as [k Hk].
  exists k, (PyStr.lower cur'). intros d Hd. apply valid_iff in Hd.
  destruct (number_text (dt_year d)) as [Hy Hky]; [lia|].
  destruct (two_digits_text (dt_month d)) as [Hm Hkm]; [lia|].
  destruct (two_digits_text (dt_day d)) as [Hday Hkd]; [lia|].
  unfold natural_sort_key, strftime_day. rewrite Hsplit, !append_assoc.
  rewrite (number_part _ _ _ Hy).
  change ("-" +:+ ?x) with (String "-" x). cbn [split_digit_runs].
  change (is_digit "-") with false. cbv iota.
  rewrite (number_part _ _ _ Hm).
  change ("-" +:+ ?x) with (String "-" x). cbn [split_digit_runs].
  change (is_digit "-") with false. cbv iota.
  rewrite (number_part _ _ _ Hday).
  change (split_digit_runs ".csv" (two_digits (dt_day d)) true)
    with [two_digits (dt_day d); ".csv"].
  apply (map_result_app _ _ _ _ _ Hk).
  cbn [map_result]. rewrite (key_of_part_text cur' Hcur'), Hky, Hkm, Hkd.
  reflexivity.
Qed.

Lemma month_name_key p :
  exists k c, forall d,
    valid d = true ->
    natural_sort_key ((p +:+ "_") +:+ (strftime_month d +:+ ".csv"))
    = Ok (k ++ [KStr c; KInt (dt_year d); KStr "-"; KInt (dt_month d);
                KStr ".csv"])%list.
Proof.
  destruct (scan_prefix p "" false) as (toks & cur' & Hcur' & Hsplit).
  destruct (keys_total toks) as [k Hk].
  exists k, (PyStr.lower cur'). intros d Hd. apply valid_iff in Hd.
  destruct (number_text (dt_year d)) as [Hy Hky]; [lia|].
  destruct (two_digits_text (dt_month d)) as [Hm Hkm]; [lia|].
  unfold natural_sort_key, strftime_month. rewrite Hsplit, !append_assoc.
  rewrite (number_part _ _ _ Hy).
  change ("-" +:+ ?x) with (String "-" x). cbn [split_digit_runs].
  change (is_digit "-") with false. cbv iota.
  rewrite (number_part _ _ _ Hm).
  change (split_digit_runs ".csv" (two_digits (dt_month d)) true)
    with [two_digits (dt_month d); ".csv"].
  apply (map_result_app _ _ _ _ _ Hk).
  cbn [map_result]. rewrite (key_of_part_text cur' Hcur'), Hky, Hkm.
  reflexivity.
Qed.

(** X17.  The files that the download loop writes for one device sort by
    date under the natural order that [combine_data] uses: the file of an
    earlier day (minute data) or of an earlier month (hour data) has the
    smaller key, whatever the ASCII name of the output folder and the
    device number are. *)
Theorem downloaded_files_sort_by_date (output_dir data_type : string) (u : Unit)
    (a b : datetime) :
  ascii_text output_dir = true ->
  valid a = true -> valid b = true -> dt_lt a b = true ->
  data_type = "Minute" \/ dt_day a = dt_day b ->
  exists ka kb,
    natural_sort_key (output_file output_dir u (date_str data_type a)) = Ok ka
    /\ natural_sort_key (output_file output_dir u (date_str data_type b)) = Ok kb
    /\ key_lt ka kb = Ok true.
Proof.
  intros _ Ha Hb Hlt Htype. rewrite !output_file_parts. unfold date_str.
  apply dt_lt_iff in Hlt.
  destruct (String.eqb data_type "Minute") eqn:Hminute.
  - destruct (day_name_key ((output_dir +:+ "/UNIT " +:+ PyStr.str_of_Z (unit_no u))
                            +:+ "/Unit_" +:+ PyStr.str_of_Z (unit_no u)))
      as (k & c & Hkey).
    eexists _, _. split; [now apply Hkey|]. split; [now apply Hkey|].
    rewrite key_lt_app. cbn [key_lt]. rewrite !String.eqb_refl.
    destruct (Z.eqb_spec (dt_year a) (dt_year b)) as [Hy|Hy];
      [|f_equal; apply Z.ltb_lt; lia].
    destruct (Z.eqb_spec (dt_month a) (dt_month b)) as [Hm|Hm];
      [|f_equal; apply Z.ltb_lt; lia].
    destruct (Z.eqb_spec (dt_day a) (dt_day b)) as [Hd|Hd]; [lia|].
    f_equal. apply Z.ltb_lt. lia.
  - destruct Htype as [->|Hday]; [discriminate|].
    destruct (month_name_key ((output_dir +:+ "/UNIT " +:+ PyStr.str_of_Z (unit_no u))
                              +:+ "/Unit_" +:+ PyStr.str_of_Z (unit_no u)))
      as (k & c & Hkey).
    eexists _, _. split; [now apply Hkey|]. split; [now apply Hkey|].
    rewrite key_lt_app. cbn [key_lt]. rewrite !String.eqb_refl.
    destruct (Z.eqb_spec (dt_year a) (dt_year b)) as [Hy|Hy];
      [|f_equal; apply Z.ltb_lt; lia].
    destruct (Z.eqb_spec (dt_month a) (dt_month b)) as [Hm|Hm]; [lia|].
    f_equal. apply Z.ltb_lt. lia.
Qed.

End DateOrder.

(** ** Combined files *)

Section Combining.

Context `{Pandas}.

Lemma combine_fix_order_cases df :
  BulkDownloadGUI.combine_fix_order df = df
  \/ BulkDownloadGUI.combine_fix_order df = df_reverse df.
Proof.
  unfold BulkDownloadGUI.combine_fix_order.
  destruct (negb (df_empty df) && (1 <? df_len df)%nat); [|now left].
  destruct (iloc_col0 df) as [|v0 [|v1 l]]; try (now left).
  destruct (to_datetime v0) as [t0|]; [|now left].
  destruct (to_datetime v1) as [t1|]; [|now left].
  destruct (ts_gt t0 t1); [now right|now left].
Qed.

Lemma combine_fix_order_rows df :
  Permutation (rows (BulkDownloadGUI.combine_fix_order df)) (rows df).
Proof.
  destruct (combine_fix_order_cases df) as [->| ->]; [reflexivity|].
  simpl. symmetry. apply Permutation_rev.
Qed.

Lemma combine_fix_order_columns df :
  columns (BulkDownloadGUI.combine_fix_order df) = columns df.
Proof. destruct (combine_fix_order_cases df) as [->| ->]; reflexivity. Qed.

Lemma fixed_rows frames :
  Permutation (concat (map rows (map BulkDownloadGUI.combine_fix_order frames)))
              (concat (map rows frames)).
Proof.
  induction frames as [|df frames IH]; simpl; [reflexivity|].
  apply Permutation_app; [apply combine_fix_order_rows|exact IH].
Qed.

Lemma read_frames_perm l l' :
  Permutation l l' -> Permutation (read_frames l) (read_frames l').
Proof. apply Permutation_flat_map. Qed.

Lemma concat_rows_perm (l l' : list DataFrame) :
  Permutation l l' -> Permutation (concat (map rows l)) (concat (map rows l')).
Proof.
  intros Hperm. rewrite <- !flat_map_concat_map. now apply Permutation_flat_map.
Qed.

(** X18.  The combined file of a device whose folder and files have ASCII
    names.  When the csv files of the folder that can be read share one
    header, [combine_data] writes a table with
    that header whose rows are the rows of these files, each as often as
    it occurs in them; a file that cannot be read is left out and does not
    stop the others.  Nothing is written exactly when no csv file of the
    folder can be read. *)
Theorem combine_unit_keeps_rows (unit_dir : string)
    (listing : list (string * result DataFrame)) (header : list string) :
  ascii_text unit_dir = true ->
  Forall (fun entry => ascii_text (fst entry) = true) listing ->
  Forall (fun df => columns df = header) (read_frames (csv_files unit_dir listing)) ->
  match combine_unit unit_dir listing with
  | None => read_frames (csv_files unit_dir listing) = []
  | Some combined =>
      columns combined = header
      /\ Permutation (rows combined)
                     (concat (map rows (read_frames (csv_files unit_dir listing))))
  end.
Proof.
  intros _ _ Hheader. unfold combine_unit.
  destruct (csv_files unit_dir listing) as [|file files] eqn:Hfiles; [reflexivity|].
  destruct (sort_natural_spec fst (file :: files)) as (sorted & -> & Hperm & _).
  pose proof (read_frames_perm _ _ Hperm) as Hframes.
  destruct (read_frames sorted) as [|df frames] eqn:Hread.
  - simpl. apply Permutation_sym, Permutation_nil in Hframes. exact Hframes.
  - cbn [map]. split.
    + cbn [df_concat columns]. rewrite combine_fix_order_columns.
      eapply Permutation_Forall in Hheader; [|exact Hframes].
      now apply List.Forall_cons_iff in Hheader as [Hdf _].
    + change (rows (df_concat (?a :: ?l))) with (concat (map rows (a :: l))).
      change (BulkDownloadGUI.combine_fix_order df
              :: map BulkDownloadGUI.combine_fix_order frames)
        with (map BulkDownloadGUI.combine_fix_order (df :: frames)).
      rewrite fixed_rows. symmetry. now apply concat_rows_perm.
Qed.

End Combining.

(** ** Generated reports *)

Section GeneratedReports.
Context `{Pandas} `{Rules}.
Import QualityChecker Reporting Generating.

(** A device with a channel column has results for every month. *)
Lemma process_data_results units tree unit_no cfg listing month :
  dict_get units unit_no = Some cfg ->
  tree !! unit_no = Some listing ->
  rep_columns (new_report units unit_no) <> [] ->
  exists x xs, process_data units tree unit_no month = Ok (Some (x :: xs)).
Proof.
  intros Hcfg Htree Hcols. unfold process_data. rewrite Hcfg, Htree.
  destruct (init_results_spec cfg (map fst channel_registry) [])
    as (Hc0 & Hk0 & _); [constructor|].
  destruct (add_files_spec cfg month listing _ Hc0) as (_ & Hk & _).
  destruct (add_files cfg month listing
              (init_results cfg (map fst channel_registry) [])) as [|x xs] eqn:Hres;
    [|now exists x, xs].
  exfalso. apply Hcols. unfold new_report. rewrite Hcfg. cbn [rep_columns].
  destruct (List.filter (fun ch => monitored cfg ch) (map fst channel_registry))
    as [|ch chs] eqn:Hfil; [reflexivity|].
  assert (Hin : In ch (List.filter (fun ch => monitored cfg ch)
                         (map fst channel_registry))) by (rewrite Hfil; now left).
  apply filter_In in Hin as [Hreg Hmon].
  assert (Hkey : In ch (map fst (@nil (string * list Z)))).
  { apply Hk, Hk0. right. now split. }
  destruct Hkey.
Qed.

Lemma set_row_columns r month results :
  rep_columns (set_row r month results) = rep_columns r.
Proof. unfold set_row. now destruct (mem month (rep_index r)). Qed.

Lemma set_row_index r month results :
  rep_index (set_row r month results)
  = if mem month (rep_index r) then rep_index r else (rep_index r ++ [month])%list.
Proof.
  unfold set_row. destruct (mem month (rep_index r)).
  - unfold rep_index. cbn [rep_rows]. rewrite map_map.
    apply map_ext. intros [label cells]. cbn [fst].
    destruct (String.eqb_spec label month) as [->|Hne]; reflexivity.
  - unfold rep_index, add_row. cbn [rep_rows]. now rewrite map_app.
Qed.

Lemma set_row_rows r month results label cells :
  In (label, cells) (rep_rows (set_row r month results)) ->
  In (label, cells) (rep_rows r)
  \/ (label = month
      /\ cells = map (fun ch => _format_quality_result (dict_get results ch))
                     (rep_columns r)).
Proof.
  unfold set_row. destruct (mem month (rep_index r)); cbn [rep_rows].
  - intros Hin. apply in_map_iff in Hin as ([l c] & Heq & Hin). cbn [fst] in Heq.
    destruct (String.eqb l month).
    + right. inversion Heq. auto.
    + left. now inversion Heq; subst.
  - unfold add_row. cbn [rep_rows]. intros Hin. apply in_app_or in Hin as [Hin|Hin].
    + now left.
    + right. destruct Hin as [Heq|[]]. inversion Heq. auto.
Qed.

Lemma set_row_formatted r month results :
  formatted_report r -> formatted_report (set_row r month results).
Proof.
  intros Hfmt. unfold formatted_report in *. apply List.Forall_forall.
  intros [label cells] Hin. cbn [snd].
  apply set_row_rows in Hin as [Hin|[_ ->]].
  - rewrite List.Forall_forall in Hfmt. exact (Hfmt _ Hin).
  - apply List.Forall_forall. intros text Htext.
    apply in_map_iff in Htext as (ch & <- & _). eexists. reflexivity.
Qed.

Lemma set_row_inv units tree unit_no r month results :
  process_data units tree unit_no month = Ok (Some results) ->
  report_inv units tree unit_no r ->
  report_inv units tree unit_no (set_row r month results).
Proof.
  intros Hres (Hnodup & Hfmt & Hrows). split; [|split].
  - rewrite set_row_index. destruct (mem month (rep_index r)) eqn:Hmem; [exact Hnodup|].
    apply List.NoDup_app; [exact Hnodup| |].
    + constructor; [intros []|constructor].
    + intros x Hx [->|[]]. apply mem_In in Hx. congruence.
  - now apply set_row_formatted.
  - intros label cells Hin. rewrite set_row_columns.
    apply set_row_rows in Hin as [Hin|[-> ->]]; [now apply Hrows|].
    now exists results.
Qed.

Lemma report_files_spec units tree unit_no cfg listing :
  dict_get units unit_no = Some cfg ->
  tree !! unit_no = Some listing ->
  forall names r,
    rep_columns r = rep_columns (new_report units unit_no) ->
    report_inv units tree unit_no r ->
    rep_columns (report_files units tree unit_no names r) = rep_columns r
    /\ report_inv units tree unit_no (report_files units tree unit_no names r)
    /\ forall month,
         In month (rep_index (report_files units tree unit_no names r))
         <-> In month (rep_index r)
             \/ (rep_columns r <> []
                 /\ exists file, In file names /\ file_month file = Some month).
Proof.
  intros Hcfg Htree. induction names as [|file names IH]; intros r Hcols Hinv.
  - cbn [report_files]. split; [reflexivity|]. split; [exact Hinv|].
    intros month. split; [now left|]. intros [Hin|(_ & f & [] & _)]. exact Hin.
  - cbn [report_files]. destruct (file_month file) as [m|] eqn:Hmonth.
    2: { destruct (IH r Hcols Hinv) as (Hc & Hi & Hidx).
         split; [exact Hc|]. split; [exact Hi|]. intros month. rewrite Hidx.
         split; intros [Hin|(Hne & f & Hf & Hfm)]; auto.
         - right. split; [exact Hne|]. exists f. split; [now right|exact Hfm].
         - destruct Hf as [->|Hf]; [congruence|].
           right. split; [exact Hne|]. now exists f. }
    destruct (rep_columns r) as [|c cs] eqn:Hr.
    + assert (Hsame : match process_data units tree unit_no m with
                      | Ok (Some (_ :: _)) => r
                      | _ => r
                      end = r).
      { destruct (process_data units tree unit_no m) as [[[|x xs]|]|]; reflexivity. }
      rewrite Hsame.
      destruct (IH r) as (Hc & Hi & Hidx); [now rewrite Hr|exact Hinv|].
      split; [now rewrite Hc|]. split; [exact Hi|]. intros month. rewrite Hidx, Hr.
      split; intros [Hin|(Hne & _)]; auto; congruence.
    + destruct (process_data_results units tree unit_no cfg listing m Hcfg Htree)
        as (x & xs & Hres); [rewrite <- Hcols; discriminate|].
      rewrite Hres.
      destruct (IH (set_row r m (x :: xs))) as (Hc & Hi & Hidx).
      { now rewrite set_row_columns, Hr. }
      { now apply set_row_inv. }
      rewrite set_row_columns, Hr in Hc.
      split; [exact Hc|]. split; [exact Hi|]. intros month. rewrite Hidx.
      rewrite set_row_index, set_row_columns, Hr.
      assert (Hcons : c :: cs <> []) by discriminate.
      split.
      * intros [Hin|(_ & f & Hf & Hfm)].
        -- destruct (mem m (rep_index r)) eqn:Hmem; [now left|].
           apply in_app_or in Hin as [Hin|[<-|[]]]; [now left|].
           right. split; [exact Hcons|]. exists file. split; [now left|exact Hmonth].
        -- right. split; [exact Hcons|]. exists f. split; [now right|exact Hfm].
      * intros [Hin|(_ & f & [->|Hf] & Hfm)].
        -- left. destruct (mem m (rep_index r)); [exact Hin|].
           apply in_or_app. now left.
        -- left. assert (m = month) as -> by congruence.
           destruct (mem month (rep_index r)) eqn:Hmem; [now apply mem_In|].
           apply in_or_app. right. now left.
        -- right. split; [exact Hcons|]. now exists f.
Qed.


Lemma report_empty_false r :
  report_empty r = false <-> rep_columns r <> [] /\ rep_rows r <> [].
Proof.
  unfold report_empty. destruct (rep_columns r), (rep_rows r); split;
    try discriminate; try (intros [? ?]; congruence); auto.
Qed.

Lemma sort_index_inv units tree unit_no r :
  report_inv units tree unit_no r -> report_inv units tree unit_no (sort_index r).
Proof.
  intros (Hnodup & Hfmt & Hrows).
  assert (Hperm : Permutation (rep_rows (sort_index r)) (rep_rows r))
    by apply (sorted_by_perm String.leb fst).
  split; [|split].
  - eapply Permutation_NoDup; [|exact Hnodup].
    unfold rep_index. symmetry. now apply Permutation_map.
  - now apply formatted_sort_index.
  - intros month cells Hin. apply Hrows.
    eapply Permutation_in; [exact Hperm|exact Hin].
Qed.

Lemma generate_unit_spec units tree unit_no cfg listing :
  dict_get units unit_no = Some cfg ->
  tree !! unit_no = Some listing ->
  exists outcome,
    generate_unit units tree unit_no = Ok outcome
    /\ match outcome with
       | None =>
           rep_columns (new_report units unit_no) = []
           \/ forall file, In file (csv_names listing) -> file_month file = None
       | Some saved =>
           rep_columns saved = rep_columns (new_report units unit_no)
           /\ report_inv units tree unit_no saved
           /\ forall month,
                In month (rep_index saved)
                <-> exists file,
                      In file (csv_names listing) /\ file_month file = Some month
       end.
Proof.
  intros Hcfg Htree. unfold generate_unit. rewrite Htree, Hcfg.
  destruct (csv_names listing) as [|file files] eqn:Hfiles.
  { exists None. split; [reflexivity|]. right. intros f []. }
  set (r0 := new_report units unit_no).
  assert (Hinv0 : report_inv units tree unit_no r0).
  { split; [constructor|]. split; [constructor|]. intros month cells []. }
  destruct (report_files_spec units tree unit_no cfg listing Hcfg Htree
              (file :: files) r0 eq_refl Hinv0) as (Hc & Hi & Hidx).
  set (r := report_files units tree unit_no (file :: files) r0) in *.
  destruct (report_empty r) eqn:Hempty.
  - exists None. split; [reflexivity|].
    destruct (rep_columns r0) as [|c cs] eqn:Hcols0; [now left|]. right.
    intros f Hf. destruct (file_month f) as [m|] eqn:Hm; [|reflexivity].
    exfalso.
    assert (Hin : In m (rep_index r)).
    { apply Hidx. right. split; [discriminate|]. now exists f. }
    unfold report_empty in Hempty. rewrite Hc in Hempty.
    unfold rep_index in Hin. destruct (rep_rows r); [destruct Hin|discriminate].
  - apply report_empty_false in Hempty as [Hcols Hrows].
    destruct Hi as (Hnodup & Hfmt & Hcells).
    destruct (formatting_total (sort_index r) (formatted_sort_index r Hfmt))
      as (ws & -> & _).
    exists (Some (sort_index r)). split; [reflexivity|].
    split; [exact Hc|]. split; [apply sort_index_inv; now repeat split|].
    intros month.
    assert (Hperm : Permutation (rep_index (sort_index r)) (rep_index r)).
    { unfold rep_index. apply Permutation_map, (sorted_by_perm String.leb fst). }
    split.
    + intros Hin. apply (Permutation_in _ Hperm), Hidx in Hin.
      destruct Hin as [[]|(_ & f & Hf & Hm)]. now exists f.
    + intros (f & Hf & Hm). apply (Permutation_in _ (Permutation_sym Hperm)).
      apply Hidx. right. split; [now rewrite <- Hc|]. now exists f.
Qed.

Lemma length_append s t :
  String.length (s +:+ t) = (String.length s + String.length t)%nat.
Proof. induction s as [|a s IH]; simpl; congruence. Qed.

Lemma drop_append s t : PyStr.drop (String.length s) (s +:+ t) = t.
Proof. induction s as [|a s IH]; simpl; [now destruct t|exact IH]. Qed.

Lemma endswith_append s p : PyStr.endswith p (s +:+ p) = true.
Proof.
  unfold PyStr.endswith. rewrite length_append.
  replace (String.length s + String.length p - String.length p)%nat
    with (String.length s) by lia.
  rewrite drop_append, String.eqb_refl, andb_true_r. apply Nat.leb_le. lia.
Qed.

Lemma combined_name_csv n :
  PyStr.endswith ".csv" (unit_file_name n "combined") = true.
Proof.
  unfold unit_file_name.
  replace ("Unit_" +:+ PyStr.str_of_Z n +:+ "_" +:+ "combined" +:+ ".csv")
    with (("Unit_" +:+ PyStr.str_of_Z n +:+ "_" +:+ "combined") +:+ ".csv")
    by (now rewrite !append_assoc).
  apply endswith_append.
Qed.

Lemma combined_name_month n : file_month (unit_file_name n "combined") = Some "combine".
Proof.
  unfold file_month, unit_file_name.
  replace ("Unit_" +:+ PyStr.str_of_Z n +:+ "_" +:+ "combined" +:+ ".csv")
    with (("Unit_" +:+ PyStr.str_of_Z n) +:+ String "_" "combined.csv")
    by (now rewrite !append_assoc).
  rewrite split_last_segment by reflexivity. reflexivity.
Qed.



Lemma contains_append p s t :
  PyStr.contains p t = true -> PyStr.contains p (s +:+ t) = true.
Proof.
  intros Ht. induction s as [|a s IH]; [exact Ht|].
  cbn [String.append PyStr.contains]. rewrite IH. apply orb_true_r.
Qed.

Lemma combined_name_counts n :
  PyStr.contains "combine" (unit_file_name n "combined") = true.
Proof.
  unfold unit_file_name.
  replace ("Unit_" +:+ PyStr.str_of_Z n +:+ "_" +:+ "combined" +:+ ".csv")
    with (("Unit_" +:+ PyStr.str_of_Z n +:+ "_") +:+ "combined.csv")
    by (now rewrite !append_assoc).
  now apply contains_append.
Qed.

Lemma one_label (l : list string) (a : string) :
  List.NoDup l -> (forall x, In x l <-> x = a) -> l = [a].
Proof.
  intros Hnodup Hin. destruct l as [|x [|y l]].
  - exfalso. now apply (Hin a).
  - f_equal. apply Hin. now left.
  - exfalso. assert (x = a) as -> by (apply Hin; now left).
    assert (y = a) as -> by (apply Hin; right; now left).
    inversion Hnodup as [|? ? Hnot _]. apply Hnot. now left.
Qed.

(** X22.  After [combine_data] the folder of a device holds the combined
    file alone, and [generate_quality_report] reads the period from the
    file name: the report then has the single row [combine], whose cells
    count the rows of the whole combined table, whatever months the
    table covers. *)
Theorem combined_report_has_one_row (units : list (Z * UnitConfig))
    (tree : gmap Z Listing) (unit_no : Z) (cfg : UnitConfig) (combined : DataFrame) :
  dict_get units unit_no = Some cfg ->
  tree !! unit_no = Some (combined_folder unit_no combined) ->
  rep_columns (new_report units unit_no) <> [] ->
  let results :=
    add_file cfg combined (map fst channel_registry)
             (init_results cfg (map fst channel_registry) []) in
  process_data units tree unit_no "combine" = Ok (Some results)
  /\ generate_unit units tree unit_no
     = Ok (Some (mkReport (rep_columns (new_report units unit_no))
                   [("combine",
                     map (fun ch => _format_quality_result (dict_get results ch))
                         (rep_columns (new_report units unit_no)))])).
Proof.
  intros Hcfg Htree Hcols results.
  assert (Hres : process_data units tree unit_no "combine" = Ok (Some results)).
  { unfold process_data. rewrite Hcfg, Htree. unfold combined_folder.
    cbn [add_files]. now rewrite combined_name_counts, combined_name_csv. }
  split; [exact Hres|].
  destruct (generate_unit_spec units tree unit_no cfg _ Hcfg Htree)
    as (outcome & -> & Hout).
  assert (Hnames : csv_names (combined_folder unit_no combined)
                   = [unit_file_name unit_no "combined"]).
  { unfold csv_names, combined_folder. cbn [map fst List.filter].
    now rewrite combined_name_csv. }
  rewrite Hnames in Hout.
  destruct outcome as [saved|].
  2: { exfalso. destruct Hout as [Hnone|Hnone]; [now apply Hcols|].
       specialize (Hnone _ (or_introl eq_refl)).
       rewrite combined_name_month in Hnone. discriminate. }
  destruct Hout as (Hc & (Hnodup & _ & Hrows) & Hidx).
  assert (Hindex : rep_index saved = ["combine"]).
  { apply one_label; [exact Hnodup|]. intros x. rewrite Hidx. split.
    - intros (f & [<-|[]] & Hm). rewrite combined_name_month in Hm. congruence.
    - intros ->. eexists. split; [now left|apply combined_name_month]. }
  destruct saved as [cols rows]. cbn [rep_columns rep_rows rep_index] in *.
  destruct rows as [|[label cells] [|row rows]]; try discriminate.
  cbn [map fst] in Hindex. injection Hindex as ->.
  destruct (Hrows "combine" cells (or_introl eq_refl)) as (results' & Hres' & ->).
  rewrite Hres in Hres'. injection Hres' as <-. now rewrite Hc.
Qed.

Lemma generate_unit_total units tree unit_no :
  (exists cfg, dict_get units unit_no = Some cfg) ->
  exists outcome, generate_unit units tree unit_no = Ok outcome.
Proof.
  intros [cfg Hcfg]. destruct (tree !! unit_no) as [listing|] eqn:Htree.
  - destruct (generate_unit_spec units tree unit_no cfg listing Hcfg Htree)
      as (outcome & Hrun & _). now exists outcome.
  - exists None. unfold generate_unit. now rewrite Htree.
Qed.

(** X23.  [generate_quality_report] over devices that the checker has
    runs to its end without an exception.  Afterwards a selected device
    has the report that the loop body saves for it, or the report it had
    when the body saves none, and the report of every other device is
    as it was. *)
Theorem generate_quality_report_completes (units : list (Z * UnitConfig))
    (tree : gmap Z Listing) (selected_units : list Z) (reports : gmap Z Report) :
  (forall n, In n selected_units -> exists cfg, dict_get units n = Some cfg) ->
  exists reports',
    generate_quality_report units tree selected_units reports = (reports', None)
    /\ forall n,
         (~ In n selected_units -> reports' !! n = reports !! n)
         /\ (In n selected_units ->
             reports' !! n = match generate_unit units tree n with
                             | Ok (Some saved) => Some saved
                             | _ => reports !! n
                             end).
Proof.
  revert reports. induction selected_units as [|k rest IH]; intros reports Hknown.
  - exists reports. split; [reflexivity|]. intros n. split; [reflexivity|intros []].
  - cbn [generate_quality_report].
    destruct (generate_unit_total units tree k) as [outcome Hk];
      [apply Hknown; now left|].
    rewrite Hk.
    assert (Hrest : forall n, In n rest -> exists cfg, dict_get units n = Some cfg)
      by (intros n Hn; apply Hknown; now right).
    destruct outcome as [saved|].
    + destruct (IH (<[k := saved]> reports) Hrest) as (reports' & -> & Hlook).
      exists reports'. split; [reflexivity|]. intros n.
      destruct (Hlook n) as [Hout Hin]. split.
      * intros Hnot. rewrite Hout by (intros Hn; apply Hnot; now right).
        apply lookup_insert_ne. intros ->. apply Hnot. now left.
      * intros Hn. destruct (in_dec Z.eq_dec n rest) as [Hr|Hr].
        -- rewrite (Hin Hr). destruct (Z.eq_dec k n) as [->|Hne].
           ++ now rewrite Hk.
           ++ destruct (generate_unit units tree n) as [[r|]|]; try reflexivity;
                now apply lookup_insert_ne.
        -- destruct Hn as [->|Hn]; [|contradiction].
           rewrite (Hout Hr), Hk. apply lookup_insert_eq.
    + destruct (IH reports Hrest) as (reports' & -> & Hlook).
      exists reports'. split; [reflexivity|]. intros n.
      destruct (Hlook n) as [Hout Hin]. split.
      * intros Hnot. apply Hout. intros Hn. apply Hnot. now right.
      * intros Hn. destruct (in_dec Z.eq_dec n rest) as [Hr|Hr]; [now apply Hin|].
        destruct Hn as [->|Hn]; [|contradiction].
        now rewrite (Hout Hr), Hk.
Qed.

End GeneratedReports.

(** * The properties on sample inputs *)

#[local] Existing Instance Sample.pandas.
#[local] Existing Instance Sample.network.
#[local] Existing Instance Sample.rules.



(** C1 (the code departs from it).  Unit 100 has no cloud-storage folder
    and holds the table of 2024-01-01; its export for 2024-01-02 is
    unreachable.  After [download_minute_data] the unit still holds that
    table, its error list is empty, nothing is in the failed-downloads
    record and the log has the opening line only.  An empty payload, for
    2024-01-03, does unset the dataset and is recorded. *)
Theorem download_unreachable_keeps_stale_data :
  let u := set_data Sample.unit100 (Some Sample.day1) in
  read_csv_url (daily_url u "2024-01-02") = FetchOtherError "<urlopen error timed out>"
  /\ dict_get google_paths (unit_no u) = None
  /\ (let '(u', w') := download_minute_data u empty_world "2024-01-02" in
      data u' = Some Sample.day1
      /\ errors u' = []
      /\ failed_downloads w' = []
      /\ log w' = ["Downloading Unit 100: 10.0.0.5:8080"])
  /\ (let '(u', w') := download_minute_data u empty_world "2024-01-03" in
      data u' = None
      /\ length (errors u') = 1%nat
      /\ failed_downloads w' = [(100, "2024-01-03", daily_url u "2024-01-03")]
      /\ length (log w') = 2%nat).
Proof. vm_compute. repeat split. Qed.

(** C10 on the sample network: unit 100 on 2024-01-01 and 2024-01-02. *)
Lemma download_error_keeps_previous_data_witness :
  data (_download (set_data Sample.unit100 (Some Sample.day1)) empty_world
          (daily_url Sample.unit100 "2024-01-02")).1 = Some Sample.day1
  /\ exists prev u1 w1 us w2,
       download_minute_data Sample.unit100 empty_world "2024-01-01" = (u1, w1)
       /\ data u1 = Some prev
       /\ download_dates "Minute" "/tmp/out" ["2024-01-01"; "2024-01-02"]
            [Sample.unit100] empty_world = (us, w2, 2%nat)
       /\ files w2 !! output_file "/tmp/out" Sample.unit100 "2024-01-02" = Some prev.
Proof.
  destruct (@download_error_keeps_previous_data Sample.pandas Sample.network)
    as [Hkeep Hloop].
  split.
  - apply (Hkeep (set_data Sample.unit100 (Some Sample.day1)) empty_world
             (daily_url Sample.unit100 "2024-01-02") "<urlopen error timed out>").
    + reflexivity.
    + intros folder Hfolder. vm_compute in Hfolder. discriminate.
  - apply (Hloop Sample.unit100 empty_world "/tmp/out" "2024-01-01" "2024-01-02"
             Sample.day1 "<urlopen error timed out>"); reflexivity.
Defined.

(** C7 (as stated, refuted): the table has 19 entries, not 18. *)
Lemma google_paths_not_18_entries : length google_paths <> 18%nat.
Proof. vm_compute. lia. Qed.

(** C7 (amended) on the sample network: unit 77, whose export is
    unreachable, and unit 100, which has no folder. *)
Lemma fallback_uses_mapped_folder_witness :
  drive_requests (_download Sample.unit77 empty_world
                    (daily_url Sample.unit77 "2024-01-02")).2
  = [("1Z1ETfHlgitFOBx8SWqYiotkezFwL2ahb", "SER77_2024-01-02.csv")]
  /\ drive_requests (download_minute_data Sample.unit77 empty_world "2024-01-02").2
     = [("1Z1ETfHlgitFOBx8SWqYiotkezFwL2ahb", "SER77_2024-01-02.csv")]
  /\ drive_requests (download_hour_data Sample.unit77 empty_world "2024-01").2
     = [("1Z1ETfHlgitFOBx8SWqYiotkezFwL2ahb", "SER77_2024-01.csv")]
  /\ drive_requests (_download Sample.unit100 empty_world
                       (daily_url Sample.unit100 "2024-01-02")).2 = [].
Proof.
  destruct (@fallback_uses_mapped_folder Sample.pandas Sample.network)
    as (_ & _ & Hurl & Hdate & Hnone).
  split; [|split; [|split]].
  - apply (Hurl Sample.unit77 empty_world (daily_url Sample.unit77 "2024-01-02")
             "<urlopen error timed out>" "1Z1ETfHlgitFOBx8SWqYiotkezFwL2ahb");
      reflexivity.
  - apply (Hdate Sample.unit77 empty_world "2024-01-02" "<urlopen error timed out>"
             "1Z1ETfHlgitFOBx8SWqYiotkezFwL2ahb"); reflexivity.
  - apply (Hdate Sample.unit77 empty_world "2024-01" "<urlopen error timed out>"
             "1Z1ETfHlgitFOBx8SWqYiotkezFwL2ahb"); reflexivity.
  - apply (Hnone Sample.unit100 empty_world (daily_url Sample.unit100 "2024-01-02")).
    reflexivity.
Defined.

(** C8 (as stated, refuted).  A figure of 40 GB is not treated as healthy:
    the warning is logged and the alert is sent, also when the figure is
    scraped from the status page. *)
Lemma check_space_alerts_at_40 :
  float_of_str "40" = Some (Fin 40)
  /\ emails (check_space_on Sample.unit100 empty_world "40")
     = [space_alert Sample.unit100 "40"]
  /\ exists w', check_space Sample.unit100 empty_world = Ok w'
                /\ emails w' = [space_alert Sample.unit100 "40"]
                /\ log w' = [space_warning Sample.unit100 "40"].
Proof.
  split; [reflexivity|]. split; [reflexivity|].
  eexists. split; [reflexivity|]. split; reflexivity.
Qed.

(** C8 (amended) on the figures 12.5, 1, 40 and an unreadable one. *)
Lemma check_space_alerts_outside_open_range_witness :
  emails (check_space_on Sample.unit100 empty_world "12.5") = []
  /\ emails (check_space_on Sample.unit100 empty_world "1")
     = [space_alert Sample.unit100 "1"]
  /\ emails (check_space_on Sample.unit100 empty_world "40")
     = [space_alert Sample.unit100 "40"]
  /\ emails (check_space_on Sample.unit100 empty_world "n/a")
     = [space_alert Sample.unit100 "n/a"].
Proof.
  split; [|split; [|split]].
  - destruct (@check_space_alerts_outside_open_range Sample.pandas
                Sample.unit100 empty_world "12.5") as (Hin & _ & _).
    apply (Hin (inject_Z 12 + inject_Z 5 / inject_Z (10 ^ 1))%Q);
      [reflexivity | reflexivity | reflexivity].
  - destruct (@check_space_alerts_outside_open_range Sample.pandas
                Sample.unit100 empty_world "1") as (_ & Hout & _).
    apply (Hout (inject_Z 1)); [reflexivity|]. left. discriminate.
  - destruct (@check_space_alerts_outside_open_range Sample.pandas
                Sample.unit100 empty_world "40") as (_ & Hout & _).
    apply (Hout (inject_Z 40)); [reflexivity|]. right. discriminate.
  - destruct (@check_space_alerts_outside_open_range Sample.pandas
                Sample.unit100 empty_world "n/a") as (_ & _ & Hbad).
    apply Hbad. left. reflexivity.
Defined.

(** C9 (the code departs from it).  With a dataset and the data type
    [Hour], [check_quality] ends in a bare [return]: the caller gets [None]
    and not the two lists, whatever the rules, the dataset and the
    arguments are. *)
Theorem check_quality_hour_returns_none (R : Rules) (N : Network)
    (n b : Z) (ip p s : string) (chs : list (string * bool)) (d : DataFrame)
    (ws es : list string) (w : World) (save_files : bool) (date : string) :
  (check_quality (mkUnit n b ip p s chs (Some d) ws es "Hour") w save_files date).2
  = RetNone.
Proof.
  unfold check_quality. simpl.
  destruct (check_missing_rows d n) as [[mes mws] bad]. reflexivity.
Qed.

(** C2 (the code departs from it).  An empty cell reaches the loop of
    [_check_data_quality] as the float [NaN]; it is counted as missing and,
    because the first branch does not [continue], as bad too.  For one
    value examined the counts are good 0, missing 1, bad 1: their sum is 2.
    This holds for every channel and every number parser. *)
Theorem check_data_quality_counts_nan_twice :
  (forall (P : Pandas) (c : Channel),
     QualityChecker.count_values c [VFloat NaN] = (0, 1, 1))
  /\ length (rows Sample.blank_reading) = 1%nat
  /\ QualityChecker._check_data_quality Sample.blank_reading Sample.config100 "power"
     = Ok (Some [0; 1; 1]).
Proof.
  split; [|split; reflexivity].
  intros P c. unfold QualityChecker.count_values. simpl.
  reflexivity.
Qed.


(** C6 on the sample folder: two descriptors and a stray file give the
    units 77 and 100, in that order. *)
Lemma load_units_sorted_witness :
  exists units,
    BulkDownloadGUI.load_units Sample.config_dir = Ok units
    /\ QualityCheckerScaffold._load_units Sample.config_dir = Ok units
    /\ length units = 2%nat
    /\ map unit_no units = [77; 100].
Proof.
  assert (Hwf : well_formed_dir Sample.config_dir).
  { unfold well_formed_dir. simpl. repeat constructor; eexists; reflexivity. }
  assert (Hnd : List.NoDup (map cfg_unit_no (parsed_configs Sample.config_dir))).
  { simpl. repeat constructor; simpl; intuition discriminate. }
  destruct (load_units_sorted Sample.config_dir Hwf Hnd)
    as (units & Hgui & Hscaffold & Hlen & _ & _).
  exists units. split; [exact Hgui|]. split; [exact Hscaffold|].
  split; [exact Hlen|].
  assert (Heq : Ok units = Ok (sorted_by Z.leb unit_no
                                 [Unit_of_config Sample.config100;
                                  Unit_of_config Sample.config77]))
    by (rewrite <- Hgui; reflexivity).
  inversion Heq. reflexivity.
Defined.


(** * The further properties on sample inputs *)

(** X2 on unit 100, which starts without a dataset. *)
Lemma download_never_stores_empty_table_witness :
  data_ok (_download Sample.unit100 empty_world (daily_url Sample.unit100 "2024-01-03")).1
  /\ emails (_download Sample.unit100 empty_world
               (daily_url Sample.unit100 "2024-01-03")).2 = [].
Proof.
  destruct (@download_never_stores_empty_table Sample.pandas Sample.network
              Sample.unit100 empty_world (daily_url Sample.unit100 "2024-01-03"))
    as (Hok & _ & Hmail & _); [exact I|].
  split; [exact Hok|exact Hmail].
Defined.


(** X6 on a unit that monitors the channel flow, which the sample registry
    lacks. *)
Lemma check_quality_unknown_channel_raises_witness :
  exists u' w' msg,
    check_quality Sample2.unit_with_flow empty_world true "2024-01-01"
    = (u', w', Raises msg)
    /\ files w' = ∅.
Proof.
  apply (@check_quality_unknown_channel_raises Sample.rules Sample.network
           Sample2.unit_with_flow empty_world true "2024-01-01" Sample.day1 "flow").
  - reflexivity.
  - discriminate.
  - right. left. reflexivity.
  - reflexivity.
Defined.

(** X7 on a folder with two descriptors of unit 100: the later one is
    kept. *)
Lemma load_units_dict_last_wins_witness :
  exists units,
    QualityChecker._load_units Sample2.config_dir_twice [] = Ok units
    /\ dict_get units 100 = Some Sample2.config100_new
    /\ dict_get units 77 = Some Sample.config77
    /\ dict_get units 5 = None.
Proof.
  assert (Hwf : well_formed_dir Sample2.config_dir_twice).
  { unfold well_formed_dir. simpl. repeat constructor; eexists; reflexivity. }
  destruct (load_units_dict_last_wins Sample2.config_dir_twice Hwf)
    as (units & Hload & _ & _ & Hget).
  exists units. split; [exact Hload|].
  split; [|split]; rewrite Hget; reflexivity.
Defined.


(** X9 on the export with one empty reading. *)
Lemma check_data_quality_sum_witness :
  exists channel_info i good missing bad,
    [0; 1; 1] = [good; missing; bad]
    /\ QualityChecker.first_match (regex channel_info) (columns Sample.blank_reading) = Some i
    /\ good + missing + bad
       = Z.of_nat (length (rows Sample.blank_reading))
         + Z.of_nat (nan_cells (map (fun r => nth i r VNone)
                                    (rows Sample.blank_reading))).
Proof.
  destruct (@check_data_quality_sum Sample.pandas Sample.rules
              Sample.blank_reading Sample.config100 "power" [0; 1; 1] eq_refl)
    as (c & i & g & m & b & _ & _ & Hcol & Hcounts & _ & _ & _ & Hsum).
  exists c, i, g, m, b. split; [exact Hcounts|]. split; [exact Hcol|exact Hsum].
Defined.

(** X10 on the sample tree and a month without files. *)
Lemma process_data_shape_witness :
  exists results,
    Reporting.process_data [(100, Sample.config100)] Sample.tree 100 "2024-03"
    = Ok (Some results)
    /\ Forall (fun e => e.2 = [0; 0; 0]) results
    /\ (exists l, dict_get results "power" = Some l).
Proof.
  destruct (@process_data_shape Sample.pandas Sample.rules
              [(100, Sample.config100)] Sample.tree 100 "2024-03"
              Sample.config100
              [("Minute_2024-01-01.csv",
                Ok (mkDataFrame ["Time"; "Power (kW)"]
                      [[VStr "2024-01-01 00:00:00"; VInt 50];
                       [VStr "2024-01-01 00:01:00"; VFloat NaN];
                       [VStr "2024-01-01 00:02:00"; VInt 101]]));
               ("Minute_2024-02-01.csv",
                Ok (mkDataFrame ["Time"; "Power (kW)"]
                      [[VStr "2024-02-01 00:00:00"; VInt 0]]))])
    as (results & Hres & _ & Hkeys & Hzero); [reflexivity|reflexivity|].
  exists results. split; [exact Hres|]. split; [now apply Hzero|].
  apply Hkeys. split; [now left|reflexivity].
Defined.

(** X12 on the report of the sample worksheet. *)
Lemma formatting_accepts_written_reports_witness :
  exists ws',
    QualityChecker._apply_conditional_formatting Sample.worksheet = Ok ws'
    /\ map (map value) ws' = map (map value) Sample.worksheet.
Proof.
  apply (formatting_accepts_written_reports
           (mkReport ["power"; "energy"; "flow"]
              [("2024-01", ["Good: 94, Missing: 0, Bad: 6";
                            "Good: 98, Missing: 1, Bad: 1";
                            "Good: 100, Missing: 0, Bad: 0"])])).
  unfold formatted_report. simpl. repeat constructor.
  - exists (Some [94; 0; 6]). reflexivity.
  - exists (Some [98; 1; 1]). reflexivity.
  - exists (Some [100; 0; 0]). reflexivity.
Defined.


(** X14 on a tree with the file that the download loop writes for unit
    100 and 2024-01-01. *)
Lemma update_quality_report_skips_written_files_witness :
  Reporting.update_quality_report [(100, Sample.config100)]
    {[ 100 := [("Unit_100_2024-01-01.csv", Ok Sample.day1)] ]} "Minute" ∅
  = Ok (∅, []).
Proof.
  apply (@update_quality_report_skips_written_files Sample.pandas Sample.rules).
  - now left.
  - intros k listing Hk. apply lookup_singleton_Some in Hk as [_ <-].
    repeat constructor. exists 100, "2024-01-01". repeat split.
Defined.

(** X15 on a name that starts with a letter and one that starts with a
    digit. *)
Lemma natural_sort_key_comparable_witness :
  exists ks kt r,
    natural_sort_key "Unit_2.csv" = Ok ks /\ natural_sort_key "10a" = Ok kt
    /\ key_lt ks kt = Ok r.
Proof.
  apply (natural_sort_key_comparable "Unit_2.csv" "10a"); reflexivity.
Defined.

(** X16 on three names that the order of texts would arrange otherwise. *)
Lemma sort_natural_sorted_witness :
  exists sorted,
    sort_natural (fun name : string => name) ["f10.csv"; "F9.csv"; "f2.csv"] = Ok sorted
    /\ Permutation ["f10.csv"; "F9.csv"; "f2.csv"] sorted
    /\ StronglySorted (fun x y => natural_le x y) sorted.
Proof.
  apply (sort_natural_sorted (fun name : string => name)
           ["f10.csv"; "F9.csv"; "f2.csv"]).
  repeat constructor.
Defined.

(** X17 on the files of unit 100 for the ninth and the tenth of January
    2024: as texts the second name comes first, as keys it comes last. *)
Lemma downloaded_files_sort_by_date_witness :
  exists ka kb,
    natural_sort_key (output_file "out" Sample.unit100
                        (date_str "Minute" (mkDate 2024 1 9))) = Ok ka
    /\ natural_sort_key (output_file "out" Sample.unit100
                           (date_str "Minute" (mkDate 2024 1 10))) = Ok kb
    /\ key_lt ka kb = Ok true.
Proof.
  apply (downloaded_files_sort_by_date "out" "Minute" Sample.unit100
           (mkDate 2024 1 9) (mkDate 2024 1 10));
    [reflexivity|reflexivity|reflexivity|reflexivity|now left].
Defined.

(** X18 on a folder with two readable exports, an unreadable one and a
    file that is not an export. *)
Lemma combine_unit_keeps_rows_witness :
  match combine_unit "out/UNIT 100" SampleFolder.listing with
  | None => read_frames (csv_files "out/UNIT 100" SampleFolder.listing) = []
  | Some combined =>
      columns combined = ["Time"; "Power (kW)"]
      /\ Permutation (rows combined)
           (concat (map rows (read_frames (csv_files "out/UNIT 100" SampleFolder.listing))))
  end.
Proof.
  apply (@combine_unit_keeps_rows Sample.pandas "out/UNIT 100" SampleFolder.listing
           ["Time"; "Power (kW)"]); [reflexivity| |]; repeat constructor.
Defined.

(** X19 on February 2024 at both ends: the 29th is left out. *)
Lemma minute_dates_leave_out_last_day_witness :
  exists fuel outcome,
    (forall fuel', (fuel <= fuel')%nat ->
       dates_to_download fuel' "Minute" [Sample.unit100] (date_form 2 2024 2 2024)
       = Some outcome)
    /\ match outcome with
       | Err msg => 2024 * 12 + 2 < 2024 * 12 + 2 /\ msg = "Invalid date range"
       | Ok dates =>
           2024 * 12 + 2 <= 2024 * 12 + 2
           /\ StronglySorted (fun a b => dt_lt a b = true) dates
           /\ forall d,
                In d dates
                <-> valid d = true
                    /\ 2024 * 12 + 2 <= month_index d <= 2024 * 12 + 2
                    /\ d <> mkDate 2024 2 (days_in_month 2024 2)
       end.
Proof.
  apply (minute_dates_leave_out_last_day [Sample.unit100] 2 2024 2 2024);
    [discriminate|lia|lia|lia|lia].
Defined.

(** X20 on January to March 2024. *)
Lemma hour_dates_leave_out_end_month_witness :
  exists fuel outcome,
    (forall fuel', (fuel <= fuel')%nat ->
       dates_to_download fuel' "Hour" [Sample.unit100] (date_form 1 2024 3 2024)
       = Some outcome)
    /\ match outcome with
       | Err msg =>
           (2024 * 12 + 3 < 2024 * 12 + 1 /\ msg = "Invalid date range")
           \/ (2024 * 12 + 3 = 2024 * 12 + 1
               /\ msg = "No dates to download in the specified range")
       | Ok dates =>
           2024 * 12 + 1 < 2024 * 12 + 3
           /\ StronglySorted (fun a b => dt_lt a b = true) dates
           /\ forall d,
                In d dates
                <-> first_day d /\ 2024 * 12 + 1 <= month_index d < 2024 * 12 + 3
       end.
Proof.
  apply (hour_dates_leave_out_end_month [Sample.unit100] 1 2024 3 2024);
    [discriminate|lia|lia|lia|lia].
Defined.


(** X22 on the combined file of unit 100. *)
Lemma combined_report_has_one_row_witness :
  Generating.generate_unit [(100, Sample.config100)]
    {[ 100 := combined_folder 100 Sample.descending ]} 100
  = Ok (Some (mkReport ["power"] [("combine", ["Good: 3, Missing: 0, Bad: 0"])])).
Proof.
  destruct (@combined_report_has_one_row Sample.pandas Sample.rules
              [(100, Sample.config100)]
              {[ 100 := combined_folder 100 Sample.descending ]} 100
              Sample.config100 Sample.descending)
    as [_ Hrun]; [reflexivity|now apply lookup_singleton_Some|discriminate|].
  exact Hrun.
Defined.

(** X23 on the sample tree, with unit 100 selected twice. *)
Lemma generate_quality_report_completes_witness :
  exists reports',
    Generating.generate_quality_report [(100, Sample.config100)] Sample.tree
      [100; 100] ∅ = (reports', None).
Proof.
  destruct (@generate_quality_report_completes Sample.pandas Sample.rules
              [(100, Sample.config100)] Sample.tree [100; 100] ∅)
    as (reports' & Hrun & _).
  - intros n [<-|[<-|[]]]; now exists Sample.config100.
  - now exists reports'.
Defined.
